(** * TaskManager: the terminal toolkit (libterm.py, libtui.py) and the
    navigation stack (lista_de_tarefas.py), embedded and verified.

    Python integers are [Z]; Python strings are [string]; keys are the
    strings the driver returns ([Keys.UP] is the text UP_ARROW, a
    printable key is a one-character string).  Objects that the code
    mutates in place are records threaded through the functions; a
    widget held by a screen is referred to by its position in the
    screen's [children]. *)

From Stdlib Require Import ZArith Ascii String Lia Bool.
From stdpp Require Import gmap strings list.
Open Scope string_scope.
Open Scope Z_scope.

(** ** libterm.py: symbolic key names *)

Module Keys.
Definition UP := "UP_ARROW".
Definition DOWN := "DOWN_ARROW".
Definition LEFT := "LEFT_ARROW".
Definition RIGHT := "RIGHT_ARROW".
Definition F1 := "F1".
Definition F2 := "F2".
Definition F3 := "F3".
Definition F4 := "F4".
Definition F5 := "F5".
Definition F6 := "F6".
Definition F7 := "F7".
Definition F8 := "F8".
Definition F9 := "F9".
Definition F10 := "F10".
Definition F11 := "F11".
Definition F12 := "F12".
Definition HOME := "HOME".
Definition END := "END".
Definition PAGE_UP := "PAGE_UP".
Definition PAGE_DOWN := "PAGE_DOWN".
Definition INSERT := "INSERT".
Definition DELETE := "DELETE".
Definition ESC := "ESC".
Definition TAB := "TAB".
Definition SHIFT_TAB := "SHIFT_TAB".
Definition ENTER := "ENTER".
Definition BACKSPACE := "BACKSPACE".
Definition SPACE := " ".
End Keys.

(** The pseudo-key the navigation stack sends to a re-exposed screen. *)
Definition REFRESH := "REFRESH".

(** [key == Keys.X] on Python strings. *)
Definition key_is (key name : string) : bool := String.eqb key name.

(** ** Exceptions and Python list indexing *)

Inductive Exc :=
| IndexError
| IOError
| SystemExit.

Inductive Result (A : Type) :=
| Ok (a : A)
| Raise (e : Exc).
Arguments Ok {A} a.
Arguments Raise {A} e.

Definition bind {A B} (r : Result A) (k : A -> Result B) : Result B :=
  match r with
  | Ok a => k a
  | Raise e => Raise e
  end.

Notation "'do' x <- r ; k" := (bind r (fun x => k))
  (at level 10, x pattern, r at level 100, k at level 200).

(** The position [l[i]] denotes: a negative index counts from the end,
    an index outside [-len, len) raises IndexError. *)
Definition py_pos {A} (l : list A) (i : Z) : Result nat :=
  let len := Z.of_nat (length l) in
  if (0 <=? i) && (i <? len) then Ok (Z.to_nat i)
  else if (- len <=? i) && (i <? 0) then Ok (Z.to_nat (len + i))
  else Raise IndexError.

(** [l[i]] *)
Definition py_get {A} (l : list A) (i : Z) : Result A :=
  do p <- py_pos l i;
  match l !! p with
  | Some a => Ok a
  | None => Raise IndexError
  end.

(** [l[i].field = v], an in-place change of the object at [l[i]]. *)
Definition py_alter {A} (f : A -> A) (l : list A) (i : Z) : Result (list A) :=
  do p <- py_pos l i; Ok (alter f p l).

(** ** libterm.py: Terminal.read_key (the POSIX branch) *)

Module Terminal.

(** The escape introducer, chr(27). *)
Definition ESC_BYTE : ascii := ascii_of_nat 27.
Definition DEL_BYTE : ascii := ascii_of_nat 127.
Definition LF_BYTE : ascii := ascii_of_nat 10.
Definition TAB_BYTE : ascii := ascii_of_nat 9.

(** A sequence that starts with the escape introducer. *)
Definition esc (rest : string) : string := String ESC_BYTE rest.

(** [self.escape_sequences], the dict of known multi-byte sequences. *)
Definition escape_sequences : gmap string string :=
  list_to_map [
    (esc "[A", Keys.UP); (esc "[B", Keys.DOWN);
    (esc "[C", Keys.RIGHT); (esc "[D", Keys.LEFT);
    (esc "[Z", Keys.SHIFT_TAB);
    (esc "OA", Keys.UP); (esc "OB", Keys.DOWN);
    (esc "OC", Keys.RIGHT); (esc "OD", Keys.LEFT);
    (esc "OP", Keys.F1); (esc "OQ", Keys.F2);
    (esc "OR", Keys.F3); (esc "OS", Keys.F4);
    (esc "[15~", Keys.F5); (esc "[17~", Keys.F6);
    (esc "[18~", Keys.F7); (esc "[19~", Keys.F8);
    (esc "[20~", Keys.F9); (esc "[21~", Keys.F10);
    (esc "[23~", Keys.F11); (esc "[24~", Keys.F12);
    (esc "[H", Keys.HOME); (esc "[F", Keys.END);
    (esc "[1~", Keys.HOME); (esc "[4~", Keys.END);
    (esc "OH", Keys.HOME); (esc "OF", Keys.END);
    (esc "[5~", Keys.PAGE_UP); (esc "[6~", Keys.PAGE_DOWN);
    (esc "[2~", Keys.INSERT); (esc "[3~", Keys.DELETE)
  ].

(** What one [self.stdin.read(1)] gives: a character, nothing (the empty
    string or None: end of input, or no byte ready in non-blocking mode),
    or a raised IOError/TypeError. *)
Inductive ReadResult :=
| RChar (c : ascii)
| REmpty
| RError.

(** The standard input as the results its successive reads will give.
    Past the end of the list a non-blocking read finds nothing and a
    blocking read waits. *)
Definition Stdin := list ReadResult.

(** The [while True] loop that reads the rest of an escape sequence:
    it stops at the first read that gives nothing or raises (the
    exception is caught), and that read is used up. *)
Fixpoint read_sequence (sequence : string) (input : Stdin) : string * Stdin :=
  match input with
  | RChar next_char :: input' =>
      read_sequence (sequence +:+ String next_char EmptyString) input'
  | REmpty :: input' => (sequence, input')
  | RError :: input' => (sequence, input')
  | [] => (sequence, [])
  end.

(** What a call of [read_key] ends with. *)
Inductive KeyRead :=
| Got (key : string)
| Raised.

(** [read_key]: [None] when the blocking first read has nothing to
    deliver yet.  The first read is outside any [try], so an error there
    propagates. *)
Definition read_key (input : Stdin) : option (KeyRead * Stdin) :=
  match input with
  | [] => None
  | RError :: input' => Some (Raised, input')
  | REmpty :: input' => Some (Got EmptyString, input')
  | RChar ch :: input' =>
      if Ascii.eqb ch ESC_BYTE then
        let '(sequence, rest) := read_sequence (String ch EmptyString) input' in
        if String.eqb sequence (String ESC_BYTE EmptyString) then
          Some (Got Keys.ESC, rest)
        else
          Some (Got (default sequence (escape_sequences !! sequence)), rest)
      else if Ascii.eqb ch DEL_BYTE then Some (Got Keys.BACKSPACE, input')
      else if Ascii.eqb ch LF_BYTE then Some (Got Keys.ENTER, input')
      else if Ascii.eqb ch TAB_BYTE then Some (Got Keys.TAB, input')
      else Some (Got (String ch EmptyString), input')
  end.

(** The bytes that are ready, as reads. *)
Definition ready (bytes : string) : Stdin :=
  map RChar (list_ascii_of_string bytes).

(** The input after the ready bytes: it does not go on with a byte. *)
Definition idle (later : Stdin) : Prop :=
  match later with
  | RChar _ :: _ => False
  | _ => True
  end.

End Terminal.

(** ** libtui.py: IntInput

    The displayed text is recomputed from [value] by [update_text] and is
    read only by [render]; it is not kept here. *)

Module IntInput.

Record t := mk {
  is_focused : bool;
  value : Z;
  min : option Z;
  max : option Z;
  _being_edited : bool
}.

Definition set_value (v : Z) (self : t) : t :=
  mk (is_focused self) v (min self) (max self) (_being_edited self).

Definition set_being_edited (b : bool) (self : t) : t :=
  mk (is_focused self) (value self) (min self) (max self) b.

Definition set_is_focused (b : bool) (self : t) : t :=
  mk b (value self) (min self) (max self) (_being_edited self).

(** [process_input]: the new state and the returned flag. *)
Definition process_input (self : t) (key : string) : t * bool :=
  if negb (is_focused self) then (self, false)
  else if _being_edited self then
    if key_is key Keys.UP then
      let self := set_value (value self + 1) self in
      let self :=
        match max self with
        | Some m => if m <? value self then set_value m self else self
        | None => self
        end in
      (self, true)
    else if key_is key Keys.DOWN then
      let self := set_value (value self - 1) self in
      let self :=
        match min self with
        | Some m => if value self <? m then set_value m self else self
        | None => self
        end in
      (self, true)
    else if key_is key Keys.ENTER || key_is key Keys.ESC then
      (set_being_edited false self, true)
    else (self, true)
  else
    if key_is key Keys.ENTER then (set_being_edited true self, true)
    else (self, false).

End IntInput.

(** ** libtui.py: DateInput *)

Module DateInput.

Record t := mk {
  is_focused : bool;
  day : Z;
  month : Z;
  year : Z;
  focus_index : Z;
  _being_edited : bool
}.

Definition n_dias_mes : list Z := [31; 28; 31; 30; 31; 30; 31; 31; 30; 31; 30; 31].

Definition set_day (v : Z) (self : t) : t :=
  mk (is_focused self) v (month self) (year self) (focus_index self) (_being_edited self).

Definition set_month (v : Z) (self : t) : t :=
  mk (is_focused self) (day self) v (year self) (focus_index self) (_being_edited self).

Definition set_year (v : Z) (self : t) : t :=
  mk (is_focused self) (day self) (month self) v (focus_index self) (_being_edited self).

Definition set_focus_index (v : Z) (self : t) : t :=
  mk (is_focused self) (day self) (month self) (year self) v (_being_edited self).

Definition set_being_edited (b : bool) (self : t) : t :=
  mk (is_focused self) (day self) (month self) (year self) (focus_index self) b.

Definition set_is_focused (b : bool) (self : t) : t :=
  mk b (day self) (month self) (year self) (focus_index self) (_being_edited self).

Definition _bissexto (year : Z) : bool :=
  (year mod 4 =? 0) && (negb (year mod 100 =? 0) || (year mod 400 =? 0)).

Definition _max_day_in_month (month year : Z) : Result Z :=
  if month =? 2 then Ok (if _bissexto year then 29 else 28)
  else py_get n_dias_mes (month - 1).

(** The adjustment made after the month or the year changed:
    [if self.day > max_day: self.day = max_day]. *)
Definition clamp_day (self : t) : Result t :=
  do max_day <- _max_day_in_month (month self) (year self);
  Ok (if max_day <? day self then set_day max_day self else self).

Definition process_input (self : t) (key : string) : Result (t * bool) :=
  if negb (is_focused self) then Ok (self, false)
  else if _being_edited self then
    if key_is key Keys.UP then
      if focus_index self =? 0 then
        let self := set_day (day self + 1) self in
        do max_day <- _max_day_in_month (month self) (year self);
        Ok (if max_day <? day self then set_day 1 self else self, true)
      else if focus_index self =? 1 then
        let self := set_month (month self + 1) self in
        let self := if 12 <? month self then set_month 1 self else self in
        do self <- clamp_day self; Ok (self, true)
      else if focus_index self =? 2 then
        let self := set_year (year self + 1) self in
        do self <- clamp_day self; Ok (self, true)
      else Ok (self, true)
    else if key_is key Keys.DOWN then
      if focus_index self =? 0 then
        let self := set_day (day self - 1) self in
        if day self <? 1 then
          do max_day <- _max_day_in_month (month self) (year self);
          Ok (set_day max_day self, true)
        else Ok (self, true)
      else if focus_index self =? 1 then
        let self := set_month (month self - 1) self in
        let self := if month self <? 1 then set_month 12 self else self in
        do self <- clamp_day self; Ok (self, true)
      else if focus_index self =? 2 then
        let self := set_year (year self - 1) self in
        let self := if year self <? 1 then set_year 1 self else self in
        do self <- clamp_day self; Ok (self, true)
      else Ok (self, true)
    else if key_is key Keys.ESC then Ok (set_being_edited false self, true)
    else if key_is key Keys.ENTER then Ok (set_being_edited false self, true)
    else Ok (self, false)
  else
    if key_is key Keys.LEFT then
      Ok (set_focus_index ((focus_index self - 1) mod 3) self, true)
    else if key_is key Keys.RIGHT then
      Ok (set_focus_index ((focus_index self + 1) mod 3) self, true)
    else if key_is key Keys.ENTER then Ok (set_being_edited true self, true)
    else Ok (self, false).

End DateInput.

(** ** libtui.py: the Widget contract

    A callback bound to a widget or a dialog is named, not run, by the
    widget: [process_input] reports the callbacks it invoked, in order,
    and the application runs them.  Every widget that invokes a callback
    returns a true value right after it, and a screen returns as soon as
    its focused widget returned a true value, so nothing of the screen's
    own handling is reordered by this. *)

Inductive Callback :=
| view_selected_list_tasks
| view_all_tasks
| create_new_list
| edit_selected_list
| search_tasks
| _cancel_delete
| _perform_actual_delete
| _perform_delete_all_completed
| _clear_dialog
| remover_tarefas_concluidas
| pop_screen_stack.

(** What every widget class offers to a screen: its position, the two
    focus flags, and [process_input], whose result is the changed widget,
    the truth value of what it returned and the callbacks it invoked. *)
Class Widget (W : Type) := {
  w_x : W -> Z;
  w_y : W -> Z;
  w_is_focused : W -> bool;
  w_is_focusable : W -> bool;
  w_set_is_focused : bool -> W -> W;
  w_process_input : W -> string -> Result (W * bool * list Callback)
}.

(** Assigning [is_focused] changes that attribute only, and a widget
    that handles a key does not change its own focus flags. *)
Class WidgetLaws (W : Type) `{Widget W} := {
  focused_set : forall b w, w_is_focused (w_set_is_focused b w) = b;
  focusable_set : forall b w, w_is_focusable (w_set_is_focused b w) = w_is_focusable w;
  x_set : forall b w, w_x (w_set_is_focused b w) = w_x w;
  y_set : forall b w, w_y (w_set_is_focused b w) = w_y w;
  input_keeps_flags : forall w key w' r cbs,
    w_process_input w key = Ok (w', r, cbs) ->
    w_is_focused w' = w_is_focused w /\ w_is_focusable w' = w_is_focusable w
}.

(** *** Label, Frame, Button *)

Module Label.

Record t := mk {
  text : string;
  x : Z;
  y : Z;
  is_focused : bool;
  is_focusable : bool
}.

Definition set_is_focused (b : bool) (self : t) : t :=
  mk (text self) (x self) (y self) b (is_focusable self).

(** [Label(text, x, y)]: [is_focusable] is False. *)
Definition new (text : string) (x y : Z) : t := mk text x y false false.

(** Inherited [Widget.process_input]: returns None. *)
Definition process_input (self : t) (key : string) : t * bool := (self, false).

End Label.

(** [Frame.__init__] does not run [Widget.__init__]: a frame has no
    [is_focused] until something assigns it, and nothing reads it, since
    a frame is not focusable; the field is False until assigned. *)
Module Frame.

Record t := mk {
  x : Z;
  y : Z;
  width : Z;
  height : Z;
  is_focused : bool;
  is_focusable : bool
}.

Definition set_is_focused (b : bool) (self : t) : t :=
  mk (x self) (y self) (width self) (height self) b (is_focusable self).

Definition new (x y width height : Z) : t := mk x y width height false false.

End Frame.

Module Button.

Record t := mk {
  text : string;
  x : Z;
  y : Z;
  on_click : option Callback;
  is_focused : bool;
  is_focusable : bool
}.

Definition set_is_focused (b : bool) (self : t) : t :=
  mk (text self) (x self) (y self) (on_click self) b (is_focusable self).

(** [Button(text, x, y, on_click)]: [is_focusable] is True. *)
Definition new (text : string) (x y : Z) (on_click : option Callback) : t :=
  mk text x y on_click false true.

(** Returns the text enter (a true value) on ENTER when focused, after
    calling [on_click] if there is one; None otherwise. *)
Definition process_input (self : t) (key : string) : t * bool * list Callback :=
  if negb (is_focused self) then (self, false, [])
  else if key_is key Keys.ENTER && is_focused self then
    (self, true, match on_click self with Some cb => [cb] | None => [] end)
  else (self, false, []).

End Button.

#[export] Instance Label_widget : Widget Label.t := {|
  w_x := Label.x;
  w_y := Label.y;
  w_is_focused := Label.is_focused;
  w_is_focusable := Label.is_focusable;
  w_set_is_focused := Label.set_is_focused;
  w_process_input := fun self key =>
    let '(self, r) := Label.process_input self key in Ok (self, r, [])
|}.

#[export] Instance Frame_widget : Widget Frame.t := {|
  w_x := Frame.x;
  w_y := Frame.y;
  w_is_focused := Frame.is_focused;
  w_is_focusable := Frame.is_focusable;
  w_set_is_focused := Frame.set_is_focused;
  w_process_input := fun self key => Ok (self, false, [])
|}.

#[export] Instance Button_widget : Widget Button.t := {|
  w_x := Button.x;
  w_y := Button.y;
  w_is_focused := Button.is_focused;
  w_is_focusable := Button.is_focusable;
  w_set_is_focused := Button.set_is_focused;
  w_process_input := fun self key => Ok (Button.process_input self key)
|}.

(** *** VerticalList, over any class of child widgets *)

Module VerticalList.
Section WithChild.
Context {C : Type} {WC : Widget C}.

Record t := mk {
  x : Z;
  y : Z;
  width : Z;
  height : Z;
  children : list C;
  scroll_offset : Z;
  _focus_index : Z;
  is_focusable : bool;
  is_focused : bool
}.

Definition set_children (v : list C) (self : t) : t :=
  mk (x self) (y self) (width self) (height self) v
     (scroll_offset self) (_focus_index self) (is_focusable self) (is_focused self).

Definition set_scroll_offset (v : Z) (self : t) : t :=
  mk (x self) (y self) (width self) (height self) (children self)
     v (_focus_index self) (is_focusable self) (is_focused self).

Definition set__focus_index (v : Z) (self : t) : t :=
  mk (x self) (y self) (width self) (height self) (children self)
     (scroll_offset self) v (is_focusable self) (is_focused self).

Definition set_is_focused (b : bool) (self : t) : t :=
  mk (x self) (y self) (width self) (height self) (children self)
     (scroll_offset self) (_focus_index self) (is_focusable self) b.

(** [VerticalList(x, y, width, height)] *)
Definition new (x y width height : Z) : t :=
  mk x y width height [] 0 0 true false.

Definition len (self : t) : Z := Z.of_nat (length (children self)).

(** The [focus_index] property. *)
Definition focus_index (self : t) : Z :=
  if len self =? 0 then 0
  else Z.min (_focus_index self) (len self - 1).

(** The [focus_index] setter. *)
Definition set_focus_index (value : Z) (self : t) : t :=
  if len self =? 0 then set__focus_index 0 self
  else set__focus_index (Z.max 0 (Z.min value (len self - 1))) self.

Definition add_child (widget : C) (self : t) : t :=
  set_children (children self ++ [widget]) self.

Definition _ensure_visible (self : t) : t :=
  if focus_index self <? scroll_offset self then
    set_scroll_offset (focus_index self) self
  else if scroll_offset self + height self - 2 <=? focus_index self then
    set_scroll_offset (focus_index self - (height self - 3)) self
  else self.

Definition _move_focus (delta : Z) (self : t) : Result t :=
  match children self with
  | [] => Ok self
  | _ =>
      let current_index := focus_index self in
      do cs <- py_alter (w_set_is_focused false) (children self) current_index;
      let self := set_children cs self in
      let self := set_focus_index ((current_index + delta) mod len self) self in
      do cs <- py_alter (w_set_is_focused true) (children self) (focus_index self);
      let self := set_children cs self in
      Ok (_ensure_visible self)
  end.

Definition process_input (self : t) (key : string)
  : Result (t * bool * list Callback) :=
  if negb (is_focused self) then Ok (self, false, [])
  else if key_is key Keys.UP then
    do self <- _move_focus (-1) self; Ok (self, true, [])
  else if key_is key Keys.DOWN then
    do self <- _move_focus 1 self; Ok (self, true, [])
  else
    match children self with
    | [] => Ok (self, false, [])
    | _ =>
        do p <- py_pos (children self) (focus_index self);
        do selected_child <- py_get (children self) (focus_index self);
        do (child', r, cbs) <- w_process_input selected_child key;
        Ok (set_children (<[p := child']> (children self)) self, r, cbs)
    end.

(** The lists the screens build and drive: a fresh list, rows added
    with [add_child], selection moves. *)
Inductive built : t -> Prop :=
| built_new x y width height : built (new x y width height)
| built_add_child v widget : built v -> built (add_child widget v)
| built_move_focus v delta v' :
    built v -> _move_focus delta v = Ok v' -> built v'.

End WithChild.
Arguments t C : clear implicits.
End VerticalList.

#[export] Instance VerticalList_widget {C} `{Widget C} : Widget (VerticalList.t C) := {|
  w_x := VerticalList.x;
  w_y := VerticalList.y;
  w_is_focused := VerticalList.is_focused;
  w_is_focusable := VerticalList.is_focusable;
  w_set_is_focused := VerticalList.set_is_focused;
  w_process_input := VerticalList.process_input
|}.

(** ** libtui.py: TUIScreen

    A widget of the screen is named by its position in [children].  A
    subclass that overrides [get_focusable_widgets] with an explicit list
    is a screen whose [tab_order] is [Some] of that list; [None] is the
    inherited rule (the focusable children, in insertion order). *)

Module TUIScreen.
Section WithWidget.
Context {W : Type} {WW : Widget W}.

Record t := mk {
  children : list W;
  tab_order : option (list nat);
  focus_index : option Z
}.

(** [TUIScreen.__init__] *)
Definition new : t := mk [] None None.

Definition set_children (v : list W) (self : t) : t :=
  mk v (tab_order self) (focus_index self).

Definition set_focus_index (v : Z) (self : t) : t :=
  mk (children self) (tab_order self) (Some v).

(** [w.is_focusable] and [w.is_focused] of the widget at a position. *)
Definition focusable_at (self : t) (i : nat) : bool :=
  match children self !! i with
  | Some w => w_is_focusable w
  | None => false
  end.

Definition focused_at (self : t) (i : nat) : bool :=
  match children self !! i with
  | Some w => w_is_focused w
  | None => false
  end.

Definition get_focusable_widgets (self : t) : list nat :=
  match tab_order self with
  | Some order => order
  | None =>
      filter (fun i => focusable_at self i = true)
             (seq 0 (length (children self)))
  end.

(** The first focused widget of the tab order, or None. *)
Definition get_focused_widget (self : t) : option nat :=
  snd <$> list_find (fun i => focused_at self i = true) (get_focusable_widgets self).

(** [widgets.index(w)]: the first position of [w], None for ValueError. *)
Definition index_of (widgets : list nat) (w : nat) : option nat :=
  fst <$> list_find (fun i => i = w) widgets.

(** [w.is_focused = b] on the widget at a position. *)
Definition assign_is_focused (b : bool) (i : nat) (self : t) : t :=
  set_children (alter (w_set_is_focused b) i (children self)) self.

Definition set_focus_by_index (index : Z) (self : t) : t :=
  let focusable_widgets := get_focusable_widgets self in
  match focusable_widgets with
  | [] => self
  | _ =>
      let index_to_focus :=
        Z.max 0 (Z.min index (Z.of_nat (length focusable_widgets) - 1)) in
      let self :=
        match get_focused_widget self with
        | Some current_focused => assign_is_focused false current_focused self
        | None => self
        end in
      let self :=
        match focusable_widgets !! Z.to_nat index_to_focus with
        | Some target => assign_is_focused true target self
        | None => self
        end in
      set_focus_index index_to_focus self
  end.

Definition move_focus (direction : Z) (self : t) : t :=
  let focusable_widgets := get_focusable_widgets self in
  match focusable_widgets with
  | [] => self
  | _ =>
      let new_index :=
        match get_focused_widget self with
        | Some current_focused_widget =>
            match index_of focusable_widgets current_focused_widget with
            | Some current_index =>
                (Z.of_nat current_index + direction)
                  mod Z.of_nat (length focusable_widgets)
            | None => if direction =? 1 then 0 else -1
            end
        | None => if direction =? 1 then 0 else -1
        end in
      set_focus_by_index new_index self
  end.

(** A candidate of the directional search: the offset along the
    direction, the offset across it, and the widget. *)
Definition Candidate : Type := Z * Z * nat.

Definition c0 (c : Candidate) : Z := c.1.1.
Definition c1 (c : Candidate) : Z := c.1.2.
Definition c2 (c : Candidate) : nat := c.2.

(** The sort key [(abs(c[1]), abs(c[0]))]. *)
Definition sort_key (c : Candidate) : Z * Z := (Z.abs (c1 c), Z.abs (c0 c)).

(** Tuple comparison [a <= b]. *)
Definition key_le (a b : Z * Z) : bool :=
  (a.1 <? b.1) || ((a.1 =? b.1) && (a.2 <=? b.2)).

(** [list.sort(key=...)] is stable: equal keys keep their order.  The
    element being inserted comes from before the ones already placed. *)
Fixpoint insert_by_key (c : Candidate) (sorted : list Candidate) : list Candidate :=
  match sorted with
  | [] => [c]
  | d :: rest =>
      if key_le (sort_key c) (sort_key d) then c :: d :: rest
      else d :: insert_by_key c rest
  end.

Fixpoint sort_by_key (cs : list Candidate) : list Candidate :=
  match cs with
  | [] => []
  | c :: rest => insert_by_key c (sort_by_key rest)
  end.

(** The body of the [for widget in focusable] loop: the candidate a
    widget contributes, if any. *)
Definition candidate_of (direction : string) (cx cy : Z) (wx wy : Z) (widget : nat)
  : option Candidate :=
  let dx := wx - cx in
  let dy := wy - cy in
  if key_is direction Keys.DOWN && (0 <? dy) then Some (dy, dx, widget)
  else if key_is direction Keys.UP && (dy <? 0) then Some (dy, dx, widget)
  else if key_is direction Keys.RIGHT && (0 <? dx) then Some (dx, dy, widget)
  else if key_is direction Keys.LEFT && (dx <? 0) then Some (dx, dy, widget)
  else None.

Definition x_at (self : t) (i : nat) : Z :=
  match children self !! i with Some w => w_x w | None => 0 end.

Definition y_at (self : t) (i : nat) : Z :=
  match children self !! i with Some w => w_y w | None => 0 end.

Definition candidates_from (self : t) (direction : string) (current_widget : nat)
  : list Candidate :=
  let focusable :=
    filter (fun w => w <> current_widget) (get_focusable_widgets self) in
  omap (fun widget =>
          candidate_of direction
            (x_at self current_widget) (y_at self current_widget)
            (x_at self widget) (y_at self widget) widget)
       focusable.

Definition _find_next_widget_in_direction (self : t) (direction : string)
  : option nat :=
  match get_focused_widget self with
  | None => None
  | Some current_widget =>
      let candidates := candidates_from self direction current_widget in
      match candidates with
      | [] => None
      | _ =>
          let candidates :=
            if key_is direction Keys.DOWN || key_is direction Keys.UP
            then sort_by_key candidates
            else if key_is direction Keys.LEFT || key_is direction Keys.RIGHT
            then sort_by_key candidates
            else candidates in
          c2 <$> head candidates
      end
  end.

Definition is_arrow (key : string) : bool :=
  key_is key Keys.UP || key_is key Keys.DOWN
  || key_is key Keys.LEFT || key_is key Keys.RIGHT.

(** The directional step of [process_input]. *)
Definition arrow_step (key : string) (self : t) : t :=
  if is_arrow key then
    match _find_next_widget_in_direction self key with
    | Some next_widget =>
        match index_of (get_focusable_widgets self) next_widget with
        | Some idx => set_focus_by_index (Z.of_nat idx) self
        | None => self
        end
    | None => self
    end
  else self.

(** The TAB, SHIFT_TAB and ESC step of [process_input]; ESC asks the
    application to pop the navigation stack. *)
Definition navigation_step (key : string) (self : t) : t * list Callback :=
  if key_is key Keys.TAB then (move_focus 1 self, [])
  else if key_is key Keys.SHIFT_TAB then (move_focus (-1) self, [])
  else if key_is key Keys.ESC then (self, [pop_screen_stack])
  else (self, []).

(** [focused_widget.process_input(key)]: the widget changes in place. *)
Definition offer_to_focused (key : string) (self : t)
  : Result (t * bool * list Callback) :=
  match get_focused_widget self with
  | None => Ok (self, false, [])
  | Some focused_widget =>
      match children self !! focused_widget with
      | None => Ok (self, false, [])
      | Some w =>
          do (w', r, cbs) <- w_process_input w key;
          Ok (set_children (<[focused_widget := w']> (children self)) self, r, cbs)
      end
  end.

Definition process_input (key : string) (self : t) : Result (t * list Callback) :=
  do (self, handled, cbs) <- offer_to_focused key self;
  if handled then Ok (self, cbs)
  else
    let self := arrow_step key self in
    let '(self, cbs') := navigation_step key self in
    Ok (self, (cbs ++ cbs')%list).

(** *** Predicates of the statements about screens *)

(** The tab order names widgets of the screen, each once. *)
Definition well_formed (self : t) : Prop :=
  NoDup (get_focusable_widgets self)
  /\ forall i, i ∈ get_focusable_widgets self -> (i < length (children self))%nat.

(** A non-empty tab order has exactly one focused member; with an empty
    tab order no widget of the screen is focused. *)
Definition focus_invariant (self : t) : Prop :=
  match get_focusable_widgets self with
  | [] => forall i, focused_at self i = false
  | _ =>
      exists i,
        i ∈ get_focusable_widgets self
        /\ focused_at self i = true
        /\ forall j, j ∈ get_focusable_widgets self -> focused_at self j = true -> j = i
  end.

(** The same with the focused widget unique among all the widgets of
    the screen, which is what the focus operations maintain. *)
Definition settled (self : t) : Prop :=
  well_formed self
  /\ match get_focusable_widgets self with
     | [] => forall j, focused_at self j = false
     | _ =>
         exists i,
           i ∈ get_focusable_widgets self
           /\ forall j, focused_at self j = true <-> j = i
     end.

(** The life of a screen: [TUIScreen.__init__]; a subclass constructor,
    which fills [children] with new widgets and ends with
    [set_focus_by_index(0)]; then the focus operations and the handling
    of keys. *)
Inductive lifetime : t -> Prop :=
| life_init : lifetime new
| life_constructed children order :
    Forall (fun w => w_is_focused w = false) children ->
    well_formed (mk children order None) ->
    lifetime (set_focus_by_index 0 (mk children order None))
| life_set_focus_by_index self index :
    lifetime self -> lifetime (set_focus_by_index index self)
| life_move_focus self direction :
    lifetime self -> lifetime (move_focus direction self)
| life_process_input self key self' cbs :
    lifetime self -> process_input key self = Ok (self', cbs) -> lifetime self'.

(** A widget at offset (dx, dy) lies strictly in a direction. *)
Definition strictly_in_direction (direction : string) (dx dy : Z) : Prop :=
  (direction = Keys.DOWN /\ 0 < dy) \/ (direction = Keys.UP /\ dy < 0)
  \/ (direction = Keys.RIGHT /\ 0 < dx) \/ (direction = Keys.LEFT /\ dx < 0).

(** (absolute offset across the direction, absolute offset along it) *)
Definition rank (direction : string) (dx dy : Z) : Z * Z :=
  if key_is direction Keys.DOWN || key_is direction Keys.UP
  then (Z.abs dx, Z.abs dy)
  else (Z.abs dy, Z.abs dx).

(** Ascending order of ranks. *)
Definition rank_le (a b : Z * Z) : Prop :=
  a.1 < b.1 \/ (a.1 = b.1 /\ a.2 <= b.2).

End WithWidget.
Arguments t W : clear implicits.
End TUIScreen.

(** ** libtui.py: the modal dialogs

    [process_input] of a dialog always returns True; it gives the changed
    dialog and the callback it called, if any. *)

Module ConfirmationDialog.

Record t := mk {
  on_confirm : Callback;
  on_cancel : Callback;
  focus_index : Z
}.

Definition new (on_confirm on_cancel : Callback) : t := mk on_confirm on_cancel 0.

Definition process_input (self : t) (key : string) : t * list Callback :=
  if key_is key Keys.LEFT || key_is key Keys.RIGHT || key_is key Keys.TAB then
    (mk (on_confirm self) (on_cancel self) (1 - focus_index self), [])
  else if key_is key Keys.ENTER then
    if focus_index self =? 0 then (self, [on_confirm self])
    else (self, [on_cancel self])
  else if key_is key Keys.ESC then (self, [on_cancel self])
  else (self, []).

End ConfirmationDialog.

Module AlertDialog.

Record t := mk {
  on_dismiss : Callback
}.

Definition process_input (self : t) (key : string) : t * list Callback :=
  if key_is key Keys.ENTER || key_is key Keys.ESC || key_is key Keys.SPACE
  then (self, [on_dismiss self])
  else (self, []).

End AlertDialog.

Inductive Dialog :=
| Confirmation (d : ConfirmationDialog.t)
| Alert (d : AlertDialog.t).

Definition dialog_process_input (d : Dialog) (key : string) : Dialog * list Callback :=
  match d with
  | Confirmation c =>
      let '(c, cbs) := ConfirmationDialog.process_input c key in (Confirmation c, cbs)
  | Alert a =>
      let '(a, cbs) := AlertDialog.process_input a key in (Alert a, cbs)
  end.

(** ** libgerenciador.py: what the list-selection screen uses of it *)

Module ListaDeTarefas.
Record t := mk {
  id : Z;
  titulo : string
}.
End ListaDeTarefas.

Module GerenciadorTarefas.

Record t := mk {
  listas : list ListaDeTarefas.t
}.

Definition remover_lista_de_tarefas (lista_id : Z) (self : t) : t * bool :=
  if Z.of_nat (length (listas self)) <=? 1 then (self, false)
  else
    let lista_original_len := length (listas self) in
    let kept :=
      filter (fun lista => ListaDeTarefas.id lista <> lista_id) (listas self) in
    (mk kept, Nat.ltb (length kept) lista_original_len).

End GerenciadorTarefas.

(** ** listselectionscreen.py *)

(** A row of the list widget: a label carrying its [task_list_obj]. *)
Module ListRow.
Record t := mk {
  label : Label.t;
  task_list_obj : ListaDeTarefas.t
}.
Definition set_is_focused (b : bool) (self : t) : t :=
  mk (Label.set_is_focused b (label self)) (task_list_obj self).
End ListRow.

#[export] Instance ListRow_widget : Widget ListRow.t := {|
  w_x := fun r => Label.x (ListRow.label r);
  w_y := fun r => Label.y (ListRow.label r);
  w_is_focused := fun r => Label.is_focused (ListRow.label r);
  w_is_focusable := fun r => Label.is_focusable (ListRow.label r);
  w_set_is_focused := ListRow.set_is_focused;
  w_process_input := fun self key => Ok (self, false, [])
|}.

(** The widgets a list-selection screen holds. *)
Inductive ScreenWidget :=
| AFrame (f : Frame.t)
| AButton (b : Button.t)
| AList (v : VerticalList.t ListRow.t).

#[export] Instance ScreenWidget_widget : Widget ScreenWidget := {|
  w_x := fun w =>
    match w with AFrame f => w_x f | AButton b => w_x b | AList v => w_x v end;
  w_y := fun w =>
    match w with AFrame f => w_y f | AButton b => w_y b | AList v => w_y v end;
  w_is_focused := fun w =>
    match w with
    | AFrame f => w_is_focused f
    | AButton b => w_is_focused b
    | AList v => w_is_focused v
    end;
  w_is_focusable := fun w =>
    match w with
    | AFrame f => w_is_focusable f
    | AButton b => w_is_focusable b
    | AList v => w_is_focusable v
    end;
  w_set_is_focused := fun flag w =>
    match w with
    | AFrame f => AFrame (w_set_is_focused flag f)
    | AButton b => AButton (w_set_is_focused flag b)
    | AList v => AList (w_set_is_focused flag v)
    end;
  w_process_input := fun w key =>
    match w with
    | AFrame f =>
        do (f, r, cbs) <- w_process_input f key; Ok (AFrame f, r, cbs)
    | AButton b =>
        do (b, r, cbs) <- w_process_input b key; Ok (AButton b, r, cbs)
    | AList v =>
        do (v, r, cbs) <- w_process_input v key; Ok (AList v, r, cbs)
    end
|}.

Module ListSelectionScreen.

(** [children] is frame, list_widget, then the five buttons; the
    attributes [self.list_widget] and so on are those same objects. *)
Record t := mk {
  screen : TUIScreen.t ScreenWidget;
  dialog : option Dialog
}.

Definition list_widget_pos : nat := 1.

(** [get_focusable_widgets], overridden: the list widget and the buttons. *)
Definition focus_order : list nat := [1; 2; 3; 4; 5; 6]%nat.

Definition set_screen (v : TUIScreen.t ScreenWidget) (self : t) : t :=
  mk v (dialog self).

Definition set_dialog (v : option Dialog) (self : t) : t :=
  mk (screen self) v.

Definition list_widget (self : t) : option (VerticalList.t ListRow.t) :=
  match TUIScreen.children (screen self) !! list_widget_pos with
  | Some (AList v) => Some v
  | _ => None
  end.

Definition set_list_widget (v : VerticalList.t ListRow.t) (self : t) : t :=
  set_screen
    (TUIScreen.set_children
       (<[list_widget_pos := AList v]> (TUIScreen.children (screen self)))
       (screen self))
    self.

(** [Label(f"  {task_list.titulo}")] with its [task_list_obj]. *)
Definition row_of (task_list : ListaDeTarefas.t) : ListRow.t :=
  ListRow.mk (Label.new ("  " +:+ ListaDeTarefas.titulo task_list) 1 1) task_list.

Definition refresh_lists (tm : GerenciadorTarefas.t) (self : t) : t :=
  match list_widget self with
  | Some v =>
      let v := VerticalList.set_children [] v in
      let v :=
        foldl (fun v task_list => VerticalList.add_child (row_of task_list) v)
              v (GerenciadorTarefas.listas tm) in
      set_list_widget v self
  | None => self
  end.

Definition get_selected_list_obj (self : t) : Result (option ListaDeTarefas.t) :=
  match list_widget self with
  | Some v =>
      match VerticalList.children v with
      | [] => Ok None
      | _ =>
          do selected_widget <-
            py_get (VerticalList.children v) (VerticalList.focus_index v);
          Ok (Some (ListRow.task_list_obj selected_widget))
      end
  | None => Ok None
  end.

Definition delete_selected_list (tm : GerenciadorTarefas.t) (self : t) : Result t :=
  do selected <- get_selected_list_obj self;
  match selected with
  | None => Ok self
  | Some _ =>
      if Z.of_nat (length (GerenciadorTarefas.listas tm)) <=? 1 then
        Ok (set_dialog (Some (Alert (AlertDialog.mk _cancel_delete))) self)
      else
        Ok (set_dialog
              (Some (Confirmation
                       (ConfirmationDialog.new _perform_actual_delete _cancel_delete)))
              self)
  end.

(** The methods bound to the dialogs of this screen run on the screen;
    any other callback is passed on to the application. *)
Definition run_callback (cb : Callback) (tm : GerenciadorTarefas.t) (self : t)
  : Result (t * GerenciadorTarefas.t * list Callback) :=
  match cb with
  | _cancel_delete => Ok (set_dialog None self, tm, [])
  | _perform_actual_delete =>
      do selected <- get_selected_list_obj self;
      match selected with
      | Some lista =>
          let '(tm, _) :=
            GerenciadorTarefas.remover_lista_de_tarefas (ListaDeTarefas.id lista) tm in
          let self := refresh_lists tm self in
          Ok (set_dialog None self, tm, [])
      | None => Ok (set_dialog None self, tm, [])
      end
  | _ => Ok (self, tm, [cb])
  end.

Fixpoint run_callbacks (cbs : list Callback) (tm : GerenciadorTarefas.t) (self : t)
  : Result (t * GerenciadorTarefas.t * list Callback) :=
  match cbs with
  | [] => Ok (self, tm, [])
  | cb :: rest =>
      do (self, tm, out) <- run_callback cb tm self;
      do (self, tm, out') <- run_callbacks rest tm self;
      Ok (self, tm, (out ++ out')%list)
  end.

Definition process_input (key : string) (tm : GerenciadorTarefas.t) (self : t)
  : Result (t * GerenciadorTarefas.t * list Callback) :=
  match dialog self with
  | Some d =>
      let '(d, cbs) := dialog_process_input d key in
      run_callbacks cbs tm (set_dialog (Some d) self)
  | None =>
      if key_is key REFRESH then Ok (refresh_lists tm self, tm, [])
      else
        do self <-
          (if key_is key Keys.DELETE then delete_selected_list tm self else Ok self);
        do (scr, cbs) <- TUIScreen.process_input key (screen self);
        Ok (set_screen scr self, tm, cbs)
  end.

(** The dialogs this screen opens (see [delete_selected_list]). *)
Definition hosts (d : Dialog) : Prop :=
  d = Alert (AlertDialog.mk _cancel_delete)
  \/ exists focus_index,
      d = Confirmation
            (ConfirmationDialog.mk _perform_actual_delete _cancel_delete focus_index).

(** [ListSelectionScreen()]: the widgets, the rows, focus on index 0.
    [width] and [height] are the terminal's COLUMNS and LINES. *)
Definition new (width height : Z) (tm : GerenciadorTarefas.t) : t :=
  let children := [
    AFrame (Frame.new 1 1 width height);
    AList (VerticalList.new 3 3 (width - 6) (height - 8));
    AButton (Button.new "Ver Lista" 3 (height - 5) (Some view_selected_list_tasks));
    AButton (Button.new "Ver Todas" 17 (height - 5) (Some view_all_tasks));
    AButton (Button.new "Criar Lista" 31 (height - 5) (Some create_new_list));
    AButton (Button.new "Editar Lista" 47 (height - 5) (Some edit_selected_list));
    AButton (Button.new "Buscar" 64 (height - 5) (Some search_tasks))
  ] in
  let self := mk (TUIScreen.mk children (Some focus_order) None) None in
  let self := refresh_lists tm self in
  set_screen (TUIScreen.set_focus_by_index 0 (screen self)) self.

End ListSelectionScreen.

(** ** taskviewscreen.py: the dialog of the task view

    What [process_input] does when no dialog is present (the REFRESH
    signal, the shortcuts on the list, the inherited handling) is the
    section's [handle_without_dialog], over the rest of the screen. *)

Module TaskViewScreen.
Section WithBody.
Context {Body : Type}.
Variable handle_without_dialog : string -> Body -> Result (Body * list Callback).

Record t := mk {
  body : Body;
  dialog : option Dialog
}.

Definition set_dialog (v : option Dialog) (self : t) : t := mk (body self) v.

Definition confirm_delete_all_completed (self : t) : t :=
  set_dialog
    (Some (Confirmation
             (ConfirmationDialog.new _perform_delete_all_completed _clear_dialog)))
    self.

(** [_perform_delete_all_completed] asks the task manager to drop the
    completed tasks, closes the dialog and pops the navigation stack;
    the [on_cancel] lambda only closes the dialog. *)
Definition run_callback (cb : Callback) (self : t) : t * list Callback :=
  match cb with
  | _perform_delete_all_completed =>
      (set_dialog None self, [remover_tarefas_concluidas; pop_screen_stack])
  | _clear_dialog => (set_dialog None self, [])
  | _ => (self, [cb])
  end.

Fixpoint run_callbacks (cbs : list Callback) (self : t) : t * list Callback :=
  match cbs with
  | [] => (self, [])
  | cb :: rest =>
      let '(self, out) := run_callback cb self in
      let '(self, out') := run_callbacks rest self in
      (self, (out ++ out')%list)
  end.

Definition process_input (key : string) (self : t) : Result (t * list Callback) :=
  match dialog self with
  | Some d =>
      let '(d, cbs) := dialog_process_input d key in
      Ok (run_callbacks cbs (set_dialog (Some d) self))
  | None =>
      do (b, cbs) <- handle_without_dialog key (body self);
      Ok (mk b (dialog self), cbs)
  end.

(** The dialog this screen opens (see [confirm_delete_all_completed]). *)
Definition hosts (d : Dialog) : Prop :=
  exists focus_index,
    d = Confirmation
          (ConfirmationDialog.mk _perform_delete_all_completed _clear_dialog
             focus_index).

End WithBody.
Arguments t Body : clear implicits.
End TaskViewScreen.

(** ** lista_de_tarefas.py: TodoApp, the navigation stack and shutdown *)

Module TodoApp.

Inductive SCREENS :=
| LIST_SELECTION
| CREATELIST
| EDIT_LIST
| CREATETASK
| TASK_DETAIL
| EDIT_TASK
| SEARCH_INPUT
| SEARCH_RESULTS
| FILTER_OPTIONS
| TASK_VIEW
| TAG_INPUT.

(** A screen object on the stack: its class and which object it is. *)
Record Screen := mkScreen {
  kind : SCREENS;
  ident : nat
}.

(** The calls [quit_app] makes before [exit()]. *)
Inductive Step :=
| clear_screen
| move_cursor
| show_cursor
| save_database
| disable_raw_mode.

(** What the outside world does to a call.  The three terminal writes
    catch a BlockingIOError of their flush; nothing else is caught. *)
Inductive Fault :=
| NoFault
| FlushBlocks
| Raises.

Definition is_terminal_write (s : Step) : bool :=
  match s with
  | clear_screen | move_cursor | show_cursor => true
  | save_database | disable_raw_mode => false
  end.

Definition step_raises (faults : Step -> Fault) (s : Step) : bool :=
  match faults s with
  | NoFault => false
  | FlushBlocks => negb (is_terminal_write s)
  | Raises => true
  end.

(** What happened, oldest first: a cleanup call was made, a screen was
    sent the REFRESH signal, [exit()] was called. *)
Inductive Event :=
| Called (s : Step)
| Refreshed (screen : Screen)
| Exited.

(** [screen_stack] as in the code: the top of the stack is the last
    element. *)
Record t := mk {
  screen_stack : list Screen;
  current_screen : option Screen;
  raw_mode : bool;
  log : list Event
}.

Definition set_screen_stack (v : list Screen) (app : t) : t :=
  mk v (current_screen app) (raw_mode app) (log app).

Definition set_current_screen (v : option Screen) (app : t) : t :=
  mk (screen_stack app) v (raw_mode app) (log app).

Definition set_raw_mode (v : bool) (app : t) : t :=
  mk (screen_stack app) (current_screen app) v (log app).

Definition record (e : Event) (app : t) : t :=
  mk (screen_stack app) (current_screen app) (raw_mode app) (log app ++ [e]).

(** A method of the application: it changes the application and returns
    or raises. *)
Definition Method : Type := t -> t * Result unit.

Definition and_then (m k : Method) : Method :=
  fun app =>
    match m app with
    | (app, Ok _) => k app
    | (app, Raise e) => (app, Raise e)
    end.

Notation "m >>> k" := (and_then m k) (at level 62, right associativity).

Section WithFaults.
Variable faults : Step -> Fault.

(** One cleanup call. *)
Definition call (s : Step) : Method :=
  fun app =>
    let app := record (Called s) app in
    if step_raises faults s then (app, Raise IOError)
    else
      match s with
      | disable_raw_mode => (set_raw_mode false app, Ok tt)
      | _ => (app, Ok tt)
      end.

Definition exit : Method :=
  fun app => (record Exited app, Raise SystemExit).

Definition quit_app : Method :=
  call clear_screen >>>
  call move_cursor >>>
  call show_cursor >>>
  call save_database >>>
  call disable_raw_mode >>>
  exit.

(** What [process_input] of a screen does to the stack on REFRESH: a
    TaskDetailScreen pops the stack; the list selection and the task view
    reload their rows (or hand the key to their dialog, which ignores
    it); every other screen offers the key to its focused widget, and no
    widget acts on it. *)
Definition pops_on_refresh (k : SCREENS) : bool :=
  match k with
  | TASK_DETAIL => true
  | _ => false
  end.

(** [pop_screen_stack], on the stack read from its top. *)
Fixpoint pop_from (from_top : list Screen) : Method :=
  fun app =>
    match from_top with
    | [] => (app, Raise IndexError)
    | _ :: below =>
        let app := set_screen_stack (rev below) app in
        match below with
        | [] => quit_app app
        | exposed :: _ =>
            let app := set_current_screen (Some exposed) app in
            let app := record (Refreshed exposed) app in
            if pops_on_refresh (kind exposed) then pop_from below app
            else (app, Ok tt)
        end
    end.

Definition pop_screen_stack : Method :=
  fun app => pop_from (rev (screen_stack app)) app.

(** [TUIApplication.run], on the keys [read_key] delivers; an empty key
    is skipped; rendering is left out.  [process_input] is the
    application's dispatch to its current screen. *)
Fixpoint run (process_input : string -> Method) (keys : list string) : Method :=
  fun app =>
    match keys with
    | [] => (app, Ok tt)
    | key :: rest =>
        if key_is key EmptyString then run process_input rest app
        else
          match process_input key app with
          | (app, Ok _) => run process_input rest app
          | (app, Raise e) => (app, Raise e)
          end
    end.

End WithFaults.

(** The cleanup calls among the events. *)
Definition calls (events : list Event) : list Step :=
  omap (fun e => match e with Called s => Some s | _ => None end) events.

Definition cleanup_steps : list Step :=
  [clear_screen; move_cursor; show_cursor; save_database; disable_raw_mode].

(** The steps of a sequence up to and including the first that raises. *)
Fixpoint until_first_raise (faults : Step -> Fault) (steps : list Step) : list Step :=
  match steps with
  | [] => []
  | s :: rest =>
      s :: (if step_raises faults s then [] else until_first_raise faults rest)
  end.

End TodoApp.

(** ** Predicates and drivers of the statements about widgets *)

(** ** libgerenciador.py: the task manager with its tasks

    [self.listas] holds the list objects; a method that changes a list
    or a task it found changes it where it is, at its position.  The
    dataclasses compare by value ([==] on two tasks compares all their
    fields).  [lower] is [str.lower]. *)

Module LibGerenciador.

Inductive PRIORIDADE := SEM_PRIORIDADE | BAIXA | MEDIA | ALTA.
Inductive FREQUENCIA := NENHUMA | DIARIA | SEMANAL | MENSAL | ANUAL.

(** What the date computations of [toggle_tarefa_concluida] and the
    construction of a task in [criar_tarefa] raise. *)
Inductive Error := OverflowError | ValueError | TypeError.

Inductive Outcome (A : Type) :=
| Returns (a : A)
| Raises (e : Error).
Arguments Returns {A} a.
Arguments Raises {A} e.

(** *** datetime.date and calendar, as far as the manager uses them *)

Record Date := mkDate {
  year : Z;
  month : Z;
  day : Z
}.

Definition MINYEAR : Z := 1.
Definition MAXYEAR : Z := 9999.

(** [datetime.date(1970, 1, 1)], the date of a task without a date. *)
Definition date_1970 : Date := mkDate 1970 1 1.

Definition date_eqb (a b : Date) : bool :=
  (year a =? year b) && (month a =? month b) && (day a =? day b).

(** [calendar.isleap] *)
Definition isleap (y : Z) : bool :=
  (y mod 4 =? 0) && (negb (y mod 100 =? 0) || (y mod 400 =? 0)).

(** [calendar.monthrange(y, m)[1]], for a month 1..12 *)
Definition monthrange_days (y m : Z) : Z :=
  if m =? 2 then (if isleap y then 29 else 28)
  else if (m =? 4) || (m =? 6) || (m =? 9) || (m =? 11) then 30
  else 31.

(** [datetime.date(y, m, d)]: ValueError outside the calendar. *)
Definition new_date (y m d : Z) : Outcome Date :=
  if (MINYEAR <=? y) && (y <=? MAXYEAR) && (1 <=? m) && (m <=? 12)
     && (1 <=? d) && (d <=? monthrange_days y m)
  then Returns (mkDate y m d)
  else Raises ValueError.

(** [d + datetime.timedelta(days=1)]: OverflowError past [date.max]. *)
Definition next_day (d : Date) : Outcome Date :=
  if day d <? monthrange_days (year d) (month d) then
    Returns (mkDate (year d) (month d) (day d + 1))
  else if month d <? 12 then Returns (mkDate (year d) (month d + 1) 1)
  else if year d <? MAXYEAR then Returns (mkDate (year d + 1) 1 1)
  else Raises OverflowError.

(** [d + datetime.timedelta(days=n)] *)
Fixpoint add_days (n : nat) (d : Date) : Outcome Date :=
  match n with
  | O => Returns d
  | S n =>
      match next_day d with
      | Returns d => add_days n d
      | Raises e => Raises e
      end
  end.

(** *** The dataclasses *)

Module Tarefa.

Record t := mk {
  id : Z;
  titulo : string;
  nota : string;
  data : Date;
  tags : list string;
  prioridade : PRIORIDADE;
  repeticao : FREQUENCIA;
  concluida : bool
}.

Definition set_id (v : Z) (self : t) : t :=
  mk v (titulo self) (nota self) (data self) (tags self)
     (prioridade self) (repeticao self) (concluida self).

Definition set_data (v : Date) (self : t) : t :=
  mk (id self) (titulo self) (nota self) v (tags self)
     (prioridade self) (repeticao self) (concluida self).

Definition set_repeticao (v : FREQUENCIA) (self : t) : t :=
  mk (id self) (titulo self) (nota self) (data self) (tags self)
     (prioridade self) v (concluida self).

Definition set_concluida (v : bool) (self : t) : t :=
  mk (id self) (titulo self) (nota self) (data self) (tags self)
     (prioridade self) (repeticao self) v.

End Tarefa.

(** The [data] keyword that [criar_tarefa] is given: a date object, or a
    string such as [DateInput.get_date] writes. *)
Inductive DataArg :=
| DataDate (d : Date)
| DataStr (s : string).

(** The keyword arguments of [criar_tarefa].  A field of [Tarefa] that
    is not given is None and takes the default of the dataclass;
    [kw_outros] names the keywords given that are no field of [Tarefa].
    An [id] keyword is overwritten by the manager and has no entry. *)
Record Kwargs := mkKwargs {
  kw_titulo : option string;
  kw_nota : option string;
  kw_data : option DataArg;
  kw_tags : option (list string);
  kw_prioridade : option PRIORIDADE;
  kw_repeticao : option FREQUENCIA;
  kw_concluida : option bool;
  kw_outros : list string
}.

Module ListaDeTarefas.

Record t := mk {
  id : Z;
  titulo : string;
  tarefas : list Tarefa.t
}.

Definition set_titulo (v : string) (self : t) : t :=
  mk (id self) v (tarefas self).

Definition set_tarefas (v : list Tarefa.t) (self : t) : t :=
  mk (id self) (titulo self) v.

End ListaDeTarefas.

#[export] Instance PRIORIDADE_eq_dec : EqDecision PRIORIDADE.
Proof. solve_decision. Defined.

#[export] Instance FREQUENCIA_eq_dec : EqDecision FREQUENCIA.
Proof. solve_decision. Defined.

#[export] Instance Date_eq_dec : EqDecision Date.
Proof. solve_decision. Defined.

#[export] Instance Tarefa_eq_dec : EqDecision Tarefa.t.
Proof. solve_decision. Defined.

(** [l.remove(x)]: drops the first element equal to [x]. *)
Fixpoint py_remove (x : Tarefa.t) (l : list Tarefa.t) : list Tarefa.t :=
  match l with
  | [] => []
  | y :: rest => if decide (y = x) then rest else y :: py_remove x rest
  end.

(** [max(...)] over a non-empty sequence of ints *)
Definition py_max (first : Z) (rest : list Z) : Z := foldl Z.max first rest.

(** *** GerenciadorTarefas *)

Module GerenciadorTarefas.
Section WithLower.
Variable lower : string -> string.

(** [datetime.date.fromisoformat] on a string: the date, or None for
    the ValueError of a string that is no date. *)
Variable fromisoformat : string -> option Date.

Record t := mk {
  listas : list ListaDeTarefas.t;
  _proximo_id_lista : Z;
  _proximo_id_tarefa : Z
}.

Definition set_listas (v : list ListaDeTarefas.t) (self : t) : t :=
  mk v (_proximo_id_lista self) (_proximo_id_tarefa self).

Definition set__proximo_id_lista (v : Z) (self : t) : t :=
  mk (listas self) v (_proximo_id_tarefa self).

Definition set__proximo_id_tarefa (v : Z) (self : t) : t :=
  mk (listas self) (_proximo_id_lista self) v.

(** [[t for l in listas for t in l.tarefas]] *)
Definition all_tasks (listas : list ListaDeTarefas.t) : list Tarefa.t :=
  concat (map ListaDeTarefas.tarefas listas).

(** What the body of the [try] of [load_database] comes to: the lists
    that [from_dict] built from the parsed file, or the exception that
    [open], [json.load] or [from_dict] raised, by the name of its class
    (PermissionError or IsADirectoryError for a file that is there and
    cannot be read, UnicodeDecodeError, and KeyError, TypeError or
    ValueError for JSON of another shape, among others). *)
Inductive DatabaseFile :=
| Parsed (listas : list ListaDeTarefas.t)
| Failed (class_name : string).

(** [except (FileNotFoundError, json.JSONDecodeError)] *)
Definition caught (class_name : string) : bool :=
  String.eqb class_name "FileNotFoundError"
  || String.eqb class_name "JSONDecodeError".

(** What [GerenciadorTarefas()] comes to: a manager, or the exception
    that [load_database] lets through. *)
Inductive Init :=
| Built (self : t)
| InitRaises (class_name : string).

(** [__init__] with [load_database]. *)
Definition load_database (file : DatabaseFile) : Init :=
  let self := mk [] 1 1 in
  match file with
  | Parsed listas =>
      match listas with
      | [] => Built (set_listas [] self)
      | first :: rest =>
          let max_lista_id :=
            py_max (ListaDeTarefas.id first) (map ListaDeTarefas.id rest) in
          let self := set__proximo_id_lista (max_lista_id + 1) self in
          let max_task_id :=
            match all_tasks listas with
            | [] => 0
            | t :: ts => py_max (Tarefa.id t) (map Tarefa.id ts)
            end in
          let self := set__proximo_id_tarefa (max_task_id + 1) self in
          Built (set_listas listas self)
      end
  | Failed class_name =>
      if caught class_name then
        let lista_padrao :=
          ListaDeTarefas.mk (_proximo_id_lista self) "Minha lista de tarefas" [] in
        let self := set__proximo_id_lista (_proximo_id_lista self + 1) self in
        Built (set_listas [lista_padrao] self)
      else InitRaises class_name
  end.

(** [next((l for l in self.listas if l.id == lista_id), None)], with
    the position of the list found. *)
Definition find_lista (lista_id : Z) (self : t) : option (nat * ListaDeTarefas.t) :=
  list_find (fun l => ListaDeTarefas.id l = lista_id) (listas self).

(** [next((t for t in lista.tarefas if t.id == tarefa_id), None)] *)
Definition find_tarefa (tarefa_id : Z) (lista : ListaDeTarefas.t)
  : option (nat * Tarefa.t) :=
  list_find (fun t => Tarefa.id t = tarefa_id) (ListaDeTarefas.tarefas lista).

Definition criar_lista_de_tarefas (titulo : string) (self : t)
  : t * option ListaDeTarefas.t :=
  if existsb (fun lista => String.eqb (lower (ListaDeTarefas.titulo lista)) (lower titulo))
             (listas self)
  then (self, None)
  else
    let nova_lista := ListaDeTarefas.mk (_proximo_id_lista self) titulo [] in
    let self := set__proximo_id_lista (_proximo_id_lista self + 1) self in
    let self := set_listas (listas self ++ [nova_lista]) self in
    (self, Some nova_lista).

Definition editar_lista_de_tarefas (lista_id : Z) (novo_titulo : string) (self : t)
  : t * bool :=
  if existsb (fun l => negb (ListaDeTarefas.id l =? lista_id)
                       && String.eqb (lower (ListaDeTarefas.titulo l)) (lower novo_titulo))
             (listas self)
  then (self, false)
  else
    match find_lista lista_id self with
    | Some (i, _) =>
        (set_listas (alter (ListaDeTarefas.set_titulo novo_titulo) i (listas self)) self,
         true)
    | None => (self, false)
    end.

Definition remover_lista_de_tarefas (lista_id : Z) (self : t) : t * bool :=
  if Z.of_nat (length (listas self)) <=? 1 then (self, false)
  else
    let lista_original_len := length (listas self) in
    let self :=
      set_listas (filter (fun lista => ListaDeTarefas.id lista <> lista_id) (listas self))
                 self in
    (self, Nat.ltb (length (listas self)) lista_original_len).

Definition get_todas_listas (self : t) : list ListaDeTarefas.t := listas self.

(** [criar_tarefa(lista_id, **kwargs)].  The id is taken and the
    counter moved before the [Tarefa] is built from them, which raises
    TypeError on a keyword that is no field of [Tarefa]; a [data] given
    as a string, as [CreateTaskScreen.save_task] gives it, then goes
    through [datetime.date.fromisoformat], which raises ValueError on a
    string that is no date.  Either exception leaves the counter moved
    and the task out of the list. *)
Definition criar_tarefa (lista_id : Z) (kwargs : Kwargs) (self : t)
  : t * Outcome (option Tarefa.t) :=
  match find_lista lista_id self with
  | None => (self, Returns None)
  | Some (i, _) =>
      let id := _proximo_id_tarefa self in
      let self := set__proximo_id_tarefa (_proximo_id_tarefa self + 1) self in
      match kw_outros kwargs with
      | _ :: _ => (self, Raises TypeError)
      | [] =>
          let data :=
            match default (DataDate date_1970) (kw_data kwargs) with
            | DataDate d => Returns d
            | DataStr s =>
                match fromisoformat s with
                | Some d => Returns d
                | None => Raises ValueError
                end
            end in
          match data with
          | Raises e => (self, Raises e)
          | Returns data =>
              let tarefa :=
                Tarefa.mk id
                          (default EmptyString (kw_titulo kwargs))
                          (default EmptyString (kw_nota kwargs))
                          data
                          (default [] (kw_tags kwargs))
                          (default SEM_PRIORIDADE (kw_prioridade kwargs))
                          (default NENHUMA (kw_repeticao kwargs))
                          (default false (kw_concluida kwargs)) in
              let self :=
                set_listas
                  (alter (fun l => ListaDeTarefas.set_tarefas
                                     (ListaDeTarefas.tarefas l ++ [tarefa]) l)
                         i (listas self))
                  self in
              (self, Returns (Some tarefa))
          end
      end
  end.

Definition mover_tarefa (tarefa_id lista_origem_id lista_destino_id : Z) (self : t)
  : t * bool :=
  if lista_origem_id =? lista_destino_id then (self, true)
  else
    match find_lista lista_origem_id self, find_lista lista_destino_id self with
    | Some (i, lista_origem), Some (j, _) =>
        match find_tarefa tarefa_id lista_origem with
        | None => (self, false)
        | Some (_, tarefa_para_mover) =>
            let listas :=
              alter (fun l => ListaDeTarefas.set_tarefas
                                (py_remove tarefa_para_mover (ListaDeTarefas.tarefas l)) l)
                    i (listas self) in
            let listas :=
              alter (fun l => ListaDeTarefas.set_tarefas
                                (ListaDeTarefas.tarefas l ++ [tarefa_para_mover]) l)
                    j listas in
            (set_listas listas self, true)
        end
    | _, _ => (self, false)
    end.

Definition remover_tarefa (lista_id tarefa_id : Z) (self : t) : t :=
  match find_lista lista_id self with
  | Some (i, _) =>
      set_listas
        (alter (fun l => ListaDeTarefas.set_tarefas
                           (filter (fun t => Tarefa.id t <> tarefa_id)
                                   (ListaDeTarefas.tarefas l)) l)
               i (listas self))
        self
  | None => self
  end.

Definition remover_tarefas_concluidas (self : t) : t :=
  set_listas
    (map (fun lista =>
            ListaDeTarefas.set_tarefas
              (filter (fun t => Tarefa.concluida t = false) (ListaDeTarefas.tarefas lista))
              lista)
         (listas self))
    self.

(** The date of the next occurrence; [data] is the date the copy
    carries, kept when no branch assigns one. *)
Definition proxima_data (repeticao : FREQUENCIA) (data_base data : Date)
  : Outcome Date :=
  match repeticao with
  | DIARIA => add_days 1 data_base
  | SEMANAL => add_days 7 data_base
  | MENSAL =>
      let '(y, m) :=
        if month data_base <? 12 then (year data_base, month data_base + 1)
        else (year data_base + 1, 1) in
      let d := Z.min (day data_base) (monthrange_days y m) in
      new_date y m d
  | ANUAL =>
      match new_date (year data_base + 1) (month data_base) (day data_base) with
      | Returns d => Returns d
      | Raises ValueError => new_date (year data_base + 1) (month data_base) 28
      | Raises e => Raises e
      end
  | NENHUMA => Returns data
  end.

(** [hoje] is [datetime.date.today()]. *)
Definition toggle_tarefa_concluida (hoje : Date) (lista_id tarefa_id : Z) (self : t)
  : t * Outcome (option Tarefa.t) :=
  match find_lista lista_id self with
  | None => (self, Returns None)
  | Some (i, target_lista) =>
      match find_tarefa tarefa_id target_lista with
      | None => (self, Returns None)
      | Some (k, target_tarefa) =>
          let assign (f : Tarefa.t -> Tarefa.t) (self : t) : t :=
            set_listas
              (alter (fun l => ListaDeTarefas.set_tarefas
                                 (alter f k (ListaDeTarefas.tarefas l)) l)
                     i (listas self))
              self in
          if negb (Tarefa.concluida target_tarefa) then
            let self := assign (Tarefa.set_concluida true) self in
            let target_tarefa := Tarefa.set_concluida true target_tarefa in
            if negb (bool_decide (Tarefa.repeticao target_tarefa = NENHUMA)) then
              let nova_tarefa := target_tarefa in
              let nova_tarefa :=
                Tarefa.set_concluida false
                  (Tarefa.set_id (_proximo_id_tarefa self) nova_tarefa) in
              let self := set__proximo_id_tarefa (_proximo_id_tarefa self + 1) self in
              let data_base :=
                if negb (date_eqb (Tarefa.data target_tarefa) date_1970)
                then Tarefa.data target_tarefa else hoje in
              match proxima_data (Tarefa.repeticao target_tarefa) data_base
                                 (Tarefa.data nova_tarefa) with
              | Raises e => (self, Raises e)
              | Returns data =>
                  let nova_tarefa := Tarefa.set_data data nova_tarefa in
                  let self := assign (Tarefa.set_repeticao NENHUMA) self in
                  let self :=
                    set_listas
                      (alter (fun l => ListaDeTarefas.set_tarefas
                                         (ListaDeTarefas.tarefas l ++ [nova_tarefa]) l)
                             i (listas self))
                      self in
                  (self, Returns (Some nova_tarefa))
              end
            else (self, Returns None)
          else
            (assign (Tarefa.set_concluida false) self, Returns None)
      end
  end.

End WithLower.
End GerenciadorTarefas.

End LibGerenciador.

(** ** libtui.py: Selector, TextInput, Checkbox *)

Module Selector.

(** What indexing the options and the modulo by their number raise. *)
Inductive Error := IndexError | ZeroDivisionError.

Inductive Outcome (A : Type) :=
| Returns (a : A)
| Raises (e : Error).
Arguments Returns {A} a.
Arguments Raises {A} e.

Record t := mk {
  options : list string;
  selected_index : Z;
  label : string;
  text : string;
  x : Z;
  y : Z;
  is_focused : bool;
  is_focusable : bool;
  _being_edited : bool
}.

Definition set_selected_index (v : Z) (self : t) : t :=
  mk (options self) v (label self) (text self) (x self) (y self)
     (is_focused self) (is_focusable self) (_being_edited self).

Definition set_text (v : string) (self : t) : t :=
  mk (options self) (selected_index self) (label self) v (x self) (y self)
     (is_focused self) (is_focusable self) (_being_edited self).

Definition set__being_edited (v : bool) (self : t) : t :=
  mk (options self) (selected_index self) (label self) (text self) (x self) (y self)
     (is_focused self) (is_focusable self) v.

Definition set_is_focused (v : bool) (self : t) : t :=
  mk (options self) (selected_index self) (label self) (text self) (x self) (y self)
     v (is_focusable self) (_being_edited self).

Definition len (self : t) : Z := Z.of_nat (length (options self)).

(** [self.options[self.selected_index]] *)
Definition get_selected_value (self : t) : Outcome string :=
  match py_get (options self) (selected_index self) with
  | Ok selected_option => Returns selected_option
  | Raise _ => Raises IndexError
  end.

Definition get_selected_index (self : t) : Z := selected_index self.

Definition _format_text (self : t) : Outcome string :=
  match get_selected_value self with
  | Returns selected_option =>
      let display_option :=
        if is_focused self then "[" +:+ selected_option +:+ "]"
        else selected_option in
      Returns (label self +:+ " " +:+ display_option)
  | Raises e => Raises e
  end.

Definition update_text (self : t) : Outcome t :=
  match _format_text self with
  | Returns text => Returns (set_text text self)
  | Raises e => Raises e
  end.

(** [Selector(options, selected_index, x, y, label)]; [options] is None
    when the argument is left out. *)
Definition new (options : option (list string)) (selected_index x y : Z)
           (label : string) : Outcome t :=
  let options :=
    match options with
    | Some (o :: os) => o :: os
    | _ => ["Option 1"; "Option 2"; "Option 3"]
    end in
  let selected_index :=
    Z.max 0 (Z.min selected_index (Z.of_nat (length options) - 1)) in
  update_text (mk options selected_index label EmptyString x y false true false).

(** [(self.selected_index + delta) % len(self.options)], then
    [update_text()] *)
Definition step (delta : Z) (self : t) : Outcome (t * bool) :=
  if len self =? 0 then Raises ZeroDivisionError
  else
    let self := set_selected_index ((selected_index self + delta) mod len self) self in
    match update_text self with
    | Returns self => Returns (self, true)
    | Raises e => Raises e
    end.

Definition process_input (self : t) (key : string) : Outcome (t * bool) :=
  if negb (is_focused self) then Returns (self, false)
  else if _being_edited self then
    if key_is key Keys.UP then step (-1) self
    else if key_is key Keys.DOWN then step 1 self
    else if key_is key Keys.ENTER || key_is key Keys.ESC then
      Returns (set__being_edited false self, true)
    else Returns (self, true)
  else if key_is key Keys.ENTER then Returns (set__being_edited true self, true)
  else Returns (self, false).

End Selector.

Module TextInput.
Section WithPrintable.

(** [str.isprintable] *)
Variable isprintable : string -> bool.

Record t := mk {
  text : string;
  x : Z;
  y : Z;
  width : Z;
  placeholder : string;
  is_focused : bool;
  is_focusable : bool
}.

Definition set_text (v : string) (self : t) : t :=
  mk v (x self) (y self) (width self) (placeholder self)
     (is_focused self) (is_focusable self).

(** [TextInput(x, y, width, placeholder, initial_text)]; a Label, so
    [is_focusable] is False. *)
Definition new (x y width : Z) (placeholder initial_text : string) : t :=
  mk initial_text x y width placeholder false false.

(** [s[:-1]] *)
Fixpoint drop_last (s : string) : string :=
  match s with
  | EmptyString => EmptyString
  | String c EmptyString => EmptyString
  | String c rest => String c (drop_last rest)
  end.

Definition len (s : string) : Z := Z.of_nat (String.length s).

Definition process_input (self : t) (key : string) : t * bool :=
  if negb (is_focused self) || key_is key EmptyString then (self, false)
  else
    let self :=
      if key_is key Keys.BACKSPACE then set_text (drop_last (text self)) self
      else self in
    if 1 <? len key then (self, false)
    else if isprintable key && (len (text self) <? width self - 2) then
      (set_text (text self +:+ key) self, false)
    else (self, false).

End WithPrintable.
End TextInput.

Module Checkbox.

Record t := mk {
  label : string;
  x : Z;
  y : Z;
  checked : bool;
  is_focused : bool;
  is_focusable : bool
}.

Definition set_checked (v : bool) (self : t) : t :=
  mk (label self) (x self) (y self) v (is_focused self) (is_focusable self).

Definition set_is_focused (v : bool) (self : t) : t :=
  mk (label self) (x self) (y self) (checked self) v (is_focusable self).

(** [Checkbox(label, x, y, checked)] *)
Definition new (label : string) (x y : Z) (checked : bool) : t :=
  mk label x y checked false true.

(** Returns the text enter (a true value) after toggling, None otherwise. *)
Definition process_input (self : t) (key : string) : t * bool :=
  if negb (is_focused self) || key_is key EmptyString then (self, false)
  else if key_is key Keys.ENTER || key_is key Keys.SPACE then
    (set_checked (negb (checked self)) self, true)
  else (self, false).

End Checkbox.

#[export] Instance Checkbox_widget : Widget Checkbox.t := {|
  w_x := Checkbox.x;
  w_y := Checkbox.y;
  w_is_focused := Checkbox.is_focused;
  w_is_focusable := Checkbox.is_focusable;
  w_set_is_focused := Checkbox.set_is_focused;
  w_process_input := fun self key =>
    let '(self, r) := Checkbox.process_input self key in Ok (self, r, [])
|}.

(** ** edittaskscreen.py: how [save_changes] leaves the screen *)

Module EditTaskScreen.

(** The two [self.app.pop_screen_stack()] calls that end [save_changes]. *)
Definition save_changes_pops (faults : TodoApp.Step -> TodoApp.Fault)
  : TodoApp.Method :=
  TodoApp.and_then (TodoApp.pop_screen_stack faults)
                   (TodoApp.pop_screen_stack faults).

End EditTaskScreen.

(** ** createtaskscreen.py: the priority check boxes

    The screen treats its four priority check boxes specially and every
    other widget (frame, text inputs, label, date input, selector,
    buttons) through what all widgets offer; [O] is the class of those
    other widgets.  As everywhere, a widget is named by its position in
    [children]. *)

Inductive FormWidget (O : Type) :=
| ACheckbox (c : Checkbox.t)
| AnOther (o : O).
Arguments ACheckbox {O} c.
Arguments AnOther {O} o.

#[export] Instance FormWidget_widget {O} `{Widget O} : Widget (FormWidget O) := {|
  w_x := fun w => match w with ACheckbox c => w_x c | AnOther o => w_x o end;
  w_y := fun w => match w with ACheckbox c => w_y c | AnOther o => w_y o end;
  w_is_focused := fun w =>
    match w with ACheckbox c => w_is_focused c | AnOther o => w_is_focused o end;
  w_is_focusable := fun w =>
    match w with ACheckbox c => w_is_focusable c | AnOther o => w_is_focusable o end;
  w_set_is_focused := fun flag w =>
    match w with
    | ACheckbox c => ACheckbox (w_set_is_focused flag c)
    | AnOther o => AnOther (w_set_is_focused flag o)
    end;
  w_process_input := fun w key =>
    match w with
    | ACheckbox c =>
        do (c, r, cbs) <- w_process_input c key; Ok (ACheckbox c, r, cbs)
    | AnOther o =>
        do (o, r, cbs) <- w_process_input o key; Ok (AnOther o, r, cbs)
    end
|}.

Module CreateTaskScreen.
Section WithOther.
Context {O : Type} {WO : Widget O}.

Definition t : Type := TUIScreen.t (FormWidget O).

(** The positions of the widgets in [children], in the order in which
    [__init__] adds them. *)
Definition frame : nat := 0.
Definition title_input : nat := 1.
Definition notes_input : nat := 2.
Definition tags_input : nat := 3.
Definition priority_label : nat := 4.
Definition priority_none : nat := 5.
Definition priority_low : nat := 6.
Definition priority_medium : nat := 7.
Definition priority_high : nat := 8.
Definition dateinput : nat := 9.
Definition frequence_selector : nat := 10.
Definition save_button : nat := 11.
Definition cancel_button : nat := 12.

(** [get_focusable_widgets], overridden. *)
Definition focus_order : list nat :=
  [title_input; notes_input; tags_input;
   priority_none; priority_low; priority_medium; priority_high;
   dateinput; frequence_selector; save_button; cancel_button].

Definition priorities : list nat :=
  [priority_none; priority_low; priority_medium; priority_high].

(** [w.checked = v] *)
Definition set_checked (v : bool) (w : FormWidget O) : FormWidget O :=
  match w with
  | ACheckbox c => ACheckbox (Checkbox.set_checked v c)
  | AnOther o => AnOther o
  end.

(** [w.checked], of the check box at a position. *)
Definition checked (self : t) (p : nat) : bool :=
  match TUIScreen.children self !! p with
  | Some (ACheckbox c) => Checkbox.checked c
  | _ => false
  end.

(** [__init__]; the widgets other than the check boxes are given as
    built. *)
Definition new (the_frame the_title_input the_notes_input the_tags_input
                the_priority_label the_dateinput the_frequence_selector
                the_save_button the_cancel_button : O) : t :=
  let y_priority := 10 in
  let children := [
    AnOther the_frame; AnOther the_title_input; AnOther the_notes_input;
    AnOther the_tags_input; AnOther the_priority_label;
    ACheckbox (Checkbox.new "Nenhuma" 4 (y_priority + 1) true);
    ACheckbox (Checkbox.new "Baixa" 16 (y_priority + 1) false);
    ACheckbox (Checkbox.new "Média" 27 (y_priority + 1) false);
    ACheckbox (Checkbox.new "Alta" 38 (y_priority + 1) false);
    AnOther the_dateinput; AnOther the_frequence_selector;
    AnOther the_save_button; AnOther the_cancel_button
  ] in
  TUIScreen.set_focus_by_index 0 (TUIScreen.mk children (Some focus_order) None).

Definition update_priority_selection (selected_checkbox : nat) (self : t) : t :=
  foldl (fun self priority_widget =>
           TUIScreen.set_children
             (alter (set_checked (bool_decide (priority_widget = selected_checkbox)))
                    priority_widget (TUIScreen.children self))
             self)
        self priorities.

Definition get_task_priority (self : t) : LibGerenciador.PRIORIDADE :=
  if checked self priority_none then LibGerenciador.SEM_PRIORIDADE
  else if checked self priority_low then LibGerenciador.BAIXA
  else if checked self priority_medium then LibGerenciador.MEDIA
  else if checked self priority_high then LibGerenciador.ALTA
  else LibGerenciador.SEM_PRIORIDADE.

(** [process_input]; the value [focused_widget.process_input(key)]
    returns is not used.  A focused widget is a child of the screen. *)
Definition process_input (key : string) (self : t) : Result (t * list Callback) :=
  match TUIScreen.get_focused_widget self with
  | Some focused_widget =>
      if bool_decide (focused_widget ∈ priorities)
         && (key_is key Keys.ENTER || key_is key Keys.SPACE)
      then
        match TUIScreen.children self !! focused_widget with
        | Some w =>
            do (w, _, cbs) <- w_process_input w key;
            let self :=
              TUIScreen.set_children
                (<[focused_widget := w]> (TUIScreen.children self)) self in
            Ok (update_priority_selection focused_widget self, cbs)
        | None => Ok (self, [])
        end
      else TUIScreen.process_input key self
  | None => TUIScreen.process_input key self
  end.

End WithOther.
End CreateTaskScreen.

Module Stated.

(** The Gregorian calendar, written down without the code: a year is a
    leap year when it is divisible by 4 and not by 100, or by 400;
    February has 29 days in a leap year and 28 otherwise; April, June,
    September and November have 30 days; the other months have 31. *)
Definition leap_year (year : Z) : Prop :=
  year mod 4 = 0 /\ (year mod 100 <> 0 \/ year mod 400 = 0).

#[export] Instance leap_year_dec (year : Z) : Decision (leap_year year).
Proof. unfold leap_year. apply _. Defined.

Definition days_in_month (month year : Z) : Z :=
  if decide (month = 2) then (if decide (leap_year year) then 29 else 28)
  else if decide (month = 4 \/ month = 6 \/ month = 9 \/ month = 11) then 30
  else 31.

(** A DateInput that shows a calendar date, with a sub-field selected. *)
Definition valid_date (self : DateInput.t) : Prop :=
  1 <= DateInput.month self <= 12
  /\ 1 <= DateInput.year self
  /\ 0 <= DateInput.focus_index self <= 2
  /\ 1 <= DateInput.day self
     <= days_in_month (DateInput.month self) (DateInput.year self).

(** An IntInput whose value is within the bounds it was given. *)
Definition in_range (self : IntInput.t) : Prop :=
  (forall m, IntInput.min self = Some m -> m <= IntInput.value self)
  /\ (forall m, IntInput.max self = Some m -> IntInput.value self <= m).

(** The same selection key pressed [n] times on a list. *)
Fixpoint moves {C} `{Widget C} (n : nat) (delta : Z) (v : VerticalList.t C)
  : Result (VerticalList.t C) :=
  match n with
  | O => Ok v
  | S n => do v <- VerticalList._move_focus delta v; moves n delta v
  end.

(** [move_focus] called [n] times on a screen. *)
Fixpoint move_focus_times {W} `{Widget W} (n : nat) (direction : Z)
         (self : TUIScreen.t W) : TUIScreen.t W :=
  match n with
  | O => self
  | S n => move_focus_times n direction (TUIScreen.move_focus direction self)
  end.

(** The lists the rows of a list widget carry, in row order. *)
Definition rows_of (v : VerticalList.t ListRow.t) : list ListaDeTarefas.t :=
  map ListRow.task_list_obj (VerticalList.children v).

(** A list widget whose stored index is not negative, as [__init__] and
    the [focus_index] setter leave it. *)
Definition list_index_ok (w : ScreenWidget) : Prop :=
  match w with
  | AList v => 0 <= VerticalList._focus_index v
  | _ => True
  end.

(** [w'] is the widget [w] after a change that keeps its class and, for
    a list widget, the lists of its rows and a non-negative stored index. *)
Definition keeps_rows (w w' : ScreenWidget) : Prop :=
  match w, w' with
  | AFrame _, AFrame _ => True
  | AButton _, AButton _ => True
  | AList v, AList v' =>
      rows_of v' = rows_of v
      /\ (0 <= VerticalList._focus_index v -> 0 <= VerticalList._focus_index v')
  | _, _ => False
  end.

(** The list widget of the screen shows the lists of the manager. *)
Definition shows (tm : GerenciadorTarefas.t) (self : ListSelectionScreen.t) : Prop :=
  exists v,
    ListSelectionScreen.list_widget self = Some v
    /\ rows_of v = GerenciadorTarefas.listas tm.

Definition list_screen_inv (tm : GerenciadorTarefas.t) (self : ListSelectionScreen.t)
  : Prop :=
  Forall list_index_ok (TUIScreen.children (ListSelectionScreen.screen self))
  /\ shows tm self.

End Stated.

(** Predicates of the statements about the task manager. *)
Module StatedManager.
Import LibGerenciador.

(** The ids of a sequence are distinct and below the next id to give. *)
Definition fresh_below (next : Z) (ids : list Z) : Prop :=
  NoDup ids /\ Forall (fun i => i < next) ids.

(** The lists have distinct ids, the tasks of all the lists have distinct
    ids, and the two counters are above every id in use. *)
Definition ids_ok (self : GerenciadorTarefas.t) : Prop :=
  fresh_below (GerenciadorTarefas._proximo_id_lista self)
              (map ListaDeTarefas.id (GerenciadorTarefas.listas self))
  /\ fresh_below (GerenciadorTarefas._proximo_id_tarefa self)
                 (map Tarefa.id
                      (GerenciadorTarefas.all_tasks (GerenciadorTarefas.listas self))).

(** No two lists have titles that are equal when case is ignored. *)
Definition titulos_ok (lower : string -> string) (self : GerenciadorTarefas.t) : Prop :=
  NoDup (map (fun l => lower (ListaDeTarefas.titulo l)) (GerenciadorTarefas.listas self)).

(** A date of the calendar, as every [datetime.date] object is. *)
Definition valid_date (d : Date) : Prop :=
  MINYEAR <= year d <= MAXYEAR
  /\ 1 <= month d <= 12
  /\ 1 <= day d <= monthrange_days (year d) (month d).

(** [str.lower] on ASCII text. *)
Definition lower_ascii (c : ascii) : ascii :=
  let n := nat_of_ascii c in
  if Nat.leb 65 n && Nat.leb n 90 then ascii_of_nat (n + 32) else c.

Fixpoint ascii_lower (s : string) : string :=
  match s with
  | EmptyString => EmptyString
  | String c s => String (lower_ascii c) (ascii_lower s)
  end.

(** A decimal digit. *)
Definition digito (c : ascii) : option Z :=
  let n := Z.of_nat (nat_of_ascii c) in
  if (48 <=? n) && (n <=? 57) then Some (n - 48) else None.

(** [datetime.date.fromisoformat] on the form YYYY-MM-DD, the one
    [DateInput.get_date] writes: the date, when the ten characters are
    digits and hyphens in that form and name a date of the calendar. *)
Definition fromisoformat_ymd (s : string) : option Date :=
  match s with
  | String y1 (String y2 (String y3 (String y4 (String h1 (String m1 (String m2
      (String h2 (String d1 (String d2 EmptyString))))))))) =>
      if Ascii.eqb h1 "-" && Ascii.eqb h2 "-" then
        a ← digito y1; b ← digito y2; c ← digito y3; d ← digito y4;
        e ← digito m1; f ← digito m2; g ← digito d1; h ← digito d2;
        match new_date (1000 * a + 100 * b + 10 * c + d) (10 * e + f) (10 * g + h) with
        | Returns date => Some date
        | Raises _ => None
        end
      else None
  | _ => None
  end.

(** The manager after an assignment to the task at position [k] of the
    list at position [i]. *)
Definition altera_tarefa (f : Tarefa.t -> Tarefa.t) (i k : nat)
           (self : GerenciadorTarefas.t) : GerenciadorTarefas.t :=
  GerenciadorTarefas.set_listas
    (alter (fun l => ListaDeTarefas.set_tarefas
                       (alter f k (ListaDeTarefas.tarefas l)) l)
           i (GerenciadorTarefas.listas self))
    self.

(** What the list-selection screen sees of the manager. *)
Definition listas_vistas (self : GerenciadorTarefas.t) : list (Z * string) :=
  map (fun l => (ListaDeTarefas.id l, ListaDeTarefas.titulo l))
      (GerenciadorTarefas.listas self).

End StatedManager.

(** Predicates of the statements about the widgets. *)
Module StatedWidgets.

(** The selection of a Selector names one of its options. *)
Definition selector_ok (self : Selector.t) : Prop :=
  0 <= Selector.selected_index self < Selector.len self.

(** [str.isprintable] on one ASCII character. *)
Definition ascii_isprintable (key : string) : bool :=
  match key with
  | String c EmptyString =>
      Nat.leb 32 (nat_of_ascii c) && Nat.leb (nat_of_ascii c) 126
  | _ => false
  end.

(** What the priority check box at a position shows, None where the
    screen holds no check box. *)
Definition box_at {O} `{Widget O} (self : CreateTaskScreen.t (O := O)) (p : nat)
  : option bool :=
  match TUIScreen.children self !! p with
  | Some (ACheckbox c) => Some (Checkbox.checked c)
  | _ => None
  end.

(** The four priority positions hold check boxes, and exactly the one at
    [selected] is checked. *)
Definition only_checked {O} `{Widget O} (self : CreateTaskScreen.t (O := O))
           (selected : nat) : Prop :=
  selected ∈ CreateTaskScreen.priorities
  /\ forall p, p ∈ CreateTaskScreen.priorities ->
               box_at self p = Some (bool_decide (p = selected)).

(** A change of a widget that keeps its class and, for a check box,
    whether it is checked. *)
Definition keeps_box {O} (w w' : FormWidget O) : Prop :=
  match w, w' with
  | ACheckbox c, ACheckbox c' => Checkbox.checked c' = Checkbox.checked c
  | AnOther _, AnOther _ => True
  | _, _ => False
  end.

(** The priority the check box at a position stands for. *)
Definition priority_of (p : nat) : LibGerenciador.PRIORIDADE :=
  if decide (p = CreateTaskScreen.priority_low) then LibGerenciador.BAIXA
  else if decide (p = CreateTaskScreen.priority_medium) then LibGerenciador.MEDIA
  else if decide (p = CreateTaskScreen.priority_high) then LibGerenciador.ALTA
  else LibGerenciador.SEM_PRIORIDADE.

End StatedWidgets.

(** * Properties *)

(** ** Keys and results *)

Lemma key_is_true key name : key_is key name = true <-> key = name.
Proof. apply String.eqb_eq. Qed.

Lemma key_is_false key name : key_is key name = false <-> key <> name.
Proof. apply String.eqb_neq. Qed.

Lemma key_is_refl key : key_is key key = true.
Proof. apply String.eqb_refl. Qed.

(** ** Terminal.read_key *)

Section ReadKey.
Import Terminal.

Lemma append_cons (a : ascii) (s t : string) :
  String a s +:+ t = String a (s +:+ t).
Proof. reflexivity. Qed.

Lemma append_one_char (s : string) (c : ascii) (t : string) :
  (s +:+ String c EmptyString) +:+ t = s +:+ String c t.
Proof.
  induction s as [|a s IH]; [reflexivity|].
  rewrite !append_cons. by rewrite IH.
Qed.

Lemma append_empty (s : string) : s +:+ EmptyString = s.
Proof.
  induction s as [|a s IH]; [reflexivity|].
  rewrite append_cons. by rewrite IH.
Qed.

(** The continuation loop takes every ready byte and stops at the
    first read that is not a byte. *)
Lemma read_sequence_ready (bytes : string) (sequence : string) (later : Stdin) :
  idle later ->
  read_sequence sequence (ready bytes ++ later)%list = (sequence +:+ bytes, tail later).
Proof.
  intros Hidle. revert sequence.
  induction bytes as [|c bytes IH]; intros sequence; simpl.
  - rewrite append_empty. destruct later as [|[c| |] later]; simpl; try reflexivity.
    destruct Hidle.
  - unfold ready in IH. rewrite IH. by rewrite append_one_char.
Qed.

Lemma read_key_escape (bytes : string) (later : Stdin) :
  idle later ->
  read_key (ready (esc bytes) ++ later)%list =
    Some (Got (if String.eqb (esc bytes) (esc EmptyString) then Keys.ESC
               else default (esc bytes) (escape_sequences !! esc bytes)),
          tail later).
Proof.
  intros Hidle.
  change (ready (esc bytes) ++ later)%list
    with (RChar ESC_BYTE :: (ready bytes ++ later)%list).
  unfold read_key.
  change (Ascii.eqb ESC_BYTE ESC_BYTE) with true. cbv iota.
  rewrite (read_sequence_ready bytes _ later Hidle).
  change (String ESC_BYTE EmptyString +:+ bytes) with (esc bytes).
  change (String ESC_BYTE EmptyString) with (esc EmptyString).
  by destruct (String.eqb (esc bytes) (esc EmptyString)).
Qed.

(** C4: the decoder, given the ready bytes ESC [ A, yields UP; given
    ESC [ 1 5 ~ it yields F5; given an escape sequence that is not in
    the table of known sequences it returns the sequence itself as the
    key text; a lone escape byte with nothing after it yields ESC. *)
Theorem read_key_decodes_escape_sequences (later : Stdin) :
  idle later ->
  read_key (ready (esc "[A") ++ later)%list = Some (Got Keys.UP, tail later)
  /\ read_key (ready (esc "[15~") ++ later)%list = Some (Got Keys.F5, tail later)
  /\ (forall bytes : string,
        bytes <> EmptyString ->
        escape_sequences !! esc bytes = None ->
        read_key (ready (esc bytes) ++ later)%list = Some (Got (esc bytes), tail later))
  /\ read_key (ready (esc EmptyString) ++ later)%list = Some (Got Keys.ESC, tail later).
Proof.
  intros Hidle. split; [|split; [|split]].
  - rewrite read_key_escape by exact Hidle. vm_compute. reflexivity.
  - rewrite read_key_escape by exact Hidle. vm_compute. reflexivity.
  - intros bytes Hne Hnone. rewrite read_key_escape by exact Hidle.
    rewrite Hnone.
    destruct bytes as [|c bytes]; [congruence|].
    replace (String.eqb (esc (String c bytes)) (esc EmptyString)) with false; [reflexivity|].
    symmetry. apply String.eqb_neq. unfold esc. congruence.
  - rewrite read_key_escape by exact Hidle. vm_compute. reflexivity.
Qed.

Lemma read_key_decodes_escape_sequences_witness :
  read_key (ready (esc "[99~") ++ [REmpty])%list = Some (Got (esc "[99~"), []).
Proof.
  destruct (read_key_decodes_escape_sequences [REmpty] I) as (_ & _ & H & _).
  apply (H "[99~"); [discriminate | vm_compute; reflexivity].
Defined.

End ReadKey.

(** ** IntInput *)

Section IntInputFacts.
Import IntInput.

(** C1, as the code has it: on a focused IntInput in Edit mode Up adds
    one and Down subtracts one, and the value stops at the configured
    bound instead of going round: Up at value == max leaves max, Down at
    value == min leaves min; the key is reported as handled. *)
Theorem IntInput_up_down_stop_at_bounds (self : t) :
  is_focused self = true ->
  _being_edited self = true ->
  process_input self Keys.UP =
    (set_value (match max self with
                | Some m => Z.min (value self + 1) m
                | None => value self + 1
                end) self, true)
  /\ process_input self Keys.DOWN =
    (set_value (match min self with
                | Some m => Z.max (value self - 1) m
                | None => value self - 1
                end) self, true)
  /\ (max self = Some (value self) ->
      value (process_input self Keys.UP).1 = value self)
  /\ (min self = Some (value self) ->
      value (process_input self Keys.DOWN).1 = value self).
Proof.
  intros Hf He.
  assert (Hup : process_input self Keys.UP =
    (set_value (match max self with
                | Some m => Z.min (value self + 1) m
                | None => value self + 1
                end) self, true)).
  { unfold process_input. rewrite Hf, He. simpl.
    destruct (max self) as [m|]; [|reflexivity].
    destruct (Z.ltb_spec m (value self + 1)).
    - unfold set_value; simpl. do 3 f_equal. lia.
    - do 2 f_equal. lia. }
  assert (Hdown : process_input self Keys.DOWN =
    (set_value (match min self with
                | Some m => Z.max (value self - 1) m
                | None => value self - 1
                end) self, true)).
  { unfold process_input. rewrite Hf, He. simpl.
    destruct (min self) as [m|]; [|reflexivity].
    destruct (Z.ltb_spec (value self - 1) m).
    - unfold set_value; simpl. do 3 f_equal. lia.
    - do 2 f_equal. lia. }
  repeat split; try assumption.
  - intros Hmax. rewrite Hup, Hmax. simpl. lia.
  - intros Hmin. rewrite Hdown, Hmin. simpl. lia.
Qed.

Lemma IntInput_up_down_stop_at_bounds_witness :
  value (process_input (mk true 5 (Some 0) (Some 5) true) Keys.UP).1 = 5.
Proof.
  destruct (IntInput_up_down_stop_at_bounds (mk true 5 (Some 0) (Some 5) true)
              eq_refl eq_refl) as (_ & _ & H & _).
  apply H. reflexivity.
Defined.

(** C1 as stated fails: with min 0 and max 5, Up at value 5 does not
    give 0, and Down at value 0 does not give 5. *)
Lemma IntInput_does_not_wrap :
  exists self : t,
    is_focused self = true /\ _being_edited self = true
    /\ min self = Some 0 /\ max self = Some 5
    /\ value (process_input (set_value 5 self) Keys.UP).1 <> 0
    /\ value (process_input (set_value 0 self) Keys.DOWN).1 <> 5.
Proof.
  exists (mk true 5 (Some 0) (Some 5) true).
  repeat split; vm_compute; discriminate.
Qed.

End IntInputFacts.

(** ** DateInput *)

Section DateInputFacts.
Import DateInput.

Lemma max_day_in_month_defined (m y : Z) :
  1 <= m <= 12 -> exists max_day, _max_day_in_month m y = Ok max_day.
Proof.
  intros Hm.
  assert (Hcases : m = 1 \/ m = 2 \/ m = 3 \/ m = 4 \/ m = 5 \/ m = 6 \/ m = 7
                   \/ m = 8 \/ m = 9 \/ m = 10 \/ m = 11 \/ m = 12) by lia.
  unfold _max_day_in_month.
  repeat (destruct Hcases as [-> | Hcases]); try subst m;
    eexists; vm_compute; reflexivity.
Qed.

Lemma clamp_day_spec (self : t) :
  1 <= month self <= 12 ->
  exists self' max_day,
    clamp_day self = Ok self'
    /\ _max_day_in_month (month self') (year self') = Ok max_day
    /\ day self' = Z.min (day self) max_day
    /\ month self' = month self /\ year self' = year self.
Proof.
  intros Hm. destruct (max_day_in_month_defined _ (year self) Hm) as [md Hmd].
  unfold clamp_day. rewrite Hmd. simpl.
  destruct (Z.ltb_spec md (day self)).
  - exists (set_day md self), md. simpl. repeat split; try assumption. lia.
  - exists self, md. repeat split; try assumption. lia.
Qed.

Lemma max_day_in_month_calendar (m y : Z) :
  1 <= m <= 12 -> _max_day_in_month m y = Ok (Stated.days_in_month m y).
Proof.
  intros Hm.
  assert (Hcases : m = 1 \/ m = 2 \/ m = 3 \/ m = 4 \/ m = 5 \/ m = 6 \/ m = 7
                   \/ m = 8 \/ m = 9 \/ m = 10 \/ m = 11 \/ m = 12) by lia.
  repeat (destruct Hcases as [-> | Hcases]); try subst m;
    try (vm_compute; reflexivity).
  unfold _max_day_in_month, _bissexto, Stated.days_in_month. simpl.
  destruct (decide (Stated.leap_year y)) as [Hl | Hl]; unfold Stated.leap_year in Hl;
    destruct (Z.eqb_spec (y mod 4) 0), (Z.eqb_spec (y mod 100) 0),
      (Z.eqb_spec (y mod 400) 0); simpl; try reflexivity; exfalso; tauto.
Qed.

(** C3: on a focused DateInput in Edit mode, Up or Down on the month or
    on the year leaves the day at the smaller of the old day and the day
    count of the new month, which is the calendar's: 31 days, or 30 in
    April, June, September and November, and in February 29 days
    exactly when the year is divisible by 4 and (not by 100, or by 400),
    else 28; from 31 January the next month gives day 28 in 2023 and 29
    in 2024, and from 29 February 2024 the next year gives day 28. *)
Theorem DateInput_reclamps_day :
  (forall (self : t) (key : string),
      is_focused self = true ->
      _being_edited self = true ->
      key = Keys.UP \/ key = Keys.DOWN ->
      focus_index self = 1 \/ focus_index self = 2 ->
      1 <= month self <= 12 ->
      exists self' max_day,
        process_input self key = Ok (self', true)
        /\ _max_day_in_month (month self') (year self') = Ok max_day
        /\ max_day = Stated.days_in_month (month self') (year self')
        /\ 1 <= month self' <= 12
        /\ day self' = Z.min (day self) max_day)
  /\ (forall year : Z,
        (year mod 4 = 0 /\ (year mod 100 <> 0 \/ year mod 400 = 0) ->
         _max_day_in_month 2 year = Ok 29)
        /\ (~ (year mod 4 = 0 /\ (year mod 100 <> 0 \/ year mod 400 = 0)) ->
            _max_day_in_month 2 year = Ok 28))
  /\ (forall month year : Z,
        1 <= month <= 12 ->
        _max_day_in_month month year = Ok (Stated.days_in_month month year))
  /\ process_input (mk true 31 1 2023 1 true) Keys.UP
     = Ok (mk true 28 2 2023 1 true, true)
  /\ process_input (mk true 31 1 2024 1 true) Keys.UP
     = Ok (mk true 29 2 2024 1 true, true)
  /\ process_input (mk true 29 2 2024 2 true) Keys.UP
     = Ok (mk true 28 2 2025 2 true, true).
Proof.
  assert (Hclamp : forall s1 : t,
             1 <= month s1 <= 12 ->
             exists s' md,
               clamp_day s1 = Ok s'
               /\ _max_day_in_month (month s') (year s') = Ok md
               /\ md = Stated.days_in_month (month s') (year s')
               /\ 1 <= month s' <= 12
               /\ day s' = Z.min (day s1) md).
  { intros s1 Hm1.
    destruct (clamp_day_spec s1 Hm1) as (s' & md & Hc & Hmd & Hday & Hm' & Hy').
    exists s', md. split; [exact Hc|]. split; [exact Hmd|].
    assert (Hm2 : 1 <= month s' <= 12) by lia.
    rewrite (max_day_in_month_calendar _ (year s') Hm2) in Hmd.
    injection Hmd as Hmd. split; [by symmetry|]. split; [exact Hm2 | exact Hday]. }
  split; [|split; [|split; [|repeat split; vm_compute; reflexivity]]].
  - intros self key Hf He Hkey Hfi Hm.
    unfold process_input. rewrite Hf, He. simpl.
    destruct Hkey as [-> | ->]; simpl; destruct Hfi as [Hfi | Hfi]; rewrite Hfi; simpl.
    + set (s1 := if 12 <? month self + 1 then _ else _).
      assert (Hs1 : 1 <= month s1 <= 12 /\ day s1 = day self).
      { subst s1. destruct (Z.ltb_spec 12 (month self + 1)); simpl; lia. }
      destruct Hs1 as [Hm1 Hd1].
      destruct (Hclamp s1 Hm1) as (s' & md & -> & Hmd & Hcal & Hm' & Hday).
      exists s', md. simpl. rewrite <- Hd1. auto.
    + set (s1 := set_year (year self + 1) self).
      assert (Hm1 : 1 <= month s1 <= 12) by (subst s1; simpl; lia).
      destruct (Hclamp s1 Hm1) as (s' & md & -> & Hmd & Hcal & Hm' & Hday).
      exists s', md. simpl. auto.
    + set (s1 := if month self - 1 <? 1 then _ else _).
      assert (Hs1 : 1 <= month s1 <= 12 /\ day s1 = day self).
      { subst s1. destruct (Z.ltb_spec (month self - 1) 1); simpl; lia. }
      destruct Hs1 as [Hm1 Hd1].
      destruct (Hclamp s1 Hm1) as (s' & md & -> & Hmd & Hcal & Hm' & Hday).
      exists s', md. simpl. rewrite <- Hd1. auto.
    + set (s1 := if year self - 1 <? 1 then _ else _).
      assert (Hs1 : 1 <= month s1 <= 12 /\ day s1 = day self).
      { subst s1. destruct (Z.ltb_spec (year self - 1) 1); simpl; lia. }
      destruct Hs1 as [Hm1 Hd1].
      destruct (Hclamp s1 Hm1) as (s' & md & -> & Hmd & Hcal & Hm' & Hday).
      exists s', md. simpl. rewrite <- Hd1. auto.
  - intros year. unfold _max_day_in_month, _bissexto. simpl.
    destruct (Z.eqb_spec (year mod 4) 0), (Z.eqb_spec (year mod 100) 0),
      (Z.eqb_spec (year mod 400) 0); simpl; split; intros H;
      try reflexivity; exfalso; tauto.
  - intros month year Hm. exact (max_day_in_month_calendar month year Hm).
Qed.

Lemma DateInput_reclamps_day_witness :
  exists self' max_day,
    process_input (mk true 31 3 2023 1 true) Keys.UP = Ok (self', true)
    /\ _max_day_in_month (month self') (year self') = Ok max_day
    /\ max_day = Stated.days_in_month (month self') (year self')
    /\ 1 <= month self' <= 12
    /\ day self' = Z.min 31 max_day.
Proof.
  destruct DateInput_reclamps_day as (H & _).
  apply (H (mk true 31 3 2023 1 true) Keys.UP);
    [reflexivity | reflexivity | left; reflexivity | left; reflexivity
    | simpl; lia].
Defined.

End DateInputFacts.

(** ** Python indexing *)

Lemma py_pos_in_range {A} (l : list A) (i : Z) :
  0 <= i < Z.of_nat (length l) -> py_pos l i = Ok (Z.to_nat i).
Proof.
  intros [H0 H1]. unfold py_pos.
  destruct (Z.leb_spec 0 i); [|lia].
  destruct (Z.ltb_spec i (Z.of_nat (length l))); [|lia].
  reflexivity.
Qed.

Lemma py_alter_in_range {A} (f : A -> A) (l : list A) (i : Z) :
  0 <= i < Z.of_nat (length l) -> py_alter f l i = Ok (alter f (Z.to_nat i) l).
Proof. intros H. unfold py_alter. by rewrite py_pos_in_range. Qed.

(** ** VerticalList *)

Section VerticalListFacts.
Context {C : Type} {WC : Widget C}.
Import VerticalList.

Lemma focus_index_range (v : t C) :
  children v <> [] -> 0 <= _focus_index v ->
  0 <= focus_index v < len v.
Proof.
  intros Hne H0. unfold focus_index, len.
  destruct (children v) as [|c cs]; [done|]. simpl length.
  destruct (Z.eqb_spec (Z.of_nat (S (length cs))) 0); lia.
Qed.

(** What [_move_focus] does on a list with rows. *)
Lemma move_focus_spec (v : t C) (delta : Z) :
  children v <> [] -> 0 <= _focus_index v ->
  exists cs,
    length cs = length (children v)
    /\ _move_focus delta v =
       Ok (_ensure_visible
             (set_children cs
                (set__focus_index ((focus_index v + delta) mod len v) v))).
Proof.
  intros Hne H0.
  pose proof (focus_index_range v Hne H0) as Hr.
  unfold _move_focus.
  destruct (children v) as [|c cs] eqn:Hcs; [done|]. rewrite <- Hcs.
  rewrite py_alter_in_range by (unfold len in Hr; lia).
  simpl bind.
  set (cs1 := alter (w_set_is_focused false) _ (children v)).
  assert (Hl1 : length cs1 = length (children v)) by (subst cs1; apply length_alter).
  set (v1 := set_children cs1 v).
  assert (Hlen1 : len v1 = len v) by (unfold len, v1; simpl; lia).
  assert (Hpos : 0 < len v) by lia.
  pose proof (Z.mod_pos_bound (focus_index v + delta) (len v) Hpos) as Hmod.
  rewrite Hlen1.
  set (m := (focus_index v + delta) mod len v) in *.
  assert (Hset : set_focus_index m v1 = set__focus_index m v1).
  { unfold set_focus_index. rewrite Hlen1.
    destruct (Z.eqb_spec (len v) 0); [lia|]. f_equal. lia. }
  rewrite Hset.
  set (v2 := set__focus_index m v1).
  assert (Hfi2 : focus_index v2 = m).
  { unfold focus_index. replace (len v2) with (len v) by (symmetry; exact Hlen1).
    destruct (Z.eqb_spec (len v) 0); [lia|].
    change (_focus_index v2) with m. lia. }
  assert (Hc2 : children v2 = cs1) by reflexivity.
  rewrite Hc2.
  rewrite py_alter_in_range by (rewrite Hfi2, Hl1; unfold len in Hmod; lia).
  simpl bind.
  eexists. split; [|reflexivity].
  rewrite length_alter. exact Hl1.
Qed.

Lemma ensure_visible_fields (v : t C) :
  children (_ensure_visible v) = children v
  /\ _focus_index (_ensure_visible v) = _focus_index v
  /\ height (_ensure_visible v) = height v.
Proof.
  unfold _ensure_visible.
  destruct (focus_index v <? scroll_offset v); [done|].
  by destruct (scroll_offset v + height v - 2 <=? focus_index v).
Qed.

Lemma ensure_visible_focus_index (v : t C) :
  focus_index (_ensure_visible v) = focus_index v.
Proof.
  destruct (ensure_visible_fields v) as (Hc & Hf & _).
  unfold focus_index, len. by rewrite Hc, Hf.
Qed.

(** A built list keeps its stored index and its scroll offset within
    bounds: the offset never passes the last full window. *)
Lemma built_bounds (v : t C) :
  built v ->
  0 <= _focus_index v
  /\ 0 <= scroll_offset v <= Z.max 0 (len v - (height v - 2)).
Proof.
  induction 1 as [x y w h | v c Hb IH | v delta v' Hb IH Hmove].
  - simpl. unfold len. simpl. lia.
  - unfold add_child, len in *. simpl. rewrite length_app. simpl. lia.
  - destruct (children v) as [|c0 cs0] eqn:Hcs.
    { unfold _move_focus in Hmove. rewrite Hcs in Hmove. by inversion Hmove; subst. }
    assert (Hne : children v <> []) by (rewrite Hcs; done).
    destruct IH as (H0 & Hoff).
    destruct (move_focus_spec v delta Hne H0) as (cs & Hl & Heq).
    rewrite Heq in Hmove. inversion Hmove as [Hv']. clear Hmove Heq.
    set (v2 := set_children cs (set__focus_index _ v)).
    assert (Hlen2 : len v2 = len v) by (unfold len, v2; simpl; lia).
    assert (Hpos : 0 < len v) by (unfold len; rewrite Hcs; simpl; lia).
    pose proof (Z.mod_pos_bound (focus_index v + delta) (len v) Hpos) as Hmod.
    set (m := (focus_index v + delta) mod len v) in *.
    assert (Hfi2 : focus_index v2 = m).
    { unfold focus_index. rewrite Hlen2.
      destruct (Z.eqb_spec (len v) 0); [lia|].
      change (_focus_index v2) with m. lia. }
    destruct (ensure_visible_fields v2) as (Hc & Hf & Hh).
    split.
    + rewrite Hf. change (_focus_index v2) with m. lia.
    + unfold len. rewrite Hc. fold (len v2). rewrite Hh, Hlen2.
      unfold _ensure_visible. rewrite Hfi2.
      change (scroll_offset v2) with (scroll_offset v).
      change (height v2) with (height v).
      destruct (Z.ltb_spec m (scroll_offset v)).
      * change (scroll_offset (set_scroll_offset m v2)) with m. lia.
      * destruct (Z.leb_spec (scroll_offset v + height v - 2) m).
        -- change (scroll_offset (set_scroll_offset (m - (height v - 3)) v2))
             with (m - (height v - 3)). lia.
        -- change (scroll_offset v2) with (scroll_offset v). lia.
Qed.

(** C9, as the code has it: on a list of height at least 3 with rows, a
    selection move goes to the next index with wraparound and leaves the
    selected index within [scroll_offset, scroll_offset + H - 3]; and on
    a list built from a fresh one by add_child and selection moves, with
    N > H - 2 rows, a move that lands on the last row N - 1 leaves
    scroll_offset = N - (H - 2). *)
Theorem VerticalList_selection_stays_visible (v : t C) (delta : Z) :
  3 <= height v ->
  children v <> [] ->
  0 <= _focus_index v ->
  exists v',
    _move_focus delta v = Ok v'
    /\ focus_index v' = (focus_index v + delta) mod len v
    /\ scroll_offset v' <= focus_index v' <= scroll_offset v' + height v' - 3
    /\ (built v ->
        len v > height v - 2 ->
        focus_index v' = len v - 1 ->
        scroll_offset v' = len v - (height v - 2)).
Proof.
  intros Hh Hne H0.
  destruct (move_focus_spec v delta Hne H0) as (cs & Hl & Heq).
  rewrite Heq. eexists. split; [reflexivity|].
  set (v2 := set_children cs (set__focus_index _ v)).
  assert (Hlen2 : len v2 = len v) by (unfold len, v2; simpl; lia).
  pose proof (focus_index_range v Hne H0) as Hr.
  assert (Hpos : 0 < len v) by lia.
  pose proof (Z.mod_pos_bound (focus_index v + delta) (len v) Hpos) as Hmod.
  set (m := (focus_index v + delta) mod len v) in *.
  assert (Hfi2 : focus_index v2 = m).
  { unfold focus_index. rewrite Hlen2.
    destruct (Z.eqb_spec (len v) 0); [lia|].
    change (_focus_index v2) with m. lia. }
  destruct (ensure_visible_fields v2) as (Hc & Hf & Hhe).
  rewrite ensure_visible_focus_index, Hhe, Hfi2.
  change (height v2) with (height v).
  split; [reflexivity|].
  unfold _ensure_visible. rewrite Hfi2.
  change (scroll_offset v2) with (scroll_offset v).
  change (height v2) with (height v).
  destruct (Z.ltb_spec m (scroll_offset v)).
  - change (scroll_offset (set_scroll_offset m v2)) with m.
    split; [lia|]. intros Hb HN Hlast.
    destruct (built_bounds v Hb) as (_ & Hoff). lia.
  - destruct (Z.leb_spec (scroll_offset v + height v - 2) m).
    + change (scroll_offset (set_scroll_offset (m - (height v - 3)) v2))
        with (m - (height v - 3)).
      split; [lia|]. intros Hb HN Hlast. lia.
    + change (scroll_offset v2) with (scroll_offset v).
      split; [lia|]. intros Hb HN Hlast.
      destruct (built_bounds v Hb) as (_ & Hoff). lia.
Qed.

End VerticalListFacts.

Lemma VerticalList_selection_stays_visible_witness :
  exists v',
    VerticalList._move_focus (-1)
      (VerticalList.add_child (Label.new "d" 1 1)
         (VerticalList.add_child (Label.new "c" 1 1)
            (VerticalList.add_child (Label.new "b" 1 1)
               (VerticalList.add_child (Label.new "a" 1 1)
                  (VerticalList.new 1 1 20 5))))) = Ok v'
    /\ VerticalList.focus_index v' = 3
    /\ VerticalList.scroll_offset v' = 1.
Proof.
  set (v := VerticalList.add_child _ _).
  assert (Hb : VerticalList.built v) by (repeat constructor).
  destruct (VerticalList_selection_stays_visible v (-1))
    as (v' & Hmove & Hfi & _ & Hlast);
    [vm_compute; discriminate | discriminate | vm_compute; discriminate |].
  exists v'. split; [exact Hmove|]. split; [exact Hfi|].
  apply (Hlast Hb); [reflexivity | exact Hfi].
Defined.

(** C9 as stated fails in two ways.  On a list of height 2 (no visible
    row) with one row, Down leaves the selection 0 outside the window
    [1, 0].  And a list whose rows were replaced by fewer rows keeps its
    old offset: with 4 rows, height 5, offset 2 and selection 2, Down
    lands on the last row 3 and the offset stays 2, not 4 - 3. *)
Lemma VerticalList_window_counterexample :
  (exists v v' : VerticalList.t Label.t,
      v = VerticalList.add_child (Label.new "a" 1 1) (VerticalList.new 1 1 20 2)
      /\ VerticalList._move_focus 1 v = Ok v'
      /\ ~ (VerticalList.scroll_offset v' <= VerticalList.focus_index v'
            <= VerticalList.scroll_offset v' + VerticalList.height v' - 3))
  /\ (exists v v' : VerticalList.t Label.t,
        v = VerticalList.mk 1 1 20 5
              [Label.new "a" 1 1; Label.new "b" 1 1;
               Label.new "c" 1 1; Label.new "d" 1 1] 2 2 true true
        /\ VerticalList._move_focus 1 v = Ok v'
        /\ VerticalList.focus_index v' = VerticalList.len v - 1
        /\ VerticalList.len v > VerticalList.height v - 2
        /\ VerticalList.scroll_offset v'
           <> VerticalList.len v - (VerticalList.height v - 2)).
Proof.
  split.
  - eexists _, _. split; [reflexivity|]. split; [vm_compute; reflexivity|].
    vm_compute. intros [H _]. apply H. reflexivity.
  - eexists _, _. split; [reflexivity|]. split; [vm_compute; reflexivity|].
    repeat split; vm_compute; congruence.
Qed.

(** ** TodoApp: shutdown and the navigation stack *)

Section TodoAppFacts.
Import TodoApp.

(** A step is among the calls made exactly when no step before it
    raised. *)
Lemma until_first_raise_elem (faults : Step -> Fault) (steps : list Step) (s : Step) :
  s ∈ until_first_raise faults steps <->
  exists before after,
    steps = (before ++ s :: after)%list
    /\ forall p, p ∈ before -> step_raises faults p = false.
Proof.
  induction steps as [|s0 steps IH]; simpl.
  - split; [intros H; by apply elem_of_nil in H|].
    intros (before & after & Heq & _). by destruct before.
  - rewrite elem_of_cons. split.
    + intros [-> | Hin].
      * exists [], steps. split; [reflexivity|]. intros p Hp. by apply elem_of_nil in Hp.
      * destruct (step_raises faults s0) eqn:Hs0; [by apply elem_of_nil in Hin|].
        apply IH in Hin as (before & after & -> & Hok).
        exists (s0 :: before), after. split; [reflexivity|].
        intros p [-> | Hp]%elem_of_cons; [exact Hs0 | by apply Hok].
    + intros (before & after & Heq & Hok).
      destruct before as [|b before]; simpl in Heq; inversion Heq; subst.
      * by left.
      * right. rewrite (Hok b) by (by left). apply IH.
        exists before, after. split; [reflexivity|].
        intros p Hp. apply Hok. by right.
Qed.

(** C2, as the code has it: [quit_app] makes its cleanup calls strictly
    in sequence (clear screen, move cursor, show cursor, save the
    database, leave raw mode) and stops at the first call that raises: a
    call is made only if every call before it returned.  When none
    raises, all five are made, raw mode is left and the application
    exits. *)
Theorem quit_app_stops_at_first_failure (faults : Step -> Fault) (app : t) :
  log (quit_app faults app).1 =
    (log app ++ map Called (until_first_raise faults cleanup_steps)
       ++ (if forallb (fun s => negb (step_raises faults s)) cleanup_steps
           then [Exited] else []))%list
  /\ (forall s : Step,
        s ∈ until_first_raise faults cleanup_steps <->
        exists before after,
          cleanup_steps = (before ++ s :: after)%list
          /\ forall p, p ∈ before -> step_raises faults p = false)
  /\ (quit_app faults app).2 =
     (if forallb (fun s => negb (step_raises faults s)) cleanup_steps
      then Raise SystemExit else Raise IOError)
  /\ raw_mode (quit_app faults app).1 =
     (if forallb (fun s => negb (step_raises faults s)) cleanup_steps
      then false else raw_mode app).
Proof.
  split; [|split; [intros s; apply until_first_raise_elem|]].
  - unfold quit_app, and_then, call, exit, cleanup_steps, until_first_raise, forallb.
    destruct (step_raises faults clear_screen); simpl; [by rewrite <- ?app_assoc|].
    destruct (step_raises faults move_cursor); simpl; [by rewrite <- ?app_assoc|].
    destruct (step_raises faults show_cursor); simpl; [by rewrite <- ?app_assoc|].
    destruct (step_raises faults save_database); simpl; [by rewrite <- ?app_assoc|].
    destruct (step_raises faults disable_raw_mode); simpl; by rewrite <- ?app_assoc.
  - unfold quit_app, and_then, call, exit, cleanup_steps, forallb.
    destruct (step_raises faults clear_screen); simpl; [done|].
    destruct (step_raises faults move_cursor); simpl; [done|].
    destruct (step_raises faults show_cursor); simpl; [done|].
    destruct (step_raises faults save_database); simpl; [done|].
    by destruct (step_raises faults disable_raw_mode).
Qed.

(** C2 as stated fails: when showing the cursor raises, the database is
    not saved and raw mode is not left. *)
Lemma quit_app_failure_counterexample :
  exists (faults : Step -> Fault) (app : t),
    faults = (fun s => match s with show_cursor => Raises | _ => NoFault end)
    /\ app = mk [mkScreen LIST_SELECTION 0] (Some (mkScreen LIST_SELECTION 0)) true []
    /\ calls (log (quit_app faults app).1) = [clear_screen; move_cursor; show_cursor]
    /\ raw_mode (quit_app faults app).1 = true
    /\ (quit_app faults app).2 = Raise IOError.
Proof.
  eexists _, _. split; [reflexivity|]. split; [reflexivity|].
  repeat split; vm_compute; reflexivity.
Qed.

End TodoAppFacts.

Section NavigationStackFacts.
Import TodoApp.

Lemma run_stops_at_raise (process_input : string -> Method) (key : string)
      (rest : list string) (app : t) (e : Exc) :
  key <> EmptyString ->
  (process_input key app).2 = Raise e ->
  run process_input (key :: rest) app = process_input key app.
Proof.
  intros Hkey Hraise. apply key_is_false in Hkey. simpl. rewrite Hkey.
  destruct (process_input key app) as [app' r]. simpl in Hraise. by subst r.
Qed.

Lemma pop_screen_stack_last (faults : Step -> Fault) (app : t)
      (below : list Screen) (top : Screen) :
  screen_stack app = (below ++ [top])%list ->
  pop_screen_stack faults app =
    match rev below with
    | [] => quit_app faults (set_screen_stack [] app)
    | exposed :: _ =>
        let app :=
          record (Refreshed exposed)
            (set_current_screen (Some exposed) (set_screen_stack below app)) in
        if pops_on_refresh (kind exposed) then pop_from faults (rev below) app
        else (app, Ok tt)
    end.
Proof.
  intros Hstack. unfold pop_screen_stack. rewrite Hstack.
  rewrite rev_app_distr. simpl.
  destruct (rev below) as [|exposed rest] eqn:Hrev.
  - reflexivity.
  - rewrite <- Hrev, rev_involutive. by rewrite Hrev.
Qed.

(** C7, as the code has it.  On a stack of exactly one screen, pop()
    empties the stack and runs [quit_app]; when no cleanup call raises,
    that saves the database, leaves raw mode and ends with SystemExit,
    and a run loop whose key handler did this pop stops there without
    reading further keys.  On a stack of two or more screens, pop()
    removes the top screen, makes the screen beneath it the current
    screen and sends it REFRESH once; if that screen is not a
    TaskDetailScreen this is all; a TaskDetailScreen answers REFRESH by
    popping the stack, so pop() goes on as a pop() of the shortened
    stack. *)
Theorem pop_screen_stack_spec (faults : Step -> Fault) (app : t) :
  (forall only : Screen,
      screen_stack app = [only] ->
      pop_screen_stack faults app = quit_app faults (set_screen_stack [] app)
      /\ ((forall s, step_raises faults s = false) ->
          (pop_screen_stack faults app).2 = Raise SystemExit
          /\ log (pop_screen_stack faults app).1 =
             (log app ++ map Called cleanup_steps ++ [Exited])%list
          /\ raw_mode (pop_screen_stack faults app).1 = false
          /\ screen_stack (pop_screen_stack faults app).1 = []
          /\ forall (process_input : string -> Method) (key : string)
                    (rest : list string),
               key <> EmptyString ->
               process_input key app = pop_screen_stack faults app ->
               run process_input (key :: rest) app = pop_screen_stack faults app))
  /\ (forall (below : list Screen) (exposed top : Screen),
        screen_stack app = (below ++ [exposed; top])%list ->
        let shown :=
          record (Refreshed exposed)
            (set_current_screen (Some exposed)
               (set_screen_stack (below ++ [exposed]) app)) in
        log shown = (log app ++ [Refreshed exposed])%list
        /\ (pops_on_refresh (kind exposed) = false ->
            pop_screen_stack faults app = (shown, Ok tt))
        /\ (pops_on_refresh (kind exposed) = true ->
            pop_screen_stack faults app = pop_screen_stack faults shown)).
Proof.
  split.
  - intros only Hstack.
    assert (Hpop : pop_screen_stack faults app
                   = quit_app faults (set_screen_stack [] app)).
    { by rewrite (pop_screen_stack_last faults app [] only Hstack). }
    split; [exact Hpop|]. intros Hok.
    assert (Hquit : quit_app faults (set_screen_stack [] app) =
                    (mk [] (current_screen app) false
                        (log app ++ map Called cleanup_steps ++ [Exited]),
                     Raise SystemExit)).
    { unfold quit_app, and_then, call, exit, record. rewrite !Hok. simpl.
      by rewrite <- !app_assoc. }
    assert (Hres : (quit_app faults (set_screen_stack [] app)).2 = Raise SystemExit)
      by (by rewrite Hquit).
    rewrite Hpop. split; [exact Hres|]. rewrite Hquit.
    split; [reflexivity|]. split; [reflexivity|]. split; [reflexivity|].
    rewrite <- Hquit.
    intros process_input key rest Hkey Hhandler.
    rewrite <- Hhandler. apply run_stops_at_raise with SystemExit; [exact Hkey|].
    rewrite Hhandler. exact Hres.
  - intros below exposed top Hstack shown.
    split; [reflexivity|].
    assert (Hstack' : screen_stack app = ((below ++ [exposed]) ++ [top])%list)
      by (by rewrite <- app_assoc).
    pose proof (pop_screen_stack_last faults app _ top Hstack') as Hpop.
    rewrite rev_app_distr in Hpop. simpl in Hpop. fold shown in Hpop.
    split; intros Hk; rewrite Hk in Hpop; [exact Hpop|].
    rewrite Hpop. unfold pop_screen_stack.
    change (screen_stack shown) with (below ++ [exposed])%list.
    by rewrite rev_app_distr.
Qed.

Lemma pop_screen_stack_spec_witness :
  pop_screen_stack (fun _ => NoFault)
    (mk [mkScreen LIST_SELECTION 0; mkScreen FILTER_OPTIONS 1]
        (Some (mkScreen FILTER_OPTIONS 1)) true [])
  = (mk [mkScreen LIST_SELECTION 0] (Some (mkScreen LIST_SELECTION 0)) true
        [Refreshed (mkScreen LIST_SELECTION 0)], Ok tt).
Proof.
  destruct (pop_screen_stack_spec (fun _ => NoFault)
              (mk [mkScreen LIST_SELECTION 0; mkScreen FILTER_OPTIONS 1]
                  (Some (mkScreen FILTER_OPTIONS 1)) true [])) as (_ & H).
  destruct (H [] (mkScreen LIST_SELECTION 0) (mkScreen FILTER_OPTIONS 1) eq_refl)
    as (_ & Hplain & _).
  apply Hplain. reflexivity.
Defined.

(** C7 as stated fails when the exposed screen is a TaskDetailScreen:
    popping the edit screen off list selection, task view, task detail,
    edit task removes two screens and leaves the task view current. *)
Lemma pop_screen_stack_cascade_counterexample :
  exists app : t,
    app = mk [mkScreen LIST_SELECTION 0; mkScreen TASK_VIEW 1;
              mkScreen TASK_DETAIL 2; mkScreen EDIT_TASK 3]
             (Some (mkScreen EDIT_TASK 3)) true []
    /\ pop_screen_stack (fun _ => NoFault) app =
       (mk [mkScreen LIST_SELECTION 0; mkScreen TASK_VIEW 1]
           (Some (mkScreen TASK_VIEW 1)) true
           [Refreshed (mkScreen TASK_DETAIL 2); Refreshed (mkScreen TASK_VIEW 1)],
        Ok tt)
    /\ screen_stack (pop_screen_stack (fun _ => NoFault) app).1
       <> [mkScreen LIST_SELECTION 0; mkScreen TASK_VIEW 1; mkScreen TASK_DETAIL 2]
    /\ current_screen (pop_screen_stack (fun _ => NoFault) app).1
       <> Some (mkScreen TASK_DETAIL 2).
Proof.
  eexists. split; [reflexivity|].
  repeat split; vm_compute; congruence.
Qed.

End NavigationStackFacts.

(** ** TUIScreen: focus *)

Section ScreenFacts.
Context {W : Type} {WW : Widget W} {WL : WidgetLaws W}.
Import TUIScreen.

Implicit Types (self : t W) (i j : nat).

Lemma children_assign b i self :
  children (assign_is_focused b i self) = alter (w_set_is_focused b) i (children self).
Proof. reflexivity. Qed.

Lemma focusable_at_assign b i self j :
  focusable_at (assign_is_focused b i self) j = focusable_at self j.
Proof.
  unfold focusable_at. rewrite children_assign, list_lookup_alter.
  case_decide as Hij; [subst j|reflexivity].
  destruct (children self !! i); simpl; [apply focusable_set | reflexivity].
Qed.

Lemma focused_at_assign b i self j :
  (i < length (children self))%nat ->
  focused_at (assign_is_focused b i self) j =
    if decide (j = i) then b else focused_at self j.
Proof.
  intros Hi. unfold focused_at. rewrite children_assign, list_lookup_alter.
  destruct (decide (i = j)) as [->|Hne]; case_decide; try congruence.
  destruct (lookup_lt_is_Some_2 _ _ Hi) as [w ->]. simpl. apply focused_set.
Qed.

Lemma tab_assign b i self :
  get_focusable_widgets (assign_is_focused b i self) = get_focusable_widgets self.
Proof.
  unfold get_focusable_widgets. simpl.
  destruct (tab_order self); [reflexivity|].
  rewrite length_alter. apply list_filter_iff. intros j.
  fold (assign_is_focused b i self).
  change (alter (w_set_is_focused b) i (children self))
    with (children (assign_is_focused b i self)).
  fold (focusable_at (assign_is_focused b i self) j).
  by rewrite focusable_at_assign.
Qed.

Lemma length_assign b i self :
  length (children (assign_is_focused b i self)) = length (children self).
Proof. rewrite children_assign. apply length_alter. Qed.

Lemma tab_set_focus_index v self :
  get_focusable_widgets (set_focus_index v self) = get_focusable_widgets self.
Proof. reflexivity. Qed.

Lemma focused_at_set_focus_index v self j :
  focused_at (set_focus_index v self) j = focused_at self j.
Proof. reflexivity. Qed.

(** [get_focused_widget] finds the focused member when only one widget
    is focused, and nothing when none is. *)
Lemma get_focused_widget_unique self i :
  i ∈ get_focusable_widgets self ->
  focused_at self i = true ->
  (forall j, j ∈ get_focusable_widgets self -> focused_at self j = true -> j = i) ->
  get_focused_widget self = Some i.
Proof.
  intros Hin Hf Huniq. unfold get_focused_widget.
  destruct (list_find_elem_of (fun k => focused_at self k = true) _ i Hin Hf)
    as [[k x] Hfind].
  rewrite Hfind. simpl. f_equal.
  apply list_find_Some in Hfind as (Hk & Hx & _).
  apply Huniq; [by eapply list_elem_of_lookup_2 | exact Hx].
Qed.

Lemma get_focused_widget_none self :
  (forall j, j ∈ get_focusable_widgets self -> focused_at self j = false) ->
  get_focused_widget self = None.
Proof.
  intros Hnone. unfold get_focused_widget.
  replace (list_find _ _) with (@None (nat * nat)); [reflexivity|].
  symmetry. apply list_find_None, Forall_forall. intros j Hj.
  rewrite (Hnone j Hj). discriminate.
Qed.

Lemma get_focused_widget_Some self i :
  get_focused_widget self = Some i ->
  i ∈ get_focusable_widgets self /\ focused_at self i = true.
Proof.
  unfold get_focused_widget. intros H.
  destruct (list_find _ _) as [[k x]|] eqn:Hfind; [|discriminate].
  simpl in H. inversion H; subst x.
  apply list_find_Some in Hfind as (Hk & Hx & _).
  split; [by eapply list_elem_of_lookup_2 | exact Hx].
Qed.

Lemma get_focused_widget_None self :
  get_focused_widget self = None ->
  forall j, j ∈ get_focusable_widgets self -> focused_at self j = false.
Proof.
  unfold get_focused_widget. intros H j Hj.
  destruct (list_find _ _) as [[k x]|] eqn:Hfind; [discriminate|].
  apply list_find_None in Hfind. rewrite Forall_forall in Hfind.
  specialize (Hfind j Hj). by destruct (focused_at self j).
Qed.

Lemma set_focus_by_index_eq self index :
  get_focusable_widgets self <> [] ->
  set_focus_by_index index self =
    let index_to_focus :=
      Z.max 0 (Z.min index (Z.of_nat (length (get_focusable_widgets self)) - 1)) in
    let self1 :=
      match get_focused_widget self with
      | Some current_focused => assign_is_focused false current_focused self
      | None => self
      end in
    let self2 :=
      match get_focusable_widgets self !! Z.to_nat index_to_focus with
      | Some target => assign_is_focused true target self1
      | None => self1
      end in
    set_focus_index index_to_focus self2.
Proof.
  intros Hne. unfold set_focus_by_index.
  destruct (get_focusable_widgets self) eqn:Htab; [done|reflexivity].
Qed.

(** The heart of the focus manager: on a screen where the only focused
    widget, if any, is the one [get_focused_widget] finds, after
    [set_focus_by_index] the widget at the clamped index of the tab order
    is focused and no other widget is. *)
Lemma set_focus_by_index_focuses self index :
  well_formed self ->
  get_focusable_widgets self <> [] ->
  (forall j, focused_at self j = true -> get_focused_widget self = Some j) ->
  exists target,
    get_focusable_widgets self
      !! Z.to_nat (Z.max 0 (Z.min index
                     (Z.of_nat (length (get_focusable_widgets self)) - 1)))
      = Some target
    /\ get_focusable_widgets (set_focus_by_index index self)
       = get_focusable_widgets self
    /\ length (children (set_focus_by_index index self)) = length (children self)
    /\ (forall j, focused_at (set_focus_by_index index self) j = true <-> j = target)
    /\ focus_index (set_focus_by_index index self)
       = Some (Z.max 0 (Z.min index
                 (Z.of_nat (length (get_focusable_widgets self)) - 1))).
Proof.
  intros [Hnodup Hrange] Hne Honly.
  rewrite set_focus_by_index_eq by exact Hne. cbv zeta.
  set (n := Z.of_nat (length (get_focusable_widgets self))).
  set (idx := Z.max 0 (Z.min index (n - 1))).
  assert (Hn : 0 < n).
  { subst n. destruct (get_focusable_widgets self); [done|simpl; lia]. }
  assert (Hidx : (Z.to_nat idx < length (get_focusable_widgets self))%nat)
    by (subst idx n; lia).
  destruct (lookup_lt_is_Some_2 _ _ Hidx) as [target Htarget].
  rewrite Htarget. exists target. split; [reflexivity|].
  assert (Htin : target ∈ get_focusable_widgets self)
    by (by eapply list_elem_of_lookup_2).
  pose proof (Hrange target Htin) as Htlt.
  set (self1 := match get_focused_widget self with
                | Some c => assign_is_focused false c self
                | None => self
                end).
  assert (H1 : get_focusable_widgets self1 = get_focusable_widgets self
               /\ length (children self1) = length (children self)
               /\ forall j, focused_at self1 j = false).
  { subst self1. destruct (get_focused_widget self) as [cur|] eqn:Hcur.
    - apply get_focused_widget_Some in Hcur as Hc. destruct Hc as [Hcin Hcf].
      rewrite tab_assign, length_assign. repeat split.
      intros j. rewrite focused_at_assign by (by apply Hrange).
      case_decide as Hj; [reflexivity|].
      destruct (focused_at self j) eqn:Hfj; [|reflexivity].
      apply Honly in Hfj. congruence.
    - repeat split. intros j.
      destruct (focused_at self j) eqn:Hfj; [|reflexivity].
      apply Honly in Hfj. congruence. }
  destruct H1 as (Htab1 & Hlen1 & Hnone1).
  rewrite tab_set_focus_index, tab_assign, Htab1. split; [reflexivity|].
  split; [simpl; by rewrite length_alter|].
  split; [|reflexivity].
  intros j. rewrite focused_at_set_focus_index.
  rewrite focused_at_assign by (rewrite Hlen1; exact Htlt).
  case_decide as Hj; [by split|].
  rewrite Hnone1. split; [discriminate|congruence].
Qed.

Lemma settled_only_focused self :
  settled self ->
  forall j, focused_at self j = true -> get_focused_widget self = Some j.
Proof.
  intros [_ Hs] j Hj.
  destruct (get_focusable_widgets self) eqn:Htab.
  - rewrite Hs in Hj. discriminate.
  - destruct Hs as (i & Hin & Hiff).
    apply Hiff in Hj as ->. rewrite <- Htab in Hin.
    apply get_focused_widget_unique; [exact Hin | by apply Hiff |].
    intros j _ Hj. by apply Hiff.
Qed.

Lemma settled_focus_invariant self : settled self -> focus_invariant self.
Proof.
  intros [_ Hs]. unfold focus_invariant.
  destruct (get_focusable_widgets self); [exact Hs|].
  destruct Hs as (i & Hin & Hiff). exists i. split; [exact Hin|].
  split; [by apply Hiff|]. intros j _ Hj. by apply Hiff.
Qed.

Lemma settled_after_set_focus self index :
  well_formed self ->
  (forall j, focused_at self j = true -> get_focused_widget self = Some j) ->
  settled (set_focus_by_index index self).
Proof.
  intros Hwf Honly.
  destruct (get_focusable_widgets self) as [|t0 tl] eqn:Htab.
  - unfold set_focus_by_index. rewrite Htab. split; [exact Hwf|].
    rewrite Htab. intros j. destruct (focused_at self j) eqn:Hj; [|reflexivity].
    apply Honly, get_focused_widget_Some in Hj as [Hin _].
    rewrite Htab in Hin. by apply elem_of_nil in Hin.
  - assert (Hne : get_focusable_widgets self <> []) by (by rewrite Htab).
    destruct (set_focus_by_index_focuses self index Hwf Hne Honly)
      as (target & Htarget & Htab' & Hlen' & Hiff & _).
    split.
    + unfold well_formed. rewrite Htab', Hlen'. exact Hwf.
    + rewrite Htab', Htab. exists target. rewrite <- Htab.
      split; [by eapply list_elem_of_lookup_2 | exact Hiff].
Qed.

Lemma settled_set_focus_by_index self index :
  settled self -> settled (set_focus_by_index index self).
Proof.
  intros Hs. apply settled_after_set_focus; [apply Hs|].
  by apply settled_only_focused.
Qed.

Lemma move_focus_eq self direction :
  move_focus direction self = self
  \/ exists index, move_focus direction self = set_focus_by_index index self.
Proof.
  unfold move_focus. destruct (get_focusable_widgets self); [by left|].
  right. eexists. reflexivity.
Qed.

Lemma settled_move_focus self direction :
  settled self -> settled (move_focus direction self).
Proof.
  intros Hs. destruct (move_focus_eq self direction) as [->|[index ->]];
    [exact Hs | by apply settled_set_focus_by_index].
Qed.

Lemma settled_arrow_step self key :
  settled self -> settled (arrow_step key self).
Proof.
  intros Hs. unfold arrow_step.
  destruct (is_arrow key); [|exact Hs].
  destruct (_find_next_widget_in_direction self key); [|exact Hs].
  destruct (index_of _ _); [|exact Hs].
  by apply settled_set_focus_by_index.
Qed.

Lemma settled_navigation_step self key :
  settled self -> settled (navigation_step key self).1.
Proof.
  intros Hs. unfold navigation_step.
  destruct (key_is key Keys.TAB); [by apply settled_move_focus|].
  destruct (key_is key Keys.SHIFT_TAB); [by apply settled_move_focus|].
  by destruct (key_is key Keys.ESC).
Qed.

(** Replacing a widget by one with the same flags changes nothing the
    focus manager looks at. *)
Lemma settled_replace self i w w' :
  children self !! i = Some w ->
  w_is_focused w' = w_is_focused w ->
  w_is_focusable w' = w_is_focusable w ->
  settled self ->
  settled (set_children (<[i := w']> (children self)) self).
Proof.
  intros Hw Hf Hfa Hs.
  set (self' := set_children _ self).
  assert (Hlt : (i < length (children self))%nat)
    by (apply lookup_lt_is_Some; eauto).
  assert (Hfocused : forall j, focused_at self' j = focused_at self j).
  { intros j. unfold focused_at, self'. simpl. rewrite list_lookup_insert.
    case_decide as Hij; [|reflexivity]. destruct Hij as [-> _]. by rewrite Hw. }
  assert (Hfocusable : forall j, focusable_at self' j = focusable_at self j).
  { intros j. unfold focusable_at, self'. simpl. rewrite list_lookup_insert.
    case_decide as Hij; [|reflexivity]. destruct Hij as [-> _]. by rewrite Hw. }
  assert (Hlen : length (children self') = length (children self))
    by (unfold self'; simpl; apply length_insert).
  assert (Htab : get_focusable_widgets self' = get_focusable_widgets self).
  { unfold get_focusable_widgets. change (tab_order self') with (tab_order self).
    destruct (tab_order self); [reflexivity|].
    rewrite Hlen. apply list_filter_iff. intros j. by rewrite Hfocusable. }
  destruct Hs as [Hwf Hs]. split.
  - unfold well_formed. rewrite Htab, Hlen. exact Hwf.
  - rewrite Htab. destruct (get_focusable_widgets self).
    + intros j. by rewrite Hfocused.
    + destruct Hs as (k & Hin & Hiff). exists k. split; [exact Hin|].
      intros j. by rewrite Hfocused.
Qed.

Lemma settled_offer_to_focused self key self' r cbs :
  settled self ->
  offer_to_focused key self = Ok (self', r, cbs) ->
  settled self'.
Proof.
  intros Hs. unfold offer_to_focused.
  destruct (get_focused_widget self) as [fw|]; [|by intros [= <- _ _]].
  destruct (children self !! fw) as [w|] eqn:Hw; [|by intros [= <- _ _]].
  destruct (w_process_input w key) as [[[w' r'] cbs']|e] eqn:Hin; [|discriminate].
  simpl. intros [= <- _ _].
  destruct (input_keeps_flags _ _ _ _ _ Hin) as [Hf Hfa].
  by eapply settled_replace.
Qed.

Lemma settled_process_input self key self' cbs :
  settled self ->
  process_input key self = Ok (self', cbs) ->
  settled self'.
Proof.
  intros Hs. unfold process_input.
  destruct (offer_to_focused key self) as [[[self1 handled] cbs1]|e] eqn:Hoffer;
    [|discriminate].
  simpl. pose proof (settled_offer_to_focused _ _ _ _ _ Hs Hoffer) as Hs1.
  destruct handled; [by intros [= <- _]|].
  pose proof (settled_navigation_step _ key (settled_arrow_step _ key Hs1)) as Hs2.
  destruct (navigation_step key (arrow_step key self1)) as [self2 cbs2].
  by intros [= <- _].
Qed.

(** C8: at every point of a screen's life (as built by
    [TUIScreen.__init__], after a constructor that ends with
    [set_focus_by_index(0)], after every focus operation and every key
    handled) the tab order names distinct widgets of the screen; if it is
    non-empty exactly one of its members is focused, and if it is empty no
    widget of the screen is focused. *)
Theorem focus_invariant_holds self :
  lifetime self -> well_formed self /\ focus_invariant self.
Proof.
  intros Hlife.
  assert (Hs : settled self).
  { induction Hlife as [|children order Hunf Hwf|self index _ IH|self direction _ IH
                        |self key self' cbs _ IH Hstep].
    - split; [split; [constructor|]|].
      + intros i Hi. by apply elem_of_nil in Hi.
      + intros j. reflexivity.
    - apply settled_after_set_focus; [exact Hwf|].
      intros j Hj. exfalso. unfold focused_at in Hj. simpl in Hj.
      destruct (children !! j) as [w|] eqn:Hw; [|discriminate].
      rewrite Forall_forall in Hunf.
      rewrite (Hunf w) in Hj; [discriminate | by eapply list_elem_of_lookup_2].
    - by apply settled_set_focus_by_index.
    - by apply settled_move_focus.
    - by eapply settled_process_input. }
  split; [apply Hs | by apply settled_focus_invariant].
Qed.

(** C10: on a screen with a non-empty tab order none of whose members is
    focused, [move_focus] with direction +1 or -1 is
    [set_focus_by_index] at index 0 or -1, clamped to 0, and leaves the
    first widget of the tab order focused. *)
Theorem move_focus_without_focus self direction :
  well_formed self ->
  get_focusable_widgets self <> [] ->
  (forall j, j ∈ get_focusable_widgets self -> focused_at self j = false) ->
  direction = 1 \/ direction = -1 ->
  move_focus direction self =
    set_focus_by_index (if direction =? 1 then 0 else -1) self
  /\ exists first,
      head (get_focusable_widgets self) = Some first
      /\ focused_at (move_focus direction self) first = true
      /\ get_focused_widget (move_focus direction self) = Some first
      /\ focus_index (move_focus direction self) = Some 0.
Proof.
  intros Hwf Hne Hnone Hdir.
  pose proof (get_focused_widget_none self Hnone) as Hgf.
  assert (Hmove : move_focus direction self =
                  set_focus_by_index (if direction =? 1 then 0 else -1) self).
  { unfold move_focus. rewrite Hgf.
    destruct (get_focusable_widgets self); [done|reflexivity]. }
  split; [exact Hmove|]. rewrite Hmove.
  destruct Hwf as [Hnodup Hrange].
  destruct (get_focusable_widgets self) as [|first rest] eqn:Htab; [done|].
  exists first. split; [reflexivity|].
  assert (Hseq : set_focus_by_index (if direction =? 1 then 0 else -1) self
                 = set_focus_index 0 (assign_is_focused true first self)).
  { rewrite set_focus_by_index_eq by (by rewrite Htab).
    rewrite Hgf, Htab. cbv zeta.
    replace (Z.max 0 (Z.min (if direction =? 1 then 0 else -1)
                        (Z.of_nat (length (first :: rest)) - 1))) with 0
      by (simpl length; destruct Hdir as [-> | ->]; simpl; lia).
    reflexivity. }
  rewrite Hseq.
  assert (Hlt : (first < length (children self))%nat)
    by (apply Hrange; rewrite ?Htab; by left).
  assert (Hfirst : focused_at (set_focus_index 0 (assign_is_focused true first self))
                     first = true).
  { rewrite focused_at_set_focus_index, focused_at_assign by exact Hlt.
    by case_decide. }
  split; [exact Hfirst|]. split; [|reflexivity].
  apply get_focused_widget_unique.
  - rewrite tab_set_focus_index, tab_assign, Htab. by left.
  - exact Hfirst.
  - intros j Hj. rewrite tab_set_focus_index, tab_assign in Hj.
    rewrite focused_at_set_focus_index, focused_at_assign by exact Hlt.
    case_decide; [done|]. rewrite ?Htab in Hj. rewrite (Hnone j Hj). discriminate.
Qed.

End ScreenFacts.

(** ** The widget classes keep the laws of the contract *)

#[export] Instance Label_laws : WidgetLaws Label.t.
Proof.
  split; try (by intros b []).
  intros w key w' r cbs [= <- _ _]. done.
Qed.

#[export] Instance Frame_laws : WidgetLaws Frame.t.
Proof.
  split; try (by intros b []).
  intros w key w' r cbs [= <- _ _]. done.
Qed.

#[export] Instance Button_laws : WidgetLaws Button.t.
Proof.
  split; try (by intros b []).
  intros w key w' r cbs. simpl. unfold Button.process_input.
  destruct (negb (Button.is_focused w)); [by intros [= <- _ _]|].
  destruct (key_is key Keys.ENTER && Button.is_focused w); by intros [= <- _ _].
Qed.

#[export] Instance ListRow_laws : WidgetLaws ListRow.t.
Proof.
  split; try (by intros b [[]]).
  intros w key w' r cbs [= <- _ _]. done.
Qed.

Section VerticalListLaws.
Context {C : Type} {WC : Widget C}.
Import VerticalList.

Lemma ensure_visible_flags (v : t C) :
  is_focused (_ensure_visible v) = is_focused v
  /\ is_focusable (_ensure_visible v) = is_focusable v.
Proof.
  unfold _ensure_visible.
  destruct (focus_index v <? scroll_offset v); [done|].
  by destruct (scroll_offset v + height v - 2 <=? focus_index v).
Qed.

Lemma set_focus_index_flags (value : Z) (v : t C) :
  is_focused (set_focus_index value v) = is_focused v
  /\ is_focusable (set_focus_index value v) = is_focusable v
  /\ children (set_focus_index value v) = children v.
Proof. unfold set_focus_index. by destruct (len v =? 0). Qed.

Lemma move_focus_flags (delta : Z) (v v' : t C) :
  _move_focus delta v = Ok v' ->
  is_focused v' = is_focused v /\ is_focusable v' = is_focusable v.
Proof.
  unfold _move_focus. destruct (children v) eqn:Hcs; [by intros [= <-]|].
  rewrite <- Hcs. clear Hcs.
  destruct (py_alter _ (children v) _) as [cs1|e]; [|discriminate]. simpl.
  set (v1 := set_focus_index _ (set_children cs1 v)).
  destruct (set_focus_index_flags ((focus_index v + delta) mod len (set_children cs1 v))
              (set_children cs1 v)) as (Hf1 & Hfa1 & _).
  fold v1 in Hf1, Hfa1.
  destruct (py_alter _ (children v1) _) as [cs2|e]; [|discriminate]. simpl.
  intros [= <-].
  destruct (ensure_visible_flags (set_children cs2 v1)) as [-> ->].
  simpl. by rewrite Hf1, Hfa1.
Qed.

#[export] Instance VerticalList_laws : WidgetLaws (t C).
Proof.
  split; try (by intros b []).
  intros v key v' r cbs. simpl. unfold process_input.
  destruct (negb (is_focused v)); [by intros [= <- _ _]|].
  destruct (key_is key Keys.UP).
  { destruct (_move_focus (-1) v) as [v1|e] eqn:Hm; [|discriminate].
    simpl. intros [= <- _ _]. by eapply move_focus_flags. }
  destruct (key_is key Keys.DOWN).
  { destruct (_move_focus 1 v) as [v1|e] eqn:Hm; [|discriminate].
    simpl. intros [= <- _ _]. by eapply move_focus_flags. }
  destruct (children v) eqn:Hcs; [by intros [= <- _ _]|].
  rewrite <- Hcs. clear Hcs.
  destruct (py_pos (children v) (focus_index v)) as [p|e]; [|discriminate]. simpl.
  destruct (py_get (children v) (focus_index v)) as [sel|e]; [|discriminate]. simpl.
  destruct (w_process_input sel key) as [[[sel' r'] cbs']|e]; [|discriminate]. simpl.
  by intros [= <- _ _].
Qed.

End VerticalListLaws.

#[export] Instance ScreenWidget_laws : WidgetLaws ScreenWidget.
Proof.
  split.
  - by intros b [[]|[]|[]].
  - by intros b [[]|[]|[]].
  - by intros b [[]|[]|[]].
  - by intros b [[]|[]|[]].
  - intros [f|bt|v] key w' r cbs; cbn [w_process_input ScreenWidget_widget].
    + destruct (w_process_input f key) as [[[f' r'] cbs']|e] eqn:Hin; [|discriminate].
      simpl. intros [= <- _ _]. exact (input_keeps_flags _ _ _ _ _ Hin).
    + destruct (w_process_input bt key) as [[[bt' r'] cbs']|e] eqn:Hin; [|discriminate].
      simpl. intros [= <- _ _]. exact (input_keeps_flags _ _ _ _ _ Hin).
    + destruct (w_process_input v key) as [[[v1 r'] cbs']|e] eqn:Hin; [|discriminate].
      simpl. intros [= <- _ _]. exact (input_keeps_flags _ _ _ _ _ Hin).
Qed.

Lemma focus_invariant_holds_witness :
  TUIScreen.focus_invariant
    (TUIScreen.set_focus_by_index 0
       (TUIScreen.mk
          [Button.new "Salvar" 3 5 None;
           Button.new "Cancelar" 15 5 (Some pop_screen_stack)]
          None None)).
Proof.
  refine (proj2 (focus_invariant_holds _ _)).
  apply TUIScreen.life_constructed.
  - repeat constructor.
  - split.
    + apply (bool_decide_unpack _). vm_compute. exact I.
    + apply Forall_forall. vm_compute. repeat constructor.
Defined.

Lemma move_focus_without_focus_witness :
  TUIScreen.get_focused_widget
    (TUIScreen.move_focus (-1)
       (TUIScreen.mk
          [Button.new "Salvar" 3 5 None;
           Button.new "Cancelar" 15 5 (Some pop_screen_stack)]
          None None))
  = Some 0%nat.
Proof.
  set (self := TUIScreen.mk _ None None).
  assert (Hwf : TUIScreen.well_formed self).
  { split.
    - apply (bool_decide_unpack _). vm_compute. exact I.
    - apply Forall_forall. vm_compute. repeat constructor. }
  assert (Hne : TUIScreen.get_focusable_widgets self <> []) by (vm_compute; discriminate).
  assert (Hnone : forall j, j ∈ TUIScreen.get_focusable_widgets self ->
                            TUIScreen.focused_at self j = false).
  { apply Forall_forall. vm_compute. repeat constructor. }
  destruct (move_focus_without_focus self (-1) Hwf Hne Hnone (or_intror eq_refl))
    as (_ & first & Hhead & _ & Hgf & _).
  vm_compute in Hhead. injection Hhead as <-. exact Hgf.
Defined.

(** ** TUIScreen: the directional search *)

Section SortFacts.
Import TUIScreen.

Lemma key_le_spec (a b : Z * Z) :
  key_le a b = true <-> rank_le a b.
Proof.
  unfold key_le, rank_le.
  destruct (Z.ltb_spec a.1 b.1), (Z.eqb_spec a.1 b.1), (Z.leb_spec a.2 b.2);
    simpl; split; intros Hle; try reflexivity; try discriminate; lia.
Qed.

Lemma key_le_total (a b : Z * Z) : key_le a b = false -> key_le b a = true.
Proof.
  intros H. apply key_le_spec. unfold rank_le.
  assert (Hn : ~ rank_le a b) by (rewrite <- key_le_spec, H; discriminate).
  unfold rank_le in Hn. lia.
Qed.

Lemma key_le_trans (a b c : Z * Z) :
  key_le a b = true -> key_le b c = true -> key_le a c = true.
Proof. rewrite !key_le_spec. unfold rank_le. lia. Qed.

Lemma elem_of_insert_by_key (c d : Candidate) (l : list Candidate) :
  d ∈ insert_by_key c l <-> d = c \/ d ∈ l.
Proof.
  induction l as [|e l IH]; simpl.
  - rewrite elem_of_cons. split; [intros [->|Hd]; [by left | by apply elem_of_nil in Hd]|].
    intros [->|Hd]; [by left | by apply elem_of_nil in Hd].
  - destruct (key_le (sort_key c) (sort_key e)).
    + by rewrite elem_of_cons.
    + rewrite !elem_of_cons, IH. tauto.
Qed.

Lemma elem_of_sort_by_key (d : Candidate) (l : list Candidate) :
  d ∈ sort_by_key l <-> d ∈ l.
Proof.
  induction l as [|c l IH]; simpl; [reflexivity|].
  by rewrite elem_of_insert_by_key, elem_of_cons, IH.
Qed.

Lemma head_insert_by_key (c : Candidate) (l : list Candidate) :
  head (insert_by_key c l) =
    Some (match head l with
          | Some d => if key_le (sort_key c) (sort_key d) then c else d
          | None => c
          end).
Proof.
  destruct l as [|d l]; simpl; [reflexivity|].
  by destruct (key_le (sort_key c) (sort_key d)).
Qed.

(** After the sort the first candidate is one of the candidates and no
    candidate has a smaller key. *)
Lemma head_sort_by_key (l : list Candidate) (c : Candidate) :
  head (sort_by_key l) = Some c ->
  c ∈ l /\ forall d, d ∈ l -> key_le (sort_key c) (sort_key d) = true.
Proof.
  revert c. induction l as [|c0 l IH]; intros c; simpl; [discriminate|].
  rewrite head_insert_by_key.
  destruct (head (sort_by_key l)) as [d|] eqn:Hhead.
  - destruct (IH d eq_refl) as [Hd Hmin].
    destruct (key_le (sort_key c0) (sort_key d)) eqn:Hle; intros [= <-].
    + split; [by left|]. intros e [->|He]%elem_of_cons.
      * apply key_le_spec. unfold rank_le. lia.
      * eapply key_le_trans; [exact Hle | by apply Hmin].
    + split; [by right|]. intros e [->|He]%elem_of_cons.
      * by apply key_le_total.
      * by apply Hmin.
  - intros [= <-]. split; [by left|].
    assert (Hnil : l = []).
    { destruct l as [|e l]; [reflexivity|].
      assert (He : e ∈ sort_by_key (e :: l)) by (apply elem_of_sort_by_key; by left).
      destruct (sort_by_key (e :: l)); [by apply elem_of_nil in He | discriminate]. }
    subst l. intros e [->|He]%elem_of_cons; [|by apply elem_of_nil in He].
    apply key_le_spec. unfold rank_le. lia.
Qed.

Lemma head_sort_by_key_is_Some (l : list Candidate) :
  l <> [] -> is_Some (head (sort_by_key l)).
Proof.
  destruct l as [|c l]; [done|]. intros _. simpl.
  rewrite head_insert_by_key. eauto.
Qed.

Lemma candidate_of_Some (direction : string) (cx cy wx wy : Z) (w : nat)
      (c : Candidate) :
  candidate_of direction cx cy wx wy w = Some c ->
  c2 c = w
  /\ strictly_in_direction direction (wx - cx) (wy - cy)
  /\ sort_key c = rank direction (wx - cx) (wy - cy).
Proof.
  unfold candidate_of, strictly_in_direction, rank, sort_key, c0, c1, c2.
  destruct (key_is direction Keys.DOWN) eqn:Hd.
  { apply key_is_true in Hd. subst direction. simpl.
    destruct (Z.ltb_spec 0 (wy - cy)); [|discriminate].
    intros [= <-]. simpl.
    split; [reflexivity|]. split; [|reflexivity]. left. by split. }
  destruct (key_is direction Keys.UP) eqn:Hu.
  { apply key_is_true in Hu. subst direction. simpl.
    destruct (Z.ltb_spec (wy - cy) 0); [|discriminate].
    intros [= <-]. simpl.
    split; [reflexivity|]. split; [|reflexivity]. right; left. by split. }
  destruct (key_is direction Keys.RIGHT) eqn:Hr.
  { apply key_is_true in Hr. subst direction. simpl.
    destruct (Z.ltb_spec 0 (wx - cx)); [|discriminate].
    intros [= <-]. simpl.
    split; [reflexivity|]. split; [|reflexivity]. right; right; left. by split. }
  destruct (key_is direction Keys.LEFT) eqn:Hl; [|discriminate].
  apply key_is_true in Hl. subst direction. simpl.
  destruct (Z.ltb_spec (wx - cx) 0); [|discriminate].
  intros [= <-]. simpl.
  split; [reflexivity|]. split; [|reflexivity]. right; right; right. by split.
Qed.

Lemma candidate_of_is_Some (direction : string) (cx cy wx wy : Z) (w : nat) :
  strictly_in_direction direction (wx - cx) (wy - cy) ->
  is_Some (candidate_of direction cx cy wx wy w).
Proof.
  unfold candidate_of, strictly_in_direction.
  intros [[-> H]|[[-> H]|[[-> H]|[-> H]]]]; simpl.
  - destruct (Z.ltb_spec 0 (wy - cy)); [eauto|lia].
  - destruct (Z.ltb_spec (wy - cy) 0); [eauto|lia].
  - destruct (Z.ltb_spec 0 (wx - cx)); [eauto|lia].
  - destruct (Z.ltb_spec (wx - cx) 0); [eauto|lia].
Qed.

Lemma strictly_in_direction_arrow (direction : string) (dx dy : Z) :
  strictly_in_direction direction dx dy -> is_arrow direction = true.
Proof. intros [[-> _]|[[-> _]|[[-> _]|[-> _]]]]; reflexivity. Qed.

End SortFacts.

Section DirectionalFacts.
Context {W : Type} {WW : Widget W} {WL : WidgetLaws W}.
Import TUIScreen.

Implicit Types (self : t W).

Lemma elem_of_candidates_from self (direction : string) (cur : nat) (c : Candidate) :
  c ∈ candidates_from self direction cur <->
  exists w,
    w ∈ get_focusable_widgets self /\ w <> cur
    /\ candidate_of direction (x_at self cur) (y_at self cur)
         (x_at self w) (y_at self w) w = Some c.
Proof.
  unfold candidates_from. rewrite list_elem_of_omap.
  split.
  - intros (w & [Hne Hin]%list_elem_of_filter & Hc). eauto.
  - intros (w & Hin & Hne & Hc). exists w. split; [|exact Hc].
    apply list_elem_of_filter. by split.
Qed.

Lemma candidates_sorted_when_present self (direction : string) (cur : nat) :
  candidates_from self direction cur <> [] ->
  (if key_is direction Keys.DOWN || key_is direction Keys.UP
   then sort_by_key (candidates_from self direction cur)
   else if key_is direction Keys.LEFT || key_is direction Keys.RIGHT
        then sort_by_key (candidates_from self direction cur)
        else candidates_from self direction cur)
  = sort_by_key (candidates_from self direction cur).
Proof.
  intros Hne.
  destruct (candidates_from self direction cur) as [|c cs] eqn:Hcs; [done|].
  assert (Hc : c ∈ candidates_from self direction cur) by (rewrite Hcs; by left).
  apply elem_of_candidates_from in Hc as (w & _ & _ & Hc).
  apply candidate_of_Some in Hc as (_ & Hdir & _).
  apply strictly_in_direction_arrow in Hdir. unfold is_arrow in Hdir.
  destruct (key_is direction Keys.UP), (key_is direction Keys.DOWN),
    (key_is direction Keys.LEFT), (key_is direction Keys.RIGHT);
    try reflexivity; discriminate.
Qed.

Lemma find_next_eq self (direction : string) (cur : nat) :
  get_focused_widget self = Some cur ->
  _find_next_widget_in_direction self direction =
    c2 <$> head (sort_by_key (candidates_from self direction cur)).
Proof.
  intros Hcur. unfold _find_next_widget_in_direction. rewrite Hcur.
  destruct (candidates_from self direction cur) as [|c cs] eqn:Hcs; [reflexivity|].
  rewrite <- Hcs. rewrite candidates_sorted_when_present; [reflexivity|].
  by rewrite Hcs.
Qed.

Lemma index_of_elem (widgets : list nat) (w : nat) :
  w ∈ widgets ->
  exists idx, index_of widgets w = Some idx /\ widgets !! idx = Some w.
Proof.
  intros Hin. unfold index_of.
  destruct (list_find_elem_of (fun i => i = w) widgets w Hin eq_refl)
    as [[idx x] Hfind].
  rewrite Hfind. exists idx. split; [reflexivity|].
  apply list_find_Some in Hfind as (Hl & -> & _). exact Hl.
Qed.

(** C6: with a focused widget, the directional search returns only a
    widget of the tab order, other than the focused one, whose position
    lies strictly in the requested direction (DOWN: dy > 0, UP: dy < 0,
    RIGHT: dx > 0, LEFT: dx < 0), and none of those widgets ranks below
    it in the ascending order of (absolute offset across the direction,
    absolute offset along it); it returns nothing exactly when no such
    widget exists, and then the arrow step leaves the screen as it is;
    when it returns a widget, the arrow step leaves that widget, and
    only it, focused. *)
Theorem directional_search_picks_best self (direction : string) (cur : nat) :
  get_focused_widget self = Some cur ->
  (forall next,
      _find_next_widget_in_direction self direction = Some next ->
      next ∈ get_focusable_widgets self
      /\ next <> cur
      /\ strictly_in_direction direction
           (x_at self next - x_at self cur) (y_at self next - y_at self cur)
      /\ forall other,
           other ∈ get_focusable_widgets self ->
           other <> cur ->
           strictly_in_direction direction
             (x_at self other - x_at self cur) (y_at self other - y_at self cur) ->
           rank_le
             (rank direction
                (x_at self next - x_at self cur) (y_at self next - y_at self cur))
             (rank direction
                (x_at self other - x_at self cur) (y_at self other - y_at self cur)))
  /\ (_find_next_widget_in_direction self direction = None <->
      forall other,
        other ∈ get_focusable_widgets self ->
        other <> cur ->
        ~ strictly_in_direction direction
            (x_at self other - x_at self cur) (y_at self other - y_at self cur))
  /\ (_find_next_widget_in_direction self direction = None ->
      arrow_step direction self = self)
  /\ (settled self ->
      forall next,
        _find_next_widget_in_direction self direction = Some next ->
        get_focused_widget (arrow_step direction self) = Some next
        /\ forall j, focused_at (arrow_step direction self) j = true <-> j = next).
Proof.
  intros Hcur. rewrite (find_next_eq self direction cur Hcur).
  assert (Hbest : forall next,
    c2 <$> head (sort_by_key (candidates_from self direction cur)) = Some next ->
    next ∈ get_focusable_widgets self
    /\ next <> cur
    /\ strictly_in_direction direction
         (x_at self next - x_at self cur) (y_at self next - y_at self cur)
    /\ forall other,
         other ∈ get_focusable_widgets self ->
         other <> cur ->
         strictly_in_direction direction
           (x_at self other - x_at self cur) (y_at self other - y_at self cur) ->
         rank_le
           (rank direction
              (x_at self next - x_at self cur) (y_at self next - y_at self cur))
           (rank direction
              (x_at self other - x_at self cur) (y_at self other - y_at self cur))).
  { intros next Hnext.
    destruct (head (sort_by_key (candidates_from self direction cur)))
      as [c|] eqn:Hhead; [|discriminate].
    simpl in Hnext. injection Hnext as Hc2.
    apply head_sort_by_key in Hhead as [Hc Hmin].
    apply elem_of_candidates_from in Hc as (w & Hw & Hne & Hcand).
    apply candidate_of_Some in Hcand as (Hcw & Hdir & Hkey).
    assert (Hwn : w = next) by congruence.
    rewrite Hwn in Hw, Hne, Hdir, Hkey. clear Hwn Hcw w.
    split; [exact Hw|]. split; [exact Hne|]. split; [exact Hdir|].
    intros other Ho Hone Hodir.
    destruct (candidate_of_is_Some direction (x_at self cur) (y_at self cur)
                (x_at self other) (y_at self other) other Hodir) as [d Hd].
    assert (Hdin : d ∈ candidates_from self direction cur).
    { apply elem_of_candidates_from. eauto. }
    apply candidate_of_Some in Hd as (_ & _ & Hdkey).
    rewrite <- Hkey, <- Hdkey. apply key_le_spec. by apply Hmin. }
  split; [exact Hbest|]. split; [|split].
  - split.
    + intros Hnone other Ho Hone Hodir.
      destruct (candidate_of_is_Some direction (x_at self cur) (y_at self cur)
                  (x_at self other) (y_at self other) other Hodir) as [d Hd].
      assert (Hdin : d ∈ candidates_from self direction cur).
      { apply elem_of_candidates_from. eauto. }
      assert (Hne : candidates_from self direction cur <> []).
      { intros Hnil. rewrite Hnil in Hdin. by apply elem_of_nil in Hdin. }
      destruct (head_sort_by_key_is_Some _ Hne) as [c Hc].
      rewrite Hc in Hnone. discriminate.
    + intros Hnocand.
      destruct (head (sort_by_key (candidates_from self direction cur)))
        as [c|] eqn:Hhead; [|reflexivity].
      exfalso. destruct (Hbest (c2 c)) as (Hin & Hne & Hdir & _).
      { reflexivity. }
      by apply (Hnocand (c2 c)).
  - intros Hnone. unfold arrow_step.
    rewrite (find_next_eq self direction cur Hcur), Hnone.
    by destruct (is_arrow direction).
  - intros Hs next Hnext.
    destruct (Hbest next Hnext) as (Hin & Hne & Hdir & _).
    unfold arrow_step.
    rewrite (strictly_in_direction_arrow _ _ _ Hdir).
    rewrite (find_next_eq self direction cur Hcur), Hnext.
    destruct (index_of_elem _ _ Hin) as (idx & -> & Hidx).
    assert (Htabne : get_focusable_widgets self <> []).
    { intros Hnil. rewrite Hnil in Hin. by apply elem_of_nil in Hin. }
    destruct (set_focus_by_index_focuses self (Z.of_nat idx) (proj1 Hs) Htabne
                (settled_only_focused self Hs))
      as (target & Htarget & Htab' & _ & Hiff & _).
    assert (Hlt : (idx < length (get_focusable_widgets self))%nat)
      by (apply lookup_lt_is_Some; eauto).
    replace (Z.to_nat (Z.max 0 (Z.min (Z.of_nat idx)
               (Z.of_nat (length (get_focusable_widgets self)) - 1))))
      with idx in Htarget by lia.
    assert (target = next) by congruence. subst target.
    split; [|exact Hiff].
    apply get_focused_widget_unique.
    + by rewrite Htab'.
    + by apply Hiff.
    + intros j _ Hj. by apply Hiff.
Qed.

End DirectionalFacts.

Lemma directional_search_picks_best_witness :
  TUIScreen.get_focused_widget
    (TUIScreen.arrow_step Keys.DOWN
       (TUIScreen.set_focus_by_index 0
          (TUIScreen.mk
             [Button.new "Topo" 3 3 None;
              Button.new "Salvar" 17 10 None;
              Button.new "Cancelar" 3 10 (Some pop_screen_stack)]
             None None)))
  = Some 2%nat.
Proof.
  set (self := TUIScreen.set_focus_by_index 0 _).
  assert (Hs : TUIScreen.settled self).
  { apply settled_after_set_focus.
    - split.
      + apply (bool_decide_unpack _). vm_compute. exact I.
      + apply Forall_forall. vm_compute. repeat constructor.
    - intros [|[|[|j]]] Hj; vm_compute in Hj; discriminate. }
  destruct (directional_search_picks_best self Keys.DOWN 0%nat)
    as (_ & _ & _ & H); [vm_compute; reflexivity|].
  destruct (H Hs 2%nat) as [Hgf _]; [vm_compute; reflexivity | exact Hgf].
Defined.

(** ** The dialogs *)

Section DialogFacts.

Lemma foldl_add_child_fields (rows : list ListaDeTarefas.t)
      (v : VerticalList.t ListRow.t) :
  let v' := foldl (fun v task_list =>
                     VerticalList.add_child (ListSelectionScreen.row_of task_list) v)
                  v rows in
  VerticalList.is_focused v' = VerticalList.is_focused v
  /\ VerticalList.is_focusable v' = VerticalList.is_focusable v
  /\ VerticalList._focus_index v' = VerticalList._focus_index v
  /\ VerticalList.scroll_offset v' = VerticalList.scroll_offset v.
Proof.
  revert v. induction rows as [|r rows IH]; intros v; simpl; [done|].
  destruct (IH (VerticalList.add_child (ListSelectionScreen.row_of r) v))
    as (-> & -> & -> & ->). done.
Qed.


End DialogFacts.


Section TaskViewDialog.
Context {Body : Type}.
Import TaskViewScreen.


End TaskViewDialog.



(** * Further properties of the code *)

(** ** Terminal.read_key: the whole table *)

Section ReadKeyTable.
Import Terminal.

(** X1: every sequence of the table decodes to its token: when the ready
    bytes after the escape byte make a key of [escape_sequences], the
    decoder returns the value stored under it and uses up the ready
    bytes and the read that ended them. *)
Theorem read_key_decodes_every_known_sequence (bytes token : string) (later : Stdin) :
  escape_sequences !! esc bytes = Some token ->
  idle later ->
  read_key (ready (esc bytes) ++ later)%list = Some (Got token, tail later).
Proof.
  intros Hknown Hidle. rewrite read_key_escape by exact Hidle.
  destruct bytes as [|c bytes].
  - vm_compute in Hknown. discriminate.
  - replace (String.eqb (esc (String c bytes)) (esc EmptyString)) with false.
    + by rewrite Hknown.
    + symmetry. apply String.eqb_neq. unfold esc. congruence.
Qed.

Lemma read_key_decodes_every_known_sequence_witness :
  read_key (ready (esc "[3~") ++ [RError; RChar "a"])%list
  = Some (Got Keys.DELETE, [RChar "a"]).
Proof.
  apply (read_key_decodes_every_known_sequence "[3~" Keys.DELETE [RError; RChar "a"%char]).
  - vm_compute. reflexivity.
  - exact I.
Defined.

End ReadKeyTable.

(** ** IntInput: the bounds *)

Section IntInputRange.
Import IntInput.

(** X2: an IntInput whose value lies within its configured bounds keeps
    it there whatever key it is sent, focused or not, editing or not;
    the bounds themselves never change. *)
Theorem IntInput_value_stays_in_range (self : t) (key : string) :
  Stated.in_range self ->
  Stated.in_range (process_input self key).1
  /\ min (process_input self key).1 = min self
  /\ max (process_input self key).1 = max self.
Proof.
  intros [Hmin Hmax]. unfold process_input.
  destruct (negb (is_focused self)); [by repeat split|].
  destruct (_being_edited self).
  - destruct (key_is key Keys.UP).
    { simpl. destruct (max self) as [M|] eqn:HM.
      - specialize (Hmax M eq_refl).
        destruct (Z.ltb_spec M (value self + 1)); simpl.
        + split; [|by rewrite HM].
          split; simpl; intros m Hm; [specialize (Hmin m Hm); lia|].
          rewrite HM in Hm. injection Hm as <-. lia.
        + split; [|by rewrite HM].
          split; simpl; intros m Hm; [specialize (Hmin m Hm); lia|].
          rewrite HM in Hm. injection Hm as <-. lia.
      - simpl. split; [|by rewrite HM].
        split; simpl; intros m Hm; [specialize (Hmin m Hm); lia|].
        rewrite HM in Hm. discriminate. }
    destruct (key_is key Keys.DOWN).
    { simpl. destruct (min self) as [M|] eqn:HM.
      - specialize (Hmin M eq_refl).
        destruct (Z.ltb_spec (value self - 1) M); simpl.
        + split; [|by rewrite HM].
          split; simpl; intros m Hm; [|specialize (Hmax m Hm); lia].
          rewrite HM in Hm. injection Hm as <-. lia.
        + split; [|by rewrite HM].
          split; simpl; intros m Hm; [|specialize (Hmax m Hm); lia].
          rewrite HM in Hm. injection Hm as <-. lia.
      - simpl. split; [|by rewrite HM].
        split; simpl; intros m Hm; [|specialize (Hmax m Hm); lia].
        rewrite HM in Hm. discriminate. }
    destruct (key_is key Keys.ENTER || key_is key Keys.ESC); by repeat split.
  - destruct (key_is key Keys.ENTER); by repeat split.
Qed.

Lemma IntInput_value_stays_in_range_witness :
  Stated.in_range (process_input (mk true 0 (Some 0) (Some 23) true) Keys.DOWN).1.
Proof.
  refine (proj1 (IntInput_value_stays_in_range _ Keys.DOWN _)).
  split; simpl; intros m [= <-]; lia.
Defined.

End IntInputRange.

(** ** DateInput: calendar dates *)

Section DateInputDates.
Import DateInput.

Lemma max_day_in_month_range (m y : Z) :
  1 <= m <= 12 ->
  exists max_day, _max_day_in_month m y = Ok max_day /\ 28 <= max_day <= 31.
Proof.
  intros Hm.
  assert (Hcases : m = 1 \/ m = 2 \/ m = 3 \/ m = 4 \/ m = 5 \/ m = 6 \/ m = 7
                   \/ m = 8 \/ m = 9 \/ m = 10 \/ m = 11 \/ m = 12) by lia.
  repeat (destruct Hcases as [-> | Hcases]); try subst m;
    try (eexists; split; [vm_compute; reflexivity | lia]).
  unfold _max_day_in_month. simpl.
  destruct (_bissexto y); eexists; (split; [reflexivity | lia]).
Qed.

(** The calendar date of [Stated.valid_date], with the day count read
    from the widget. *)
Lemma valid_date_code (self : t) :
  Stated.valid_date self
  <-> 1 <= month self <= 12 /\ 1 <= year self /\ 0 <= focus_index self <= 2
      /\ exists max_day,
          _max_day_in_month (month self) (year self) = Ok max_day
          /\ max_day = Stated.days_in_month (month self) (year self)
          /\ 1 <= day self <= max_day.
Proof.
  unfold Stated.valid_date. split.
  - intros (Hm & Hy & Hfi & Hd). repeat split; try lia.
    eexists. split; [exact (max_day_in_month_calendar _ _ Hm)|]. split; [reflexivity|lia].
  - intros (Hm & Hy & Hfi & md & _ & -> & Hd). repeat split; lia.
Qed.

Lemma set_day_same (self : t) : set_day (day self) self = self.
Proof. by destruct self. Qed.

Lemma clamp_day_valid (self : t) :
  1 <= month self <= 12 -> 1 <= year self -> 0 <= focus_index self <= 2 ->
  1 <= day self ->
  exists self',
    clamp_day self = Ok self' /\ Stated.valid_date self'
    /\ month self' = month self /\ year self' = year self
    /\ focus_index self' = focus_index self
    /\ is_focused self' = is_focused self
    /\ _being_edited self' = _being_edited self
    /\ day self'
       = Z.min (day self) (Stated.days_in_month (month self) (year self)).
Proof.
  intros Hm Hy Hfi Hd.
  pose proof (max_day_in_month_calendar _ (year self) Hm) as Hmd.
  destruct (max_day_in_month_range _ (year self) Hm) as (md & Hmd' & Hr).
  rewrite Hmd in Hmd'. injection Hmd' as Hmd'.
  set (md' := Stated.days_in_month (month self) (year self)) in *. subst md.
  assert (Hc : clamp_day self
               = Ok (if md' <? day self then set_day md' self else self)).
  { unfold clamp_day. by rewrite Hmd. }
  rewrite Hc. eexists. split; [reflexivity|].
  destruct (Z.ltb_spec md' (day self)).
  - split.
    + unfold Stated.valid_date. simpl. fold md'. lia.
    + repeat split. simpl. lia.
  - split.
    + unfold Stated.valid_date. fold md'. lia.
    + repeat split. lia.
Qed.

(** X3: a DateInput that shows a calendar date (month 1..12, year at
    least 1, day from 1 to the calendar's day count of that month in that
    year, a sub-field selected) never raises on a key and still shows a
    calendar date after it. *)
Theorem DateInput_stays_a_date (self : t) (key : string) :
  Stated.valid_date self ->
  exists self' handled,
    process_input self key = Ok (self', handled) /\ Stated.valid_date self'.
Proof.
  intros Hv. pose proof Hv as (Hm & Hy & Hfi & Hd).
  pose proof (max_day_in_month_calendar _ (year self) Hm) as Hmd.
  destruct (max_day_in_month_range _ (year self) Hm) as (md0 & Hmd0 & Hr).
  rewrite Hmd in Hmd0. injection Hmd0 as Hmd0.
  set (md := Stated.days_in_month (month self) (year self)) in *. subst md0.
  unfold process_input.
  destruct (negb (is_focused self)); [by eexists _, _|].
  destruct (_being_edited self).
  - destruct (key_is key Keys.UP).
    { destruct (Z.eqb_spec (focus_index self) 0).
      { change (_max_day_in_month (month (set_day (day self + 1) self))
                  (year (set_day (day self + 1) self)))
          with (_max_day_in_month (month self) (year self)).
        rewrite Hmd. simpl.
        eexists _, _. split; [reflexivity|].
        destruct (Z.ltb_spec md (day self + 1)); unfold Stated.valid_date; simpl;
          fold md; lia. }
      destruct (Z.eqb_spec (focus_index self) 1).
      { set (s1 := if 12 <? month (set_month (month self + 1) self) then _ else _).
        assert (Hs1 : 1 <= month s1 <= 12 /\ year s1 = year self
                      /\ focus_index s1 = focus_index self /\ day s1 = day self).
        { subst s1. simpl. destruct (Z.ltb_spec 12 (month self + 1)); simpl; lia. }
        destruct Hs1 as (Hm1 & Hy1 & Hfi1 & Hd1).
        destruct (clamp_day_valid s1) as (s' & -> & Hv' & _); try lia.
        simpl. by eexists _, _. }
      destruct (Z.eqb_spec (focus_index self) 2).
      { destruct (clamp_day_valid (set_year (year self + 1) self))
          as (s' & -> & Hv' & _); simpl; try lia.
        by eexists _, _. }
      by eexists _, _. }
    destruct (key_is key Keys.DOWN).
    { destruct (Z.eqb_spec (focus_index self) 0).
      { simpl. destruct (Z.ltb_spec (day self - 1) 1).
        - rewrite Hmd. simpl.
          eexists _, _. split; [reflexivity|].
          unfold Stated.valid_date; simpl. fold md. lia.
        - eexists _, _. split; [reflexivity|].
          unfold Stated.valid_date; simpl. fold md. lia. }
      destruct (Z.eqb_spec (focus_index self) 1).
      { set (s1 := if month (set_month (month self - 1) self) <? 1 then _ else _).
        assert (Hs1 : 1 <= month s1 <= 12 /\ year s1 = year self
                      /\ focus_index s1 = focus_index self /\ day s1 = day self).
        { subst s1. simpl. destruct (Z.ltb_spec (month self - 1) 1); simpl; lia. }
        destruct Hs1 as (Hm1 & Hy1 & Hfi1 & Hd1).
        destruct (clamp_day_valid s1) as (s' & -> & Hv' & _); try lia.
        simpl. by eexists _, _. }
      destruct (Z.eqb_spec (focus_index self) 2).
      { set (s1 := if year (set_year (year self - 1) self) <? 1 then _ else _).
        assert (Hs1 : month s1 = month self /\ 1 <= year s1
                      /\ focus_index s1 = focus_index self /\ day s1 = day self).
        { subst s1. simpl. destruct (Z.ltb_spec (year self - 1) 1); simpl; lia. }
        destruct Hs1 as (Hm1 & Hy1 & Hfi1 & Hd1).
        destruct (clamp_day_valid s1) as (s' & -> & Hv' & _); try lia.
        simpl. by eexists _, _. }
      by eexists _, _. }
    destruct (key_is key Keys.ESC); [by eexists _, _|].
    destruct (key_is key Keys.ENTER); by eexists _, _.
  - destruct (key_is key Keys.LEFT).
    { eexists _, _. split; [reflexivity|].
      pose proof (Z.mod_pos_bound (focus_index self - 1) 3 eq_refl).
      unfold Stated.valid_date; simpl. fold md. lia. }
    destruct (key_is key Keys.RIGHT).
    { eexists _, _. split; [reflexivity|].
      pose proof (Z.mod_pos_bound (focus_index self + 1) 3 eq_refl).
      unfold Stated.valid_date; simpl. fold md. lia. }
    destruct (key_is key Keys.ENTER); by eexists _, _.
Qed.

Lemma DateInput_stays_a_date_witness :
  exists self' handled,
    process_input (mk true 31 3 2023 1 true) Keys.UP = Ok (self', handled)
    /\ Stated.valid_date self'.
Proof.
  apply DateInput_stays_a_date.
  unfold Stated.valid_date. simpl. repeat split; try lia; vm_compute; discriminate.
Defined.

End DateInputDates.

Section DateInputRoundTrips.
Import DateInput.

(** X4: on the day sub-field of a calendar date, Up goes to the next day
    and from the last day of the month (the calendar's: 31, or 30 in
    April, June, September and November, and 28 or 29 in February) to
    day 1, Down goes back and from day 1 to the last day of the month;
    Down undoes Up, and Up undoes Down. *)
Theorem DateInput_day_wraps_and_returns (self : t) :
  Stated.valid_date self ->
  is_focused self = true ->
  _being_edited self = true ->
  focus_index self = 0 ->
  exists max_day up down,
    max_day = Stated.days_in_month (month self) (year self)
    /\ _max_day_in_month (month self) (year self) = Ok max_day
    /\ process_input self Keys.UP = Ok (up, true)
    /\ day up = (if day self =? max_day then 1 else day self + 1)
    /\ process_input self Keys.DOWN = Ok (down, true)
    /\ day down = (if day self =? 1 then max_day else day self - 1)
    /\ process_input up Keys.DOWN = Ok (self, true)
    /\ process_input down Keys.UP = Ok (self, true).
Proof.
  intros (Hm & Hy & _ & md & Hmd & Hcal & Hd)%valid_date_code Hf He Hfi.
  destruct self as [f d m y fi e]. simpl in *. subst f e fi.
  exists md.
  assert (Hup : process_input (mk true d m y 0 true) Keys.UP
                = Ok (mk true (if d =? md then 1 else d + 1) m y 0 true, true)).
  { unfold process_input. simpl. rewrite Hmd. simpl.
    destruct (Z.ltb_spec md (d + 1)), (Z.eqb_spec d md); try lia; reflexivity. }
  assert (Hdown : process_input (mk true d m y 0 true) Keys.DOWN
                  = Ok (mk true (if d =? 1 then md else d - 1) m y 0 true, true)).
  { unfold process_input. simpl.
    destruct (Z.ltb_spec (d - 1) 1), (Z.eqb_spec d 1); try lia.
    - rewrite Hmd. reflexivity.
    - reflexivity. }
  eexists _, _. split; [exact Hcal|].
  split; [exact Hmd|]. split; [exact Hup|]. split; [reflexivity|].
  split; [exact Hdown|]. split; [reflexivity|]. split.
  - unfold process_input. simpl.
    destruct (Z.eqb_spec d md).
    + simpl. rewrite Hmd. simpl. by subst d.
    + destruct (Z.ltb_spec (d + 1 - 1) 1); [lia|].
      by replace (d + 1 - 1) with d by lia.
  - unfold process_input. simpl. rewrite Hmd. simpl.
    destruct (Z.eqb_spec d 1).
    + destruct (Z.ltb_spec md (md + 1)); [|lia]. by subst d.
    + destruct (Z.ltb_spec md (d - 1 + 1)); [lia|].
      by replace (d - 1 + 1) with d by lia.
Qed.

Lemma DateInput_day_wraps_and_returns_witness :
  exists max_day up down,
    max_day = Stated.days_in_month 4 2023
    /\ _max_day_in_month 4 2023 = Ok max_day
    /\ process_input (mk true 30 4 2023 0 true) Keys.UP = Ok (up, true)
    /\ day up = (if 30 =? max_day then 1 else 30 + 1)
    /\ process_input (mk true 30 4 2023 0 true) Keys.DOWN = Ok (down, true)
    /\ day down = (if 30 =? 1 then max_day else 30 - 1)
    /\ process_input up Keys.DOWN = Ok (mk true 30 4 2023 0 true, true)
    /\ process_input down Keys.UP = Ok (mk true 30 4 2023 0 true, true).
Proof.
  apply (DateInput_day_wraps_and_returns (mk true 30 4 2023 0 true));
    try reflexivity.
  unfold Stated.valid_date. simpl. repeat split; try lia; vm_compute; discriminate.
Defined.

(** X5: on the month sub-field, Down after Up brings back the month and
    the year, but not always the day: the day that comes back is the
    smaller of the old day and the calendar's day count of the month
    passed through, so 31 January goes through 28 February to
    28 January, and 31 March through 30 April to 30 March. *)
Theorem DateInput_month_round_trip_keeps_clamped_day (self : t) :
  Stated.valid_date self ->
  is_focused self = true ->
  _being_edited self = true ->
  focus_index self = 1 ->
  exists up back max_day_between,
    process_input self Keys.UP = Ok (up, true)
    /\ month up = (if month self =? 12 then 1 else month self + 1)
    /\ year up = year self
    /\ max_day_between = Stated.days_in_month (month up) (year up)
    /\ _max_day_in_month (month up) (year up) = Ok max_day_between
    /\ day up = Z.min (day self) max_day_between
    /\ process_input up Keys.DOWN = Ok (back, true)
    /\ month back = month self
    /\ year back = year self
    /\ day back = Z.min (day self) max_day_between.
Proof.
  intros (Hm & Hy & Hfi2 & Hd) Hf He Hfi.
  unfold process_input at 1. rewrite Hf, He, Hfi. simpl.
  set (s1 := if 12 <? month self + 1 then _ else _).
  assert (Hs1 : month s1 = (if month self =? 12 then 1 else month self + 1)
                /\ 1 <= month s1 <= 12 /\ year s1 = year self
                /\ focus_index s1 = 1 /\ day s1 = day self
                /\ is_focused s1 = true /\ _being_edited s1 = true).
  { subst s1. destruct (Z.ltb_spec 12 (month self + 1)), (Z.eqb_spec (month self) 12);
      simpl; repeat split; try lia; assumption. }
  destruct Hs1 as (Hmeq & Hm1 & Hy1 & Hfi1 & Hd1 & Hf1 & He1).
  destruct (clamp_day_valid s1) as (up & Hup & Hvup & Hmu & Hyu & Hfiu & Hfu & Heu
                                    & Hdu); try lia.
  rewrite Hup. simpl. exists up.
  unfold process_input. rewrite Hfu, Hf1, Heu, He1, Hfiu, Hfi1. simpl.
  set (s2 := if month up - 1 <? 1 then _ else _).
  assert (Hs2 : month s2 = month self /\ year s2 = year self
                /\ focus_index s2 = 1 /\ day s2 = day up).
  { subst s2. rewrite Hmu, Hmeq.
    destruct (Z.eqb_spec (month self) 12); simpl.
    - repeat split; try lia; try congruence.
    - destruct (Z.ltb_spec (month self + 1 - 1) 1); simpl; repeat split; try lia;
        try congruence. }
  destruct Hs2 as (Hm2 & Hy2 & Hfi2' & Hd2).
  destruct (clamp_day_valid s2) as (back & Hback & _ & Hmb & Hyb & _ & _ & _
                                    & Hdb); try lia.
  { destruct Hvup as (_ & _ & _ & Hx). lia. }
  rewrite Hback. simpl.
  exists back, (Stated.days_in_month (month up) (year up)).
  assert (Hmu' : 1 <= month up <= 12) by lia.
  split; [reflexivity|]. split; [congruence|]. split; [congruence|].
  split; [reflexivity|].
  split; [exact (max_day_in_month_calendar _ _ Hmu')|].
  rewrite Hmu, Hyu. split; [congruence|]. split; [reflexivity|].
  split; [congruence|]. split; [congruence|].
  rewrite Hm2, Hy2, Hd2, Hdu, Hd1 in Hdb. lia.
Qed.

Lemma DateInput_month_round_trip_keeps_clamped_day_witness :
  exists up back max_day_between,
    process_input (mk true 31 3 2023 1 true) Keys.UP = Ok (up, true)
    /\ month up = (if 3 =? 12 then 1 else 3 + 1)
    /\ year up = 2023
    /\ max_day_between = Stated.days_in_month (month up) (year up)
    /\ _max_day_in_month (month up) (year up) = Ok max_day_between
    /\ day up = Z.min 31 max_day_between
    /\ process_input up Keys.DOWN = Ok (back, true)
    /\ month back = 3
    /\ year back = 2023
    /\ day back = Z.min 31 max_day_between.
Proof.
  apply (DateInput_month_round_trip_keeps_clamped_day (mk true 31 3 2023 1 true));
    try reflexivity.
  unfold Stated.valid_date. simpl. repeat split; try lia; vm_compute; discriminate.
Defined.

End DateInputRoundTrips.

(** ** ConfirmationDialog: what a key can trigger *)

Section ConfirmationFacts.
Import ConfirmationDialog.

(** X6: a key sent to a confirmation dialog does exactly one of three
    things: it calls [on_confirm] alone, which happens only for ENTER
    while the Confirm button (index 0) is selected; it calls [on_cancel]
    alone, which happens only for ESC, or for ENTER while Confirm is not
    selected; or it calls nothing, and then it either leaves the dialog as
    it is or (LEFT, RIGHT, TAB) selects the other button.  Selecting the
    other button twice gives back the dialog, and the selection stays
    among the two buttons. *)
Theorem ConfirmationDialog_key_outcomes (self : t) (key : string) :
  ((process_input self key = (self, [on_confirm self])
    /\ key = Keys.ENTER /\ focus_index self = 0)
   \/ (process_input self key = (self, [on_cancel self])
       /\ (key = Keys.ESC \/ (key = Keys.ENTER /\ focus_index self <> 0)))
   \/ (process_input self key = (self, [])
       /\ key <> Keys.ENTER /\ key <> Keys.ESC)
   \/ (process_input self key
       = (mk (on_confirm self) (on_cancel self) (1 - focus_index self), [])
       /\ (key = Keys.LEFT \/ key = Keys.RIGHT \/ key = Keys.TAB)
       /\ process_input (process_input self key).1 key = (self, [])))
  /\ (0 <= focus_index self <= 1 ->
      0 <= focus_index (process_input self key).1 <= 1).
Proof.
  split.
  - unfold process_input.
    destruct (key_is key Keys.LEFT || key_is key Keys.RIGHT || key_is key Keys.TAB)
      eqn:Hk.
    + right; right; right. split; [reflexivity|]. split.
      * apply orb_prop in Hk as [Hk|Hk]; [apply orb_prop in Hk as [Hk|Hk]|];
          apply key_is_true in Hk; auto.
      * destruct self as [c x f]. simpl.
        by replace (1 - (1 - f)) with f by lia.
    + destruct (key_is key Keys.ENTER) eqn:He.
      * apply key_is_true in He. destruct (Z.eqb_spec (focus_index self) 0).
        -- left. by repeat split.
        -- right; left. split; [reflexivity|]. right. by split.
      * apply key_is_false in He. destruct (key_is key Keys.ESC) eqn:Hesc.
        -- apply key_is_true in Hesc. right; left. split; [reflexivity|]. by left.
        -- apply key_is_false in Hesc. right; right; left. by repeat split.
  - intros Hfi. unfold process_input.
    destruct (key_is key Keys.LEFT || key_is key Keys.RIGHT || key_is key Keys.TAB);
      [simpl; lia|].
    destruct (key_is key Keys.ENTER); [by destruct (focus_index self =? 0)|].
    by destruct (key_is key Keys.ESC).
Qed.

Lemma ConfirmationDialog_key_outcomes_witness :
  0 <= focus_index
         (process_input (new _perform_actual_delete _cancel_delete) Keys.TAB).1 <= 1.
Proof.
  refine (proj2 (ConfirmationDialog_key_outcomes _ Keys.TAB) _). simpl. lia.
Defined.

End ConfirmationFacts.

(** ** VerticalList: the selection *)

Section VerticalListSelection.
Context {C : Type} {WC : Widget C} {WLC : WidgetLaws C}.
Import VerticalList.

(** One selection move on a list with rows. *)
Lemma move_focus_once (v : t C) (delta : Z) :
  children v <> [] -> 0 <= _focus_index v ->
  exists v',
    _move_focus delta v = Ok v'
    /\ children v' =
       alter (w_set_is_focused true)
         (Z.to_nat ((focus_index v + delta) mod len v))
         (alter (w_set_is_focused false) (Z.to_nat (focus_index v)) (children v))
    /\ _focus_index v' = (focus_index v + delta) mod len v
    /\ focus_index v' = (focus_index v + delta) mod len v
    /\ len v' = len v
    /\ height v' = height v
    /\ is_focused v' = is_focused v.
Proof.
  intros Hne H0.
  pose proof (focus_index_range v Hne H0) as Hr.
  assert (Hpos : 0 < len v) by lia.
  pose proof (Z.mod_pos_bound (focus_index v + delta) (len v) Hpos) as Hmod.
  unfold _move_focus.
  destruct (children v) as [|c cs] eqn:Hcs; [done|]. rewrite <- Hcs.
  rewrite py_alter_in_range by (unfold len in Hr; lia).
  simpl bind.
  set (cs1 := alter (w_set_is_focused false) _ (children v)).
  assert (Hl1 : length cs1 = length (children v)) by (subst cs1; apply length_alter).
  set (v1 := set_children cs1 v).
  assert (Hlen1 : len v1 = len v) by (unfold len, v1; simpl; lia).
  rewrite Hlen1.
  set (m := (focus_index v + delta) mod len v) in *.
  assert (Hset : set_focus_index m v1 = set__focus_index m v1).
  { unfold set_focus_index. rewrite Hlen1.
    destruct (Z.eqb_spec (len v) 0); [lia|]. f_equal. lia. }
  rewrite Hset.
  set (v2 := set__focus_index m v1).
  assert (Hfi2 : focus_index v2 = m).
  { unfold focus_index. replace (len v2) with (len v) by (symmetry; exact Hlen1).
    destruct (Z.eqb_spec (len v) 0); [lia|].
    change (_focus_index v2) with m. lia. }
  change (children v2) with cs1.
  rewrite Hfi2.
  rewrite py_alter_in_range by (rewrite Hl1; unfold len in Hmod; lia).
  simpl bind.
  set (v3 := set_children _ v2).
  exists (_ensure_visible v3). split; [reflexivity|].
  destruct (ensure_visible_fields v3) as (Hc & Hf & Hh).
  destruct (ensure_visible_flags v3) as (Hfl & _).
  assert (Hlen3 : len v3 = len v).
  { unfold len.
    change (children v3) with (alter (w_set_is_focused true) (Z.to_nat m) cs1).
    by rewrite length_alter, Hl1. }
  split; [by rewrite Hc|]. split; [by rewrite Hf|].
  split.
  { rewrite ensure_visible_focus_index. unfold focus_index. rewrite Hlen3.
    destruct (Z.eqb_spec (len v) 0); [lia|].
    change (_focus_index v3) with m. lia. }
  split; [unfold len; rewrite Hc; exact Hlen3|].
  split; [by rewrite Hh|by rewrite Hfl].
Qed.

(** X7: on a list with N rows, the selection key pressed n times moves
    the selection to (selected + n * delta) mod N: Down goes forward and
    from the last row to the first, Up goes backward and from the first
    row to the last; N presses of the same key bring the selection back,
    and Up undoes Down. *)
Theorem VerticalList_selection_cycles (v : t C) (delta : Z) (n : nat) :
  children v <> [] ->
  0 <= _focus_index v ->
  (exists v',
      Stated.moves n delta v = Ok v'
      /\ focus_index v' = (focus_index v + Z.of_nat n * delta) mod len v
      /\ len v' = len v)
  /\ (exists v',
        Stated.moves (length (children v)) delta v = Ok v'
        /\ focus_index v' = focus_index v)
  /\ (exists down back,
        _move_focus 1 v = Ok down /\ _move_focus (-1) down = Ok back
        /\ focus_index back = focus_index v).
Proof.
  intros Hne H0.
  assert (Hgen : forall k (u : t C),
    children u <> [] -> 0 <= _focus_index u ->
    exists u',
      Stated.moves k delta u = Ok u'
      /\ focus_index u' = (focus_index u + Z.of_nat k * delta) mod len u
      /\ len u' = len u).
  { induction k as [|k IH]; intros u Hune Hu0.
    - exists u. split; [reflexivity|]. split; [|reflexivity].
      pose proof (focus_index_range u Hune Hu0).
      rewrite Z.mod_small by lia. lia.
    - destruct (move_focus_once u delta Hune Hu0)
        as (u1 & Hmove & Hc1 & Hfi1 & Hfo1 & Hlen1 & _).
      assert (Hpos : 0 < len u) by (pose proof (focus_index_range u Hune Hu0); lia).
      pose proof (Z.mod_pos_bound (focus_index u + delta) (len u) Hpos) as Hmod.
      assert (Hne1 : children u1 <> []).
      { intros Hnil. unfold len in Hlen1, Hpos. rewrite Hnil in Hlen1.
        simpl in Hlen1. lia. }
      destruct (IH u1 Hne1) as (u' & Hrest & Hfi' & Hlen'); [lia|].
      exists u'. simpl Stated.moves. rewrite Hmove. simpl.
      split; [exact Hrest|]. split; [|lia].
      rewrite Hfi', Hfo1, Hlen1.
      rewrite Zplus_mod_idemp_l. f_equal. lia. }
  pose proof (focus_index_range v Hne H0) as Hr.
  split; [by apply Hgen|]. split.
  - destruct (Hgen (length (children v)) v Hne H0) as (v' & Hm & Hfi & _).
    exists v'. split; [exact Hm|]. rewrite Hfi. fold (len v).
    replace (focus_index v + len v * delta) with (focus_index v + delta * len v) by lia.
    rewrite Z_mod_plus_full. apply Z.mod_small. lia.
  - destruct (move_focus_once v 1 Hne H0) as (d & Hd & _ & Hfid & Hfod & Hlend & _).
    assert (Hpos : 0 < len v) by lia.
    pose proof (Z.mod_pos_bound (focus_index v + 1) (len v) Hpos) as Hmod.
    assert (Hned : children d <> []).
    { intros Hnil. unfold len in Hlend, Hpos. rewrite Hnil in Hlend.
      simpl in Hlend. lia. }
    destruct (move_focus_once d (-1) Hned) as (b & Hb & _ & _ & Hfob & _); [lia|].
    exists d, b. split; [exact Hd|]. split; [exact Hb|].
    rewrite Hfob, Hfod, Hlend. rewrite Zplus_mod_idemp_l.
    replace (focus_index v + 1 + -1) with (focus_index v) by lia.
    apply Z.mod_small. lia.
Qed.

End VerticalListSelection.

Lemma VerticalList_selection_cycles_witness :
  exists v',
    Stated.moves 3 (-1)
      (VerticalList.mk 1 1 20 5
         [Label.new "a" 1 1; Label.new "b" 1 1; Label.new "c" 1 1] 0 1 true true)
    = Ok v'
    /\ VerticalList.focus_index v' = 1.
Proof.
  set (v := VerticalList.mk _ _ _ _ _ _ _ _ _).
  destruct (VerticalList_selection_cycles v (-1) 3) as (_ & (v' & Hm & Hfi) & _);
    [discriminate | simpl; lia |].
  exists v'. split; [exact Hm | exact Hfi].
Defined.

Section VerticalListRows.
Context {C : Type} {WC : Widget C} {WLC : WidgetLaws C}.
Import VerticalList.

(** X8: when no row other than the selected one carries the focus flag,
    a selection move leaves the flag on the newly selected row and on no
    other row. *)
Theorem VerticalList_marks_selected_row (v : t C) (delta : Z) :
  children v <> [] ->
  0 <= _focus_index v ->
  (forall j c, children v !! j = Some c -> w_is_focused c = true ->
               j = Z.to_nat (focus_index v)) ->
  exists v',
    _move_focus delta v = Ok v'
    /\ forall j c, children v' !! j = Some c ->
                   (w_is_focused c = true <-> j = Z.to_nat (focus_index v')).
Proof.
  intros Hne H0 Honly.
  destruct (move_focus_once v delta Hne H0) as (v' & Hmove & Hc & _ & Hfo & _).
  exists v'. split; [exact Hmove|].
  intros j c. rewrite Hc, Hfo.
  set (new := Z.to_nat ((focus_index v + delta) mod len v)).
  set (old := Z.to_nat (focus_index v)).
  rewrite list_lookup_alter.
  destruct (decide (new = j)) as [<-|Hnew].
  - destruct (alter (w_set_is_focused false) old (children v) !! new) as [c0|];
      [|discriminate].
    simpl. intros [= <-]. rewrite focused_set. by split.
  - rewrite list_lookup_alter.
    destruct (decide (old = j)) as [<-|Hold].
    + destruct (children v !! old) as [c0|]; [|discriminate].
      simpl. intros [= <-]. rewrite focused_set. split; [discriminate|congruence].
    + intros Hj. split; [|congruence].
      intros Hf. exfalso. apply Hold. symmetry. by eapply Honly.
Qed.

End VerticalListRows.

Lemma VerticalList_marks_selected_row_witness :
  exists v',
    VerticalList._move_focus 1
      (VerticalList.mk 1 1 20 5
         [Label.mk "a" 1 1 true false; Label.new "b" 1 1] 0 0 true true)
    = Ok v'
    /\ forall j c, VerticalList.children v' !! j = Some c ->
                   (w_is_focused c = true <-> j = Z.to_nat (VerticalList.focus_index v')).
Proof.
  apply VerticalList_marks_selected_row; [discriminate | simpl; lia |].
  intros [|[|j]] c; simpl; intros [= <-]; simpl; intros Hf;
    [reflexivity | discriminate].
Defined.

(** ** TUIScreen: cycling and clamping *)

Section ScreenCycle.
Context {W : Type} {WW : Widget W} {WL : WidgetLaws W}.
Import TUIScreen.

Implicit Types (self : t W).

Lemma settled_focused_in_tab self cur :
  settled self -> get_focused_widget self = Some cur ->
  get_focusable_widgets self <> []
  /\ exists p, get_focusable_widgets self !! p = Some cur.
Proof.
  intros Hs Hcur. apply get_focused_widget_Some in Hcur as [Hin _].
  split.
  - intros Hnil. rewrite Hnil in Hin. by apply elem_of_nil in Hin.
  - by apply list_elem_of_lookup_1.
Qed.

(** Where [set_focus_by_index] puts the focus on a settled screen. *)
Lemma set_focus_by_index_target self index :
  settled self ->
  get_focusable_widgets self <> [] ->
  get_focused_widget (set_focus_by_index index self)
  = get_focusable_widgets self
      !! Z.to_nat (Z.max 0 (Z.min index
                     (Z.of_nat (length (get_focusable_widgets self)) - 1)))
  /\ get_focusable_widgets (set_focus_by_index index self)
     = get_focusable_widgets self.
Proof.
  intros Hs Hne.
  destruct (set_focus_by_index_focuses self index (proj1 Hs) Hne
              (settled_only_focused self Hs))
    as (target & Htarget & Htab & _ & Hiff & _).
  split; [|exact Htab]. rewrite Htarget.
  apply get_focused_widget_unique.
  - rewrite Htab. by eapply list_elem_of_lookup_2.
  - by apply Hiff.
  - intros j _ Hj. by apply Hiff.
Qed.

Lemma move_focus_position self (direction : Z) cur (p : nat) :
  settled self ->
  get_focused_widget self = Some cur ->
  get_focusable_widgets self !! p = Some cur ->
  get_focused_widget (move_focus direction self)
  = get_focusable_widgets self
      !! Z.to_nat ((Z.of_nat p + direction)
                   mod Z.of_nat (length (get_focusable_widgets self)))
  /\ get_focusable_widgets (move_focus direction self) = get_focusable_widgets self
  /\ settled (move_focus direction self).
Proof.
  intros Hs Hcur Hp.
  destruct (settled_focused_in_tab self cur Hs Hcur) as [Hne _].
  assert (Hidx : index_of (get_focusable_widgets self) cur = Some p).
  { destruct (index_of_elem (get_focusable_widgets self) cur) as (q & Hq & Hlq).
    - by eapply list_elem_of_lookup_2.
    - rewrite Hq. f_equal. eapply NoDup_lookup; [apply Hs | exact Hlq | exact Hp]. }
  assert (Hmove : move_focus direction self
                  = set_focus_by_index
                      ((Z.of_nat p + direction)
                       mod Z.of_nat (length (get_focusable_widgets self))) self).
  { unfold move_focus. rewrite Hcur, Hidx.
    destruct (get_focusable_widgets self); [done|reflexivity]. }
  rewrite Hmove.
  assert (Hn : 0 < Z.of_nat (length (get_focusable_widgets self))).
  { destruct (get_focusable_widgets self); [done|simpl; lia]. }
  pose proof (Z.mod_pos_bound (Z.of_nat p + direction) _ Hn) as Hmod.
  destruct (set_focus_by_index_target self
              ((Z.of_nat p + direction)
               mod Z.of_nat (length (get_focusable_widgets self))) Hs Hne)
    as [Hgf Htab].
  split; [|split; [exact Htab | by apply settled_set_focus_by_index]].
  rewrite Hgf. f_equal. lia.
Qed.

Lemma move_focus_times_position self (direction : Z) (n : nat) cur (p : nat) :
  settled self ->
  get_focused_widget self = Some cur ->
  get_focusable_widgets self !! p = Some cur ->
  get_focused_widget (Stated.move_focus_times n direction self)
  = get_focusable_widgets self
      !! Z.to_nat ((Z.of_nat p + Z.of_nat n * direction)
                   mod Z.of_nat (length (get_focusable_widgets self))).
Proof.
  revert self cur p. induction n as [|n IH]; intros self cur p Hs Hcur Hp.
  - simpl. rewrite Hcur, <- Hp. f_equal.
    assert (p < length (get_focusable_widgets self))%nat
      by (apply lookup_lt_is_Some; eauto).
    rewrite Z.mod_small by lia. lia.
  - destruct (move_focus_position self direction cur p Hs Hcur Hp)
      as (Hgf & Htab & Hs').
    assert (Hn : 0 < Z.of_nat (length (get_focusable_widgets self))).
    { destruct (settled_focused_in_tab self cur Hs Hcur) as [Hne _].
      destruct (get_focusable_widgets self); [done|simpl; lia]. }
    pose proof (Z.mod_pos_bound (Z.of_nat p + direction) _ Hn) as Hmod.
    set (q := Z.to_nat ((Z.of_nat p + direction)
                        mod Z.of_nat (length (get_focusable_widgets self)))) in *.
    destruct (lookup_lt_is_Some_2 (get_focusable_widgets self) q) as [next Hnext];
      [subst q; lia|].
    rewrite Hnext in Hgf.
    simpl Stated.move_focus_times.
    rewrite (IH (move_focus direction self) next q Hs' Hgf) by (by rewrite Htab).
    rewrite Htab. f_equal. f_equal. subst q.
    rewrite Z2Nat.id by lia. rewrite Zplus_mod_idemp_l. f_equal. lia.
Qed.

(** X9: on a screen whose tab order has N widgets, one of them focused,
    [move_focus] called n times with a direction leaves the focus on the
    widget n * direction places further in the tab order, counted with
    wraparound; N calls with +1 (TAB pressed N times) bring the focus
    back to where it was, and -1 undoes +1. *)
Theorem move_focus_cycles_the_tab_order self cur :
  settled self ->
  get_focused_widget self = Some cur ->
  exists p,
    get_focusable_widgets self !! p = Some cur
    /\ (forall (n : nat) (direction : Z),
          get_focused_widget (Stated.move_focus_times n direction self)
          = get_focusable_widgets self
              !! Z.to_nat ((Z.of_nat p + Z.of_nat n * direction)
                           mod Z.of_nat (length (get_focusable_widgets self))))
    /\ get_focused_widget
         (Stated.move_focus_times (length (get_focusable_widgets self)) 1 self)
       = Some cur
    /\ get_focused_widget (move_focus (-1) (move_focus 1 self)) = Some cur.
Proof.
  intros Hs Hcur.
  destruct (settled_focused_in_tab self cur Hs Hcur) as [Hne [p Hp]].
  exists p. split; [exact Hp|].
  assert (Hlt : (p < length (get_focusable_widgets self))%nat)
    by (apply lookup_lt_is_Some; eauto).
  split; [|split].
  - intros n direction. by apply move_focus_times_position with cur.
  - rewrite (move_focus_times_position self 1 _ cur p Hs Hcur Hp).
    rewrite <- Hp. f_equal.
    replace (Z.of_nat p + Z.of_nat (length (get_focusable_widgets self)) * 1)
      with (Z.of_nat p + 1 * Z.of_nat (length (get_focusable_widgets self))) by lia.
    rewrite Z_mod_plus_full, Z.mod_small by lia. lia.
  - change (move_focus (-1) (move_focus 1 self))
      with (Stated.move_focus_times 1 (-1) (Stated.move_focus_times 1 1 self)).
    destruct (move_focus_position self 1 cur p Hs Hcur Hp) as (Hgf & Htab & Hs').
    assert (Hn : 0 < Z.of_nat (length (get_focusable_widgets self))) by lia.
    pose proof (Z.mod_pos_bound (Z.of_nat p + 1) _ Hn) as Hmod.
    set (q := Z.to_nat ((Z.of_nat p + 1)
                        mod Z.of_nat (length (get_focusable_widgets self)))) in *.
    destruct (lookup_lt_is_Some_2 (get_focusable_widgets self) q) as [next Hnext];
      [subst q; lia|].
    rewrite Hnext in Hgf.
    destruct (move_focus_position (move_focus 1 self) (-1) next q Hs' Hgf)
      as (Hgf' & _); [by rewrite Htab|].
    simpl Stated.move_focus_times. rewrite Hgf', Htab, <- Hp. f_equal.
    subst q. rewrite Z2Nat.id by lia. rewrite Zplus_mod_idemp_l.
    replace (Z.of_nat p + 1 + -1) with (Z.of_nat p) by lia.
    rewrite Z.mod_small by lia. lia.
Qed.

(** X10: [set_focus_by_index] never fails on an index out of range: on a
    screen with a non-empty tab order it focuses the widget at the index
    clamped to the tab order, so any index at or below 0 focuses the
    first widget and any index at or above the last position the last
    widget, and it leaves the tab order as it is. *)
Theorem set_focus_by_index_clamps self (index : Z) :
  settled self ->
  get_focusable_widgets self <> [] ->
  get_focused_widget (set_focus_by_index index self)
  = get_focusable_widgets self
      !! Z.to_nat (Z.max 0 (Z.min index
                     (Z.of_nat (length (get_focusable_widgets self)) - 1)))
  /\ (index <= 0 ->
      get_focused_widget (set_focus_by_index index self)
      = head (get_focusable_widgets self))
  /\ (Z.of_nat (length (get_focusable_widgets self)) - 1 <= index ->
      get_focused_widget (set_focus_by_index index self)
      = last (get_focusable_widgets self))
  /\ get_focusable_widgets (set_focus_by_index index self)
     = get_focusable_widgets self
  /\ settled (set_focus_by_index index self).
Proof.
  intros Hs Hne.
  destruct (set_focus_by_index_target self index Hs Hne) as [Hgf Htab].
  assert (Hn : 0 < Z.of_nat (length (get_focusable_widgets self))).
  { destruct (get_focusable_widgets self); [done|simpl; lia]. }
  split; [exact Hgf|]. split; [|split; [|split]].
  - intros Hi. rewrite Hgf, head_lookup. f_equal. lia.
  - intros Hi. rewrite Hgf, last_lookup. f_equal. lia.
  - exact Htab.
  - by apply settled_set_focus_by_index.
Qed.

End ScreenCycle.

Lemma three_buttons_settled :
  TUIScreen.settled
    (TUIScreen.set_focus_by_index 0
       (TUIScreen.mk
          [Button.new "Ver" 3 19 None; Button.new "Criar" 17 19 None;
           Button.new "Buscar" 31 19 None]
          None None)).
Proof.
  apply settled_after_set_focus.
  - split.
    + apply (bool_decide_unpack _). vm_compute. exact I.
    + apply Forall_forall. vm_compute. repeat constructor.
  - intros [|[|[|j]]] Hj; vm_compute in Hj; discriminate.
Qed.

Lemma move_focus_cycles_the_tab_order_witness :
  TUIScreen.get_focused_widget
    (Stated.move_focus_times 3 1
       (TUIScreen.set_focus_by_index 0
          (TUIScreen.mk
             [Button.new "Ver" 3 19 None; Button.new "Criar" 17 19 None;
              Button.new "Buscar" 31 19 None]
             None None)))
  = Some 0%nat.
Proof.
  destruct (move_focus_cycles_the_tab_order _ 0%nat three_buttons_settled)
    as (p & _ & _ & H & _); [vm_compute; reflexivity|].
  exact H.
Defined.

Lemma set_focus_by_index_clamps_witness :
  TUIScreen.get_focused_widget
    (TUIScreen.set_focus_by_index 99
       (TUIScreen.set_focus_by_index 0
          (TUIScreen.mk
             [Button.new "Ver" 3 19 None; Button.new "Criar" 17 19 None;
              Button.new "Buscar" 31 19 None]
             None None)))
  = Some 2%nat.
Proof.
  destruct (set_focus_by_index_clamps _ 99 three_buttons_settled)
    as (_ & _ & H & _); [vm_compute; discriminate|].
  rewrite H; [vm_compute; reflexivity | vm_compute; discriminate].
Defined.

(** ** TUIScreen: a consumed key *)

Section ConsumedKey.
Context {W : Type} {WW : Widget W} {WL : WidgetLaws W}.
Import TUIScreen.

Implicit Types (self : t W).

Lemma replace_keeps_flags self i w w' :
  children self !! i = Some w ->
  w_is_focused w' = w_is_focused w ->
  w_is_focusable w' = w_is_focusable w ->
  (forall j, focused_at (set_children (<[i := w']> (children self)) self) j
             = focused_at self j)
  /\ get_focusable_widgets (set_children (<[i := w']> (children self)) self)
     = get_focusable_widgets self.
Proof.
  intros Hw Hf Hfa.
  set (self' := set_children _ self).
  assert (Hfocusable : forall j, focusable_at self' j = focusable_at self j).
  { intros j. unfold focusable_at, self'. simpl. rewrite list_lookup_insert.
    case_decide as Hij; [|reflexivity]. destruct Hij as [-> _]. by rewrite Hw. }
  split.
  - intros j. unfold focused_at, self'. simpl. rewrite list_lookup_insert.
    case_decide as Hij; [|reflexivity]. destruct Hij as [-> _]. by rewrite Hw.
  - unfold get_focusable_widgets. change (tab_order self') with (tab_order self).
    destruct (tab_order self); [reflexivity|].
    replace (length (children self')) with (length (children self))
      by (unfold self'; simpl; by rewrite length_insert).
    apply list_filter_iff. intros j. by rewrite Hfocusable.
Qed.

(** X11: when the focused widget handles the key (returns a true value),
    the screen does nothing more, whatever the key: the focus flags and
    the tab order are as before, so neither an arrow nor TAB moved the
    focus, and the application is asked only what the widget itself
    asked, so ESC did not pop the stack.  When the focused widget does
    not handle ESC, the screen asks for exactly one pop and moves no
    focus. *)
Theorem consumed_key_stops_navigation self (key : string) (fw : nat) (w w' : W)
        (handled : bool) (cbs : list Callback) :
  get_focused_widget self = Some fw ->
  children self !! fw = Some w ->
  w_process_input w key = Ok (w', handled, cbs) ->
  (handled = true ->
   process_input key self
   = Ok (set_children (<[fw := w']> (children self)) self, cbs))
  /\ (handled = false -> key = Keys.ESC ->
      process_input key self
      = Ok (set_children (<[fw := w']> (children self)) self,
            (cbs ++ [pop_screen_stack])%list))
  /\ (forall j,
        focused_at (set_children (<[fw := w']> (children self)) self) j
        = focused_at self j)
  /\ get_focusable_widgets (set_children (<[fw := w']> (children self)) self)
     = get_focusable_widgets self
  /\ get_focused_widget (set_children (<[fw := w']> (children self)) self)
     = Some fw.
Proof.
  intros Hcur Hw Hin.
  destruct (input_keeps_flags _ _ _ _ _ Hin) as [Hf Hfa].
  destruct (replace_keeps_flags self fw w w' Hw Hf Hfa) as [Hflags Htab].
  assert (Hoffer : offer_to_focused key self
                   = Ok (set_children (<[fw := w']> (children self)) self,
                         handled, cbs)).
  { unfold offer_to_focused. by rewrite Hcur, Hw, Hin. }
  split; [|split; [|split; [exact Hflags | split; [exact Htab|]]]].
  - intros ->. unfold process_input. by rewrite Hoffer.
  - intros -> ->. unfold process_input. rewrite Hoffer. simpl.
    unfold arrow_step. simpl. reflexivity.
  - unfold get_focused_widget in *. rewrite Htab.
    rewrite <- Hcur. f_equal.
    apply list_find_ext. intros j. by rewrite Hflags.
Qed.

End ConsumedKey.

Lemma consumed_key_stops_navigation_witness :
  let tm := GerenciadorTarefas.mk
              [ListaDeTarefas.mk 1 "Casa"; ListaDeTarefas.mk 2 "Trabalho"] in
  let self := ListSelectionScreen.screen (ListSelectionScreen.new 80 24 tm) in
  exists self',
    TUIScreen.process_input Keys.DOWN self = Ok (self', [])
    /\ TUIScreen.get_focused_widget self' = Some 1%nat.
Proof.
  intros tm self.
  destruct (TUIScreen.children self !! 1%nat) as [w|] eqn:Hw;
    [|vm_compute in Hw; discriminate].
  destruct (w_process_input w Keys.DOWN) as [[[w' handled] cbs]|e] eqn:Hin.
  - assert (Hh : handled = true /\ cbs = []).
    { vm_compute in Hw. injection Hw as <-. vm_compute in Hin.
      injection Hin as _ <- <-. by split. }
    destruct Hh as [-> ->].
    assert (Hfocus : TUIScreen.get_focused_widget self = Some 1%nat)
      by (vm_compute; reflexivity).
    destruct (consumed_key_stops_navigation self Keys.DOWN 1%nat w w' true []
                Hfocus Hw Hin) as (Hp & _ & _ & _ & Hgf).
    eexists. split; [by apply Hp | exact Hgf].
  - vm_compute in Hw. injection Hw as <-. vm_compute in Hin. discriminate.
Defined.

(** ** TodoApp: what a pop leaves *)

Section PopFacts.
Import TodoApp.
Variable faults : Step -> Fault.

Lemma quit_app_raises (app : t) :
  exists e, (quit_app faults app).2 = Raise e
            /\ screen_stack (quit_app faults app).1 = screen_stack app
            /\ current_screen (quit_app faults app).1 = current_screen app.
Proof.
  unfold quit_app, and_then, call, exit.
  destruct (step_raises faults clear_screen); simpl; [by eexists|].
  destruct (step_raises faults move_cursor); simpl; [by eexists|].
  destruct (step_raises faults show_cursor); simpl; [by eexists|].
  destruct (step_raises faults save_database); simpl; [by eexists|].
  destruct (step_raises faults disable_raw_mode); simpl; by eexists.
Qed.

(** The pop seen from the top of the stack: the task-detail screens
    directly under the top go with it. *)
Lemma pop_from_details (details_from_top : list Screen) :
  forall (app : t) (top s : Screen) (rest_from_top : list Screen),
    Forall (fun d => kind d = TASK_DETAIL) details_from_top ->
    kind s <> TASK_DETAIL ->
    pop_from faults (top :: details_from_top ++ s :: rest_from_top) app
    = (mk (rev rest_from_top ++ [s]) (Some s) (raw_mode app)
          (log app ++ map Refreshed details_from_top ++ [Refreshed s]),
       Ok tt).
Proof.
  induction details_from_top as [|d ds IH]; intros app top s rest Hds Hs.
  - simpl. destruct (kind s); try done.
  - inversion Hds as [|? ? Hd Hds']; subst.
    change (pop_from faults (top :: (d :: ds) ++ s :: rest) app)
      with (let app1 := record (Refreshed d)
                          (set_current_screen (Some d)
                             (set_screen_stack (rev ((d :: ds) ++ s :: rest)) app)) in
            if pops_on_refresh (kind d)
            then pop_from faults (d :: ds ++ s :: rest) app1
            else (app1, Ok tt)).
    cbv zeta. rewrite Hd. simpl pops_on_refresh. cbv iota.
    rewrite IH by assumption. simpl. by rewrite <- !app_assoc.
Qed.

Lemma pop_from_only_details (details_from_top : list Screen) :
  forall (app : t) (top : Screen),
    Forall (fun d => kind d = TASK_DETAIL) details_from_top ->
    pop_from faults (top :: details_from_top) app
    = quit_app faults
        (mk [] (match last details_from_top with
                | Some d => Some d
                | None => current_screen app
                end)
            (raw_mode app) (log app ++ map Refreshed details_from_top)).
Proof.
  induction details_from_top as [|d ds IH]; intros app top Hds.
  - simpl. rewrite app_nil_r. by destruct app.
  - inversion Hds as [|? ? Hd Hds']; subst.
    change (pop_from faults (top :: d :: ds) app)
      with (let app1 := record (Refreshed d)
                          (set_current_screen (Some d)
                             (set_screen_stack (rev (d :: ds)) app)) in
            if pops_on_refresh (kind d)
            then pop_from faults (d :: ds) app1
            else (app1, Ok tt)).
    cbv zeta. rewrite Hd. simpl pops_on_refresh. cbv iota.
    rewrite IH by assumption. simpl. rewrite <- !app_assoc. simpl.
    f_equal. f_equal. rewrite last_cons. by destruct (last ds).
Qed.

(** X12: a pop takes with the top screen every task-detail screen that
    lies directly under it.  When a screen of another class lies under
    them, that screen is the new top and the current screen, each screen
    that was exposed on the way was sent REFRESH once, from the top down,
    and pop() returns; when only task-detail screens lie under the top,
    the stack ends empty and the shutdown runs. *)
Theorem pop_screen_stack_takes_detail_screens (app : t) (top : Screen)
        (details : list Screen) :
  Forall (fun d => kind d = TASK_DETAIL) details ->
  (forall (base : list Screen) (s : Screen),
      screen_stack app = (base ++ [s] ++ details ++ [top])%list ->
      kind s <> TASK_DETAIL ->
      pop_screen_stack faults app
      = (mk (base ++ [s]) (Some s) (raw_mode app)
            (log app ++ map Refreshed (rev details) ++ [Refreshed s]),
         Ok tt))
  /\ (screen_stack app = (details ++ [top])%list ->
      pop_screen_stack faults app
      = quit_app faults
          (mk [] (match head details with
                  | Some d => Some d
                  | None => current_screen app
                  end)
              (raw_mode app) (log app ++ map Refreshed (rev details)))).
Proof.
  intros Hds.
  assert (Hrev : Forall (fun d => kind d = TASK_DETAIL) (rev details)).
  { apply Forall_forall. intros d Hd. rewrite Forall_forall in Hds.
    apply Hds. apply list_elem_of_In. apply list_elem_of_In in Hd.
    by apply in_rev. }
  split.
  - intros base s Hstack Hs. unfold pop_screen_stack. rewrite Hstack.
    assert (Hr : rev (base ++ [s] ++ details ++ [top])
                 = top :: (rev details ++ s :: rev base)%list).
    { rewrite !rev_app_distr. simpl. by rewrite <- app_assoc. }
    rewrite Hr.
    rewrite (pop_from_details (rev details) app top s (rev base) Hrev Hs).
    by rewrite rev_involutive.
  - intros Hstack. unfold pop_screen_stack. rewrite Hstack.
    assert (Hr : rev (details ++ [top]) = top :: rev details)
      by (by rewrite rev_app_distr).
    rewrite Hr.
    rewrite (pop_from_only_details (rev details) app top Hrev).
    do 3 f_equal.
    destruct details as [|d ds]; [reflexivity|]. simpl.
    by rewrite last_snoc.
Qed.

End PopFacts.

Lemma pop_screen_stack_takes_detail_screens_witness :
  TodoApp.pop_screen_stack (fun _ => TodoApp.NoFault)
    (TodoApp.mk
       [TodoApp.mkScreen TodoApp.LIST_SELECTION 0;
        TodoApp.mkScreen TodoApp.SEARCH_RESULTS 1;
        TodoApp.mkScreen TodoApp.TASK_DETAIL 2;
        TodoApp.mkScreen TodoApp.EDIT_TASK 3]
       (Some (TodoApp.mkScreen TodoApp.EDIT_TASK 3)) true [])
  = (TodoApp.mk
       [TodoApp.mkScreen TodoApp.LIST_SELECTION 0;
        TodoApp.mkScreen TodoApp.SEARCH_RESULTS 1]
       (Some (TodoApp.mkScreen TodoApp.SEARCH_RESULTS 1)) true
       [TodoApp.Refreshed (TodoApp.mkScreen TodoApp.TASK_DETAIL 2);
        TodoApp.Refreshed (TodoApp.mkScreen TodoApp.SEARCH_RESULTS 1)],
     Ok tt).
Proof.
  destruct (pop_screen_stack_takes_detail_screens (fun _ => TodoApp.NoFault)
              (TodoApp.mk
                 [TodoApp.mkScreen TodoApp.LIST_SELECTION 0;
                  TodoApp.mkScreen TodoApp.SEARCH_RESULTS 1;
                  TodoApp.mkScreen TodoApp.TASK_DETAIL 2;
                  TodoApp.mkScreen TodoApp.EDIT_TASK 3]
                 (Some (TodoApp.mkScreen TodoApp.EDIT_TASK 3)) true [])
              (TodoApp.mkScreen TodoApp.EDIT_TASK 3)
              [TodoApp.mkScreen TodoApp.TASK_DETAIL 2]) as [H _].
  - repeat constructor.
  - apply (H [TodoApp.mkScreen TodoApp.LIST_SELECTION 0]
             (TodoApp.mkScreen TodoApp.SEARCH_RESULTS 1));
      [reflexivity | discriminate].
Defined.

Section PopOutcome.
Import TodoApp.
Variable faults : Step -> Fault.

Lemma pop_from_outcome (from_top : list Screen) :
  forall app : t,
    match (pop_from faults from_top app).2 with
    | Ok _ =>
        screen_stack (pop_from faults from_top app).1 <> []
        /\ current_screen (pop_from faults from_top app).1
           = last (screen_stack (pop_from faults from_top app).1)
        /\ (forall s, last (screen_stack (pop_from faults from_top app).1) = Some s ->
                      kind s <> TASK_DETAIL)
        /\ exists removed,
            removed <> []
            /\ rev from_top
               = (screen_stack (pop_from faults from_top app).1 ++ removed)%list
    | Raise _ =>
        from_top <> [] -> screen_stack (pop_from faults from_top app).1 = []
    end.
Proof.
  induction from_top as [|top below IH]; intros app;
    [simpl; intros Hne; by destruct Hne|].
  destruct below as [|exposed below'].
  - change (pop_from faults [top] app)
      with (quit_app faults (set_screen_stack (rev []) app)).
    destruct (quit_app_raises faults (set_screen_stack (rev []) app))
      as (e & -> & Hstack & _).
    intros _. by rewrite Hstack.
  - change (pop_from faults (top :: exposed :: below') app)
      with (let app1 := record (Refreshed exposed)
                          (set_current_screen (Some exposed)
                             (set_screen_stack (rev (exposed :: below')) app)) in
            if pops_on_refresh (kind exposed)
            then pop_from faults (exposed :: below') app1
            else (app1, Ok tt)).
    cbv zeta. destruct (pops_on_refresh (kind exposed)) eqn:Hpops.
    + specialize (IH (record (Refreshed exposed)
                        (set_current_screen (Some exposed)
                           (set_screen_stack (rev (exposed :: below')) app)))).
      destruct (pop_from faults (exposed :: below') _) as [app' [[]|e]]; simpl in *.
      * destruct IH as (Hne & Hcur & Hkind & removed & Hrem & Heq).
        repeat split; try assumption.
        exists (removed ++ [top])%list. split; [by destruct removed|].
        by rewrite Heq, <- app_assoc.
      * intros _. by apply IH.
    + simpl. repeat split.
      * by destruct (rev below').
      * by rewrite last_snoc.
      * intros s. rewrite last_snoc. intros [= <-] Hk.
        by rewrite Hk in Hpops.
      * exists [top]. by split.
Qed.

(** X13: whatever the stack holds, a pop() that returns leaves a
    non-empty stack that is the old one without one or more screens at
    its top, with the new top as the current screen, and that top is never
    a task-detail screen; a pop() that raises leaves the stack empty. *)
Theorem pop_screen_stack_outcome (app : t) :
  match (pop_screen_stack faults app).2 with
  | Ok _ =>
      screen_stack (pop_screen_stack faults app).1 <> []
      /\ current_screen (pop_screen_stack faults app).1
         = last (screen_stack (pop_screen_stack faults app).1)
      /\ (forall s, last (screen_stack (pop_screen_stack faults app).1) = Some s ->
                    kind s <> TASK_DETAIL)
      /\ exists removed,
          removed <> []
          /\ screen_stack app
             = (screen_stack (pop_screen_stack faults app).1 ++ removed)%list
  | Raise _ => screen_stack (pop_screen_stack faults app).1 = []
  end.
Proof.
  unfold pop_screen_stack.
  pose proof (pop_from_outcome (rev (screen_stack app)) app) as H.
  destruct (pop_from faults (rev (screen_stack app)) app) as [app' [[]|e]] eqn:Hpop;
    simpl in *.
  - destruct H as (Hne & Hcur & Hkind & removed & Hrem & Heq).
    repeat split; try assumption.
    exists removed. split; [assumption|]. by rewrite <- Heq, rev_involutive.
  - destruct (screen_stack app) as [|s stack] eqn:Hstack.
    + simpl in Hpop. injection Hpop as <- _. assumption.
    + apply H. simpl. by destruct (rev stack).
Qed.

End PopOutcome.

(** ** GerenciadorTarefas.remover_lista_de_tarefas *)

Lemma filter_other_ids_length (lista_id : Z) (listas : list ListaDeTarefas.t) :
  NoDup (map ListaDeTarefas.id listas) ->
  length (filter (fun lista => ListaDeTarefas.id lista <> lista_id) listas)
  = if bool_decide (lista_id ∈ map ListaDeTarefas.id listas)
    then (length listas - 1)%nat else length listas.
Proof.
  induction listas as [|l ls IH]; intros Hnd; [done|].
  simpl in Hnd. apply NoDup_cons in Hnd as [Hnotin Hnd].
  specialize (IH Hnd). rewrite filter_cons.
  destruct (decide (ListaDeTarefas.id l <> lista_id)) as [Hne|Heq].
  - simpl. rewrite IH.
    destruct (bool_decide (lista_id ∈ map ListaDeTarefas.id ls)) eqn:Hin.
    + apply bool_decide_eq_true in Hin.
      rewrite bool_decide_eq_true_2 by (simpl; by apply list_elem_of_further).
      destruct ls; [by apply elem_of_nil in Hin | simpl; lia].
    + apply bool_decide_eq_false in Hin.
      rewrite bool_decide_eq_false_2; [done|].
      simpl. rewrite elem_of_cons. intros [?|?]; congruence.
  - assert (ListaDeTarefas.id l = lista_id) as Hid
        by (destruct (decide (ListaDeTarefas.id l = lista_id)); [done|by destruct Heq]).
    rewrite IH. rewrite Hid in Hnotin.
    rewrite bool_decide_eq_false_2 by assumption.
    rewrite bool_decide_eq_true_2 by (simpl; rewrite Hid; apply list_elem_of_here).
    simpl. lia.
Qed.

Lemma filter_other_ids_delete (lista_id : Z) (listas : list ListaDeTarefas.t) :
  NoDup (map ListaDeTarefas.id listas) ->
  lista_id ∈ map ListaDeTarefas.id listas ->
  exists (i : nat) (lista : ListaDeTarefas.t),
    listas !! i = Some lista
    /\ ListaDeTarefas.id lista = lista_id
    /\ filter (fun lista => ListaDeTarefas.id lista <> lista_id) listas
       = delete i listas.
Proof.
  induction listas as [|l ls IH]; intros Hnd Hin; [by apply elem_of_nil in Hin|].
  simpl in Hnd, Hin. apply NoDup_cons in Hnd as [Hnotin Hnd].
  rewrite filter_cons.
  destruct (decide (ListaDeTarefas.id l <> lista_id)) as [Hne|Heq].
  - apply elem_of_cons in Hin as [Hin|Hin]; [congruence|].
    destruct (IH Hnd Hin) as (i & lista & Hi & Hid & Hf).
    exists (S i), lista. split; [exact Hi|]. split; [exact Hid|].
    simpl. by rewrite Hf.
  - assert (ListaDeTarefas.id l = lista_id) as Hid
        by (destruct (decide (ListaDeTarefas.id l = lista_id)); [done|by destruct Heq]).
    exists 0%nat, l. split; [done|]. split; [exact Hid|]. simpl.
    rewrite Hid in Hnotin. clear IH Hnd Hin Heq Hid.
    induction ls as [|a ls IH]; [done|].
    rewrite filter_cons.
    destruct (decide (ListaDeTarefas.id a <> lista_id)) as [?|Heq].
    + f_equal. apply IH. intros ?. apply Hnotin. simpl. by apply list_elem_of_further.
    + exfalso. apply Hnotin. simpl.
      destruct (decide (ListaDeTarefas.id a = lista_id)) as [->|?];
        [apply list_elem_of_here | by destruct Heq].
Qed.

(** X14: when the lists of the manager have distinct ids, removing a list
    by id keeps every other list in order (what is left is the old
    sequence of lists with the one position of that id taken out),
    removes exactly the list with that id when two or more lists exist,
    answers True exactly then, and never leaves the manager without a
    list. *)
Theorem remover_lista_de_tarefas_spec (lista_id : Z) (self : GerenciadorTarefas.t) :
  NoDup (map ListaDeTarefas.id (GerenciadorTarefas.listas self)) ->
  GerenciadorTarefas.listas self <> [] ->
  let '(self', removed) := GerenciadorTarefas.remover_lista_de_tarefas lista_id self in
  GerenciadorTarefas.listas self' <> []
  /\ (removed = true <->
      (2 <= length (GerenciadorTarefas.listas self))%nat
      /\ lista_id ∈ map ListaDeTarefas.id (GerenciadorTarefas.listas self))
  /\ (removed = true ->
      length (GerenciadorTarefas.listas self')
      = (length (GerenciadorTarefas.listas self) - 1)%nat
      /\ forall lista,
          lista ∈ GerenciadorTarefas.listas self' <->
          lista ∈ GerenciadorTarefas.listas self /\ ListaDeTarefas.id lista <> lista_id)
  /\ (removed = false -> self' = self)
  /\ NoDup (map ListaDeTarefas.id (GerenciadorTarefas.listas self'))
  /\ (removed = true ->
      exists (i : nat) (lista : ListaDeTarefas.t),
        GerenciadorTarefas.listas self !! i = Some lista
        /\ ListaDeTarefas.id lista = lista_id
        /\ GerenciadorTarefas.listas self'
           = (take i (GerenciadorTarefas.listas self)
              ++ drop (S i) (GerenciadorTarefas.listas self))%list)
  /\ sublist (GerenciadorTarefas.listas self') (GerenciadorTarefas.listas self).
Proof.
  intros Hnd Hne. unfold GerenciadorTarefas.remover_lista_de_tarefas.
  destruct (Z.of_nat (length (GerenciadorTarefas.listas self)) <=? 1) eqn:Hlen.
  - apply Z.leb_le in Hlen.
    split; [done|]. split; [split; [discriminate | intros [? _]; lia]|].
    split; [discriminate|]. split; [done|]. split; [done|].
    split; [discriminate|done].
  - apply Z.leb_gt in Hlen. cbv zeta.
    pose proof (filter_other_ids_length lista_id _ Hnd) as Hf.
    set (kept := filter (fun lista => ListaDeTarefas.id lista <> lista_id)
                        (GerenciadorTarefas.listas self)) in *.
    assert (Hsub : sublist kept (GerenciadorTarefas.listas self))
      by apply sublist_filter.
    simpl GerenciadorTarefas.listas.
    destruct (bool_decide (lista_id ∈ map ListaDeTarefas.id (GerenciadorTarefas.listas self)))
      eqn:Hin.
    + apply bool_decide_eq_true in Hin.
      assert (Hlt : Nat.ltb (length kept) (length (GerenciadorTarefas.listas self)) = true)
        by (apply Nat.ltb_lt; lia).
      rewrite Hlt.
      split; [intros Hk; rewrite Hk in Hf; simpl in Hf; lia|].
      split; [split; [intros _; split; [lia|done] | done]|].
      split.
      { intros _. split; [lia|]. intros lista. split.
        - intros Hl. apply list_elem_of_filter in Hl as [? ?]. by split.
        - intros [? ?]. by apply list_elem_of_filter. }
      split; [discriminate|].
      split.
      { apply NoDup_fmap_2_strong;
          [|by apply NoDup_filter, (NoDup_fmap_1 ListaDeTarefas.id)].
        intros a b Ha Hb Hab.
        apply list_elem_of_filter in Ha as [_ Ha].
        apply list_elem_of_filter in Hb as [_ Hb].
        apply list_elem_of_lookup_1 in Ha as [i Hi].
        apply list_elem_of_lookup_1 in Hb as [j Hj].
        assert (i = j).
        { apply (NoDup_lookup _ i j (ListaDeTarefas.id a) Hnd).
          - by rewrite list_lookup_fmap, Hi.
          - by rewrite list_lookup_fmap, Hj, Hab. }
        subst. congruence. }
      split; [|exact Hsub].
      intros _.
      destruct (filter_other_ids_delete lista_id _ Hnd Hin) as (i & lista & Hi & Hid & Hd).
      exists i, lista. split; [exact Hi|]. split; [exact Hid|].
      fold kept in Hd. rewrite Hd. apply delete_take_drop.
    + apply bool_decide_eq_false in Hin.
      assert (Hlt : Nat.ltb (length kept) (length (GerenciadorTarefas.listas self)) = false)
        by (apply Nat.ltb_ge; lia).
      rewrite Hlt.
      assert (Hkept : kept = GerenciadorTarefas.listas self).
      { subst kept. clear Hf Hlt Hlen Hne Hnd Hsub.
        induction (GerenciadorTarefas.listas self) as [|l ls IH]; [done|].
        rewrite filter_cons.
        destruct (decide (ListaDeTarefas.id l <> lista_id)) as [?|Heq].
        - f_equal. apply IH. intros ?. apply Hin. simpl. by apply list_elem_of_further.
        - exfalso. apply Hin. simpl.
          destruct (decide (ListaDeTarefas.id l = lista_id)) as [->|?];
            [apply list_elem_of_here | by destruct Heq]. }
      split; [by rewrite Hkept|].
      split; [split; [discriminate | intros [_ ?]; done]|].
      split; [discriminate|].
      split; [intros _; rewrite Hkept; by destruct self|].
      split; [by rewrite Hkept|].
      split; [discriminate|exact Hsub].
Qed.

Lemma remover_lista_de_tarefas_spec_witness :
  GerenciadorTarefas.listas
    (GerenciadorTarefas.remover_lista_de_tarefas 2
       (GerenciadorTarefas.mk
          [ListaDeTarefas.mk 1 "Casa"; ListaDeTarefas.mk 2 "Trabalho";
           ListaDeTarefas.mk 3 "Estudos"])).1 <> [].
Proof.
  pose proof (remover_lista_de_tarefas_spec 2
                (GerenciadorTarefas.mk
                   [ListaDeTarefas.mk 1 "Casa"; ListaDeTarefas.mk 2 "Trabalho";
                    ListaDeTarefas.mk 3 "Estudos"])) as H.
  destruct (GerenciadorTarefas.remover_lista_de_tarefas 2 _) as [self' removed].
  apply H.
  - apply (bool_decide_unpack _). vm_compute. exact I.
  - discriminate.
Defined.

(** ** The focus operations change focus flags only *)

Section OnlyFlags.
Context {W : Type} {WW : Widget W}.
Import TUIScreen.
Variable R : W -> W -> Prop.
Hypothesis R_refl : forall w, R w w.
Hypothesis R_trans : forall a b c, R a b -> R b c -> R a c.
Hypothesis R_flag : forall b w, R w (w_set_is_focused b w).

Implicit Types (self : t W).

Lemma Forall2_same l : Forall2 R l l.
Proof. induction l; constructor; auto. Qed.

Lemma Forall2_chain l1 : forall l2 l3,
  Forall2 R l1 l2 -> Forall2 R l2 l3 -> Forall2 R l1 l3.
Proof.
  induction l1 as [|a l1 IH]; intros l2 l3 H12 H23.
  - inversion H12; subst. inversion H23; subst. constructor.
  - inversion H12; subst. inversion H23; subst. constructor; eauto.
Qed.

Lemma Forall2_alter_flag b l : forall i,
  Forall2 R l (alter (w_set_is_focused b) i l).
Proof.
  induction l as [|a l IH]; intros i; [constructor|].
  destruct i as [|i].
  - change (alter (w_set_is_focused b) 0%nat (a :: l))
      with (w_set_is_focused b a :: l).
    constructor; [apply R_flag | apply Forall2_same].
  - change (alter (w_set_is_focused b) (S i) (a :: l))
      with (a :: alter (w_set_is_focused b) i l).
    constructor; [apply R_refl | apply IH].
Qed.

Lemma Forall2_replace l : forall i w w',
  l !! i = Some w -> R w w' -> Forall2 R l (<[i := w']> l).
Proof.
  induction l as [|a l IH]; intros i w w' Hw HR; [constructor|].
  destruct i; simpl in *.
  - injection Hw as ->. constructor; auto using Forall2_same.
  - constructor; eauto.
Qed.

Lemma set_focus_by_index_only_flags index self :
  Forall2 R (children self) (children (set_focus_by_index index self)).
Proof.
  unfold set_focus_by_index.
  destruct (get_focusable_widgets self) as [|a l] eqn:Htab; [apply Forall2_same|].
  cbv zeta.
  change (children (set_focus_index ?v ?s)) with (children s).
  destruct (get_focused_widget self);
    destruct ((a :: l) !! _); rewrite ?children_assign;
    eauto using Forall2_same, Forall2_alter_flag, Forall2_chain.
Qed.

Lemma move_focus_only_flags direction self :
  Forall2 R (children self) (children (move_focus direction self)).
Proof.
  destruct (move_focus_eq self direction) as [->|[index ->]];
    [apply Forall2_same | apply set_focus_by_index_only_flags].
Qed.

Lemma arrow_step_only_flags key self :
  Forall2 R (children self) (children (arrow_step key self)).
Proof.
  unfold arrow_step. destruct (is_arrow key); [|apply Forall2_same].
  destruct (_find_next_widget_in_direction self key); [|apply Forall2_same].
  destruct (index_of _ _); [|apply Forall2_same].
  apply set_focus_by_index_only_flags.
Qed.

Lemma navigation_step_only_flags key self :
  Forall2 R (children self) (children (navigation_step key self).1).
Proof.
  unfold navigation_step.
  destruct (key_is key Keys.TAB); [apply move_focus_only_flags|].
  destruct (key_is key Keys.SHIFT_TAB); [apply move_focus_only_flags|].
  destruct (key_is key Keys.ESC); apply Forall2_same.
Qed.

End OnlyFlags.

(** ** ListSelectionScreen: every key *)

Section ListScreenKeys.
Import Stated.

Lemma keeps_rows_refl w : keeps_rows w w.
Proof. destruct w; simpl; auto. Qed.

Lemma keeps_rows_trans a b c : keeps_rows a b -> keeps_rows b c -> keeps_rows a c.
Proof.
  destruct a, b, c; simpl; try tauto.
  intros [E1 H1] [E2 H2]. split; [congruence | auto].
Qed.

Lemma keeps_rows_flag b w : keeps_rows w (w_set_is_focused b w).
Proof. destruct w; simpl; auto. Qed.

Lemma rows_of_alter (b : bool) (rows : list ListRow.t) : forall i,
  map ListRow.task_list_obj (alter (w_set_is_focused b) i rows)
  = map ListRow.task_list_obj rows.
Proof.
  induction rows as [|r rows IH]; intros [|i]; try reflexivity.
  change (alter (w_set_is_focused b) (S i) (r :: rows))
    with (r :: alter (w_set_is_focused b) i rows).
  simpl. by rewrite IH.
Qed.

Lemma set_children_same {C} `{Widget C} (v : VerticalList.t C) :
  VerticalList.set_children (VerticalList.children v) v = v.
Proof. by destruct v. Qed.

(** The list widget of this screen takes any key without raising, and
    keeps the lists of its rows. *)
Lemma list_rows_input (v : VerticalList.t ListRow.t) (key : string) :
  0 <= VerticalList._focus_index v ->
  exists v' r,
    VerticalList.process_input v key = Ok (v', r, [])
    /\ rows_of v' = rows_of v
    /\ 0 <= VerticalList._focus_index v'
    /\ (key = Keys.DELETE -> v' = v /\ r = false).
Proof.
  intros Hidx.
  assert (Hmove : forall delta,
             exists v', VerticalList._move_focus delta v = Ok v'
                        /\ rows_of v' = rows_of v
                        /\ 0 <= VerticalList._focus_index v').
  { intros delta. destruct (decide (VerticalList.children v = [])) as [Hc|Hc].
    - exists v. unfold VerticalList._move_focus. by rewrite Hc.
    - destruct (move_focus_once v delta Hc Hidx)
        as (v' & Hmv & Hch & Hfi & _ & Hlen & _).
      exists v'. split; [exact Hmv|]. split.
      + unfold rows_of. rewrite Hch. by rewrite !rows_of_alter.
      + rewrite Hfi. apply Z.mod_pos_bound.
        unfold VerticalList.len. destruct (VerticalList.children v); [done|].
        simpl length. lia. }
  unfold VerticalList.process_input.
  destruct (negb (VerticalList.is_focused v)).
  { exists v, false. repeat split; auto. }
  destruct (key_is key Keys.UP) eqn:Hup.
  { destruct (Hmove (-1)) as (v' & -> & Hrows & Hidx').
    exists v', true. simpl. repeat split; auto;
      apply key_is_true in Hup; subst; discriminate. }
  destruct (key_is key Keys.DOWN) eqn:Hdown.
  { destruct (Hmove 1) as (v' & -> & Hrows & Hidx').
    exists v', true. simpl. repeat split; auto;
      apply key_is_true in Hdown; subst; discriminate. }
  destruct (decide (VerticalList.children v = [])) as [Hc|Hc].
  { rewrite Hc. exists v, false. repeat split; auto. }
  pose proof (focus_index_range v Hc Hidx) as Hrange.
  assert (Hbody :
            (do p <- py_pos (VerticalList.children v) (VerticalList.focus_index v);
             do selected_child <- py_get (VerticalList.children v)
                                    (VerticalList.focus_index v);
             do (child', r, cbs) <- w_process_input selected_child key;
             Ok (VerticalList.set_children
                   (<[p := child']> (VerticalList.children v)) v, r, cbs))
            = Ok (v, false, [])).
  { unfold py_get. rewrite (py_pos_in_range _ _ Hrange). simpl.
    destruct (VerticalList.children v !! Z.to_nat (VerticalList.focus_index v))
      as [row|] eqn:Hrow.
    - simpl. rewrite list_insert_id by exact Hrow.
      by rewrite set_children_same.
    - apply lookup_ge_None in Hrow. unfold VerticalList.len in Hrange. lia. }
  destruct (VerticalList.children v) as [|row rows] eqn:Hcs; [done|].
  rewrite Hbody. exists v, false. repeat split; auto.
Qed.

(** Every widget of this screen takes any key without raising. *)
Lemma widget_input (w : ScreenWidget) (key : string) :
  list_index_ok w ->
  exists w' r cbs,
    w_process_input w key = Ok (w', r, cbs)
    /\ keeps_rows w w'
    /\ (key = Keys.DELETE -> w' = w /\ r = false /\ cbs = []).
Proof.
  intros Hok. destruct w as [f|b|v].
  - exists (AFrame f), false, []. repeat split; auto.
  - simpl. destruct (Button.process_input b key) as [[b' r] cbs] eqn:Hb.
    exists (AButton b'), r, cbs. split; [reflexivity|]. split; [done|].
    intros ->. unfold Button.process_input in Hb.
    destruct (negb (Button.is_focused b)); simpl in Hb;
      injection Hb as <- <- <-; done.
  - simpl in Hok. destruct (list_rows_input v key Hok)
      as (v' & r & Hin & Hrows & Hidx & Hdel).
    exists (AList v'), r, []. simpl.
    split.
    + by rewrite Hin.
    + split; [done|]. intros Hk. destruct (Hdel Hk) as [-> ->]. done.
Qed.

Lemma Forall_index_ok_keeps (l l' : list ScreenWidget) :
  Forall2 keeps_rows l l' -> Forall list_index_ok l -> Forall list_index_ok l'.
Proof.
  induction 1 as [|w w' l l' Hk _ IH]; [done|].
  intros Hl. apply Forall_cons in Hl as [Hw Hl].
  constructor; [|by apply IH].
  destruct w, w'; simpl in *; try done. by apply Hk.
Qed.

Lemma screen_set_children_same (scr : TUIScreen.t ScreenWidget) :
  TUIScreen.set_children (TUIScreen.children scr) scr = scr.
Proof. by destruct scr. Qed.

(** The widgets of the screen take any key without raising. *)
Lemma screen_input (scr : TUIScreen.t ScreenWidget) (key : string) :
  Forall list_index_ok (TUIScreen.children scr) ->
  exists scr' cbs,
    TUIScreen.process_input key scr = Ok (scr', cbs)
    /\ Forall2 keeps_rows (TUIScreen.children scr) (TUIScreen.children scr')
    /\ (key = Keys.DELETE -> scr' = scr /\ cbs = []).
Proof.
  intros Hok.
  assert (Hoffer : exists scr1 handled cbs,
             TUIScreen.offer_to_focused key scr = Ok (scr1, handled, cbs)
             /\ Forall2 keeps_rows (TUIScreen.children scr) (TUIScreen.children scr1)
             /\ (key = Keys.DELETE -> scr1 = scr /\ handled = false /\ cbs = [])).
  { unfold TUIScreen.offer_to_focused.
    destruct (TUIScreen.get_focused_widget scr) as [fw|].
    2:{ exists scr, false, []. repeat split; auto.
        apply Forall2_same, keeps_rows_refl. }
    destruct (TUIScreen.children scr !! fw) as [w|] eqn:Hw.
    2:{ exists scr, false, []. repeat split; auto.
        apply Forall2_same, keeps_rows_refl. }
    assert (Hwok : list_index_ok w).
    { rewrite Forall_forall in Hok. apply Hok.
      by eapply list_elem_of_lookup_2. }
    destruct (widget_input w key Hwok) as (w' & r & cbs & -> & Hk & Hdel).
    simpl. eexists _, r, cbs. split; [reflexivity|]. split.
    - simpl. eapply Forall2_replace; eauto using keeps_rows_refl.
    - intros Hkey. destruct (Hdel Hkey) as (-> & -> & ->).
      rewrite list_insert_id by exact Hw.
      by rewrite screen_set_children_same. }
  destruct Hoffer as (scr1 & handled & cbs & Hoff & Hk1 & Hdel).
  unfold TUIScreen.process_input. rewrite Hoff. simpl.
  destruct handled.
  { exists scr1, cbs. split; [reflexivity|]. split; [exact Hk1|].
    intros Hkey. by destruct (Hdel Hkey) as (_ & ? & _). }
  destruct (TUIScreen.navigation_step key (TUIScreen.arrow_step key scr1))
    as [scr2 cbs'] eqn:Hnav.
  exists scr2, (cbs ++ cbs')%list. split; [reflexivity|]. split.
  - eapply (Forall2_chain keeps_rows keeps_rows_trans); [exact Hk1|].
    eapply (Forall2_chain keeps_rows keeps_rows_trans).
    + apply (arrow_step_only_flags keeps_rows keeps_rows_refl keeps_rows_trans
               keeps_rows_flag key scr1).
    + pose proof (navigation_step_only_flags keeps_rows keeps_rows_refl
                    keeps_rows_trans keeps_rows_flag key
                    (TUIScreen.arrow_step key scr1)) as Hn.
      by rewrite Hnav in Hn.
  - intros Hkey. destruct (Hdel Hkey) as (-> & _ & ->). subst key.
    vm_compute in Hnav. injection Hnav as <- <-. done.
Qed.

End ListScreenKeys.

Section ListScreenInvariant.
Import Stated.

Lemma foldl_add_child_rows (rows : list ListaDeTarefas.t) :
  forall v : VerticalList.t ListRow.t,
    VerticalList.children
      (foldl (fun v task_list =>
                VerticalList.add_child (ListSelectionScreen.row_of task_list) v)
             v rows)
    = (VerticalList.children v ++ map ListSelectionScreen.row_of rows)%list.
Proof.
  induction rows as [|r rows IH]; intros v; simpl.
  - by rewrite app_nil_r.
  - rewrite IH. simpl. by rewrite <- app_assoc.
Qed.

Lemma rows_of_row_of (listas : list ListaDeTarefas.t) :
  map ListRow.task_list_obj (map ListSelectionScreen.row_of listas) = listas.
Proof. induction listas as [|l ls IH]; simpl; [done | by rewrite IH]. Qed.

Lemma list_widget_lookup (self : ListSelectionScreen.t) v :
  ListSelectionScreen.list_widget self = Some v <->
  TUIScreen.children (ListSelectionScreen.screen self)
    !! ListSelectionScreen.list_widget_pos = Some (AList v).
Proof.
  unfold ListSelectionScreen.list_widget.
  destruct (TUIScreen.children (ListSelectionScreen.screen self)
              !! ListSelectionScreen.list_widget_pos) as [[f|b|v0]|];
    split; intros H; try discriminate; by injection H as ->.
Qed.

(** Reloading the rows shows the manager's lists and keeps the stored
    selection index. *)
Lemma refresh_lists_shows tm (self : ListSelectionScreen.t) v :
  ListSelectionScreen.list_widget self = Some v ->
  exists v',
    ListSelectionScreen.list_widget (ListSelectionScreen.refresh_lists tm self) = Some v'
    /\ TUIScreen.children
         (ListSelectionScreen.screen (ListSelectionScreen.refresh_lists tm self))
       = <[ListSelectionScreen.list_widget_pos := AList v']>
           (TUIScreen.children (ListSelectionScreen.screen self))
    /\ rows_of v' = GerenciadorTarefas.listas tm
    /\ VerticalList._focus_index v' = VerticalList._focus_index v.
Proof.
  intros Hv. unfold ListSelectionScreen.refresh_lists. rewrite Hv. cbv zeta.
  set (v' := foldl _ _ _).
  apply list_widget_lookup in Hv.
  exists v'. split; [|split; [reflexivity|split]].
  - apply list_widget_lookup. simpl. rewrite list_lookup_insert.
    case_decide as Hc; [reflexivity|]. exfalso. apply Hc. split; [reflexivity|].
    apply lookup_lt_is_Some. eauto.
  - unfold rows_of, v'. rewrite foldl_add_child_rows. simpl.
    apply rows_of_row_of.
  - unfold v'.
    by destruct (foldl_add_child_fields (GerenciadorTarefas.listas tm)
                   (VerticalList.set_children [] v)) as (_ & _ & -> & _).
Qed.

Lemma refresh_lists_inv tm tm0 (self : ListSelectionScreen.t) :
  list_screen_inv tm0 self ->
  list_screen_inv tm (ListSelectionScreen.refresh_lists tm self).
Proof.
  intros [Hok (v & Hv & _)].
  destruct (refresh_lists_shows tm self v Hv) as (v' & Hv' & Hch & Hrows & Hidx).
  split.
  - rewrite Hch. apply Forall_insert; [exact Hok|].
    simpl. rewrite Hidx. apply list_widget_lookup in Hv.
    rewrite Forall_forall in Hok.
    apply (Hok (AList v)). by eapply list_elem_of_lookup_2.
  - by exists v'.
Qed.

Lemma inv_set_dialog tm d (self : ListSelectionScreen.t) :
  list_screen_inv tm self -> list_screen_inv tm (ListSelectionScreen.set_dialog d self).
Proof. intros H. exact H. Qed.

Lemma inv_keeps tm (self : ListSelectionScreen.t) scr' :
  list_screen_inv tm self ->
  Forall2 keeps_rows (TUIScreen.children (ListSelectionScreen.screen self))
          (TUIScreen.children scr') ->
  list_screen_inv tm (ListSelectionScreen.set_screen scr' self).
Proof.
  intros [Hok (v & Hv & Hrows)] Hk. split.
  - simpl. by eapply Forall_index_ok_keeps.
  - apply list_widget_lookup in Hv.
    destruct (Forall2_lookup_l _ _ _ _ _ Hk Hv) as (w' & Hw' & Hkw).
    destruct w' as [f|b|v']; simpl in Hkw; try done.
    exists v'. split; [by apply list_widget_lookup|].
    destruct Hkw as [-> _]. exact Hrows.
Qed.

Lemma inv_index tm (self : ListSelectionScreen.t) v :
  list_screen_inv tm self ->
  ListSelectionScreen.list_widget self = Some v ->
  0 <= VerticalList._focus_index v /\ rows_of v = GerenciadorTarefas.listas tm.
Proof.
  intros [Hok (v0 & Hv0 & Hrows)] Hv.
  assert (v0 = v) as -> by congruence.
  split; [|exact Hrows].
  apply list_widget_lookup in Hv. rewrite Forall_forall in Hok.
  apply (Hok (AList v)). by eapply list_elem_of_lookup_2.
Qed.

(** The selected list is the list of the manager at the selected row. *)
Lemma get_selected tm (self : ListSelectionScreen.t) v :
  list_screen_inv tm self ->
  ListSelectionScreen.list_widget self = Some v ->
  ListSelectionScreen.get_selected_list_obj self
  = Ok (GerenciadorTarefas.listas tm !! Z.to_nat (VerticalList.focus_index v)).
Proof.
  intros Hinv Hv. destruct (inv_index tm self v Hinv Hv) as [Hidx Hrows].
  unfold ListSelectionScreen.get_selected_list_obj. rewrite Hv.
  rewrite <- Hrows. unfold rows_of.
  destruct (decide (VerticalList.children v = [])) as [Hc|Hc].
  { by rewrite Hc. }
  pose proof (focus_index_range v Hc Hidx) as Hrange.
  assert (Hget : py_get (VerticalList.children v) (VerticalList.focus_index v)
                 = match VerticalList.children v
                           !! Z.to_nat (VerticalList.focus_index v) with
                   | Some a => Ok a
                   | None => Raise IndexError
                   end).
  { unfold py_get. by rewrite (py_pos_in_range _ _ Hrange). }
  destruct (VerticalList.children v) as [|row rows] eqn:Hcs; [done|].
  rewrite Hget. rewrite list_lookup_fmap.
  destruct ((row :: rows) !! Z.to_nat (VerticalList.focus_index v)) as [r|] eqn:Hrow;
    [reflexivity|].
  apply lookup_ge_None in Hrow. unfold VerticalList.len in Hrange.
  rewrite Hcs in Hrange. lia.
Qed.

Lemma run_callback_inv cb tm (self : ListSelectionScreen.t) :
  list_screen_inv tm self ->
  exists self' tm' out,
    ListSelectionScreen.run_callback cb tm self = Ok (self', tm', out)
    /\ list_screen_inv tm' self'.
Proof.
  intros Hinv.
  destruct cb; try (by eexists _, _, _; split; [reflexivity | exact Hinv]).
  destruct Hinv as [Hok (v & Hv & Hrows)].
  assert (Hinv : list_screen_inv tm self) by (split; [exact Hok | by exists v]).
  - simpl. rewrite (get_selected tm self v Hinv Hv). simpl.
    destruct (GerenciadorTarefas.listas tm !! _) as [lista|].
    + destruct (GerenciadorTarefas.remover_lista_de_tarefas _ tm) as [tm' b].
      eexists _, _, _. split; [reflexivity|].
      apply inv_set_dialog. by eapply refresh_lists_inv.
    + eexists _, _, _. split; [reflexivity|]. by apply inv_set_dialog.
Qed.

Lemma run_callbacks_inv cbs : forall tm (self : ListSelectionScreen.t),
  list_screen_inv tm self ->
  exists self' tm' out,
    ListSelectionScreen.run_callbacks cbs tm self = Ok (self', tm', out)
    /\ list_screen_inv tm' self'.
Proof.
  induction cbs as [|cb cbs IH]; intros tm self Hinv.
  - by eexists _, _, _.
  - destruct (run_callback_inv cb tm self Hinv) as (self1 & tm1 & out1 & H1 & Hinv1).
    destruct (IH tm1 self1 Hinv1) as (self2 & tm2 & out2 & H2 & Hinv2).
    exists self2, tm2, (out1 ++ out2)%list. split; [|exact Hinv2].
    simpl. rewrite H1. simpl. rewrite H2. reflexivity.
Qed.

Lemma new_inv (width height : Z) tm :
  list_screen_inv tm (ListSelectionScreen.new width height tm).
Proof.
  unfold ListSelectionScreen.new. cbv zeta.
  set (self0 := ListSelectionScreen.mk _ None).
  assert (H0 : list_screen_inv tm (ListSelectionScreen.refresh_lists tm self0)).
  { apply (refresh_lists_inv tm (GerenciadorTarefas.mk [])). split.
    - simpl. repeat constructor. simpl. lia.
    - eexists. split; reflexivity. }
  apply inv_keeps; [exact H0|].
  apply (set_focus_by_index_only_flags keeps_rows keeps_rows_refl keeps_rows_trans
           keeps_rows_flag).
Qed.

(** X15: the list-selection screen takes every key without raising.  On
    a screen as its constructor builds it, whatever keys it has been
    given and whatever dialog it shows, [process_input] returns (what it
    asks of the application, a push or a pop, is returned to the caller),
    and afterwards the rows of the list widget are again the lists of
    the task manager, in the manager's order. *)
Theorem ListSelectionScreen_takes_every_key :
  (forall (width height : Z) (tm : GerenciadorTarefas.t),
      list_screen_inv tm (ListSelectionScreen.new width height tm))
  /\ (forall (key : string) (tm : GerenciadorTarefas.t) (self : ListSelectionScreen.t),
         list_screen_inv tm self ->
         exists self' tm' out,
           ListSelectionScreen.process_input key tm self = Ok (self', tm', out)
           /\ list_screen_inv tm' self').
Proof.
  split; [apply new_inv|].
  intros key tm self Hinv. unfold ListSelectionScreen.process_input.
  destruct (ListSelectionScreen.dialog self) as [d|] eqn:Hd.
  - destruct (dialog_process_input d key) as [d' cbs].
    apply run_callbacks_inv. by apply inv_set_dialog.
  - destruct (key_is key REFRESH).
    { eexists _, _, _. split; [reflexivity|]. by eapply refresh_lists_inv. }
    assert (Hdel : exists self1,
               (if key_is key Keys.DELETE
                then ListSelectionScreen.delete_selected_list tm self
                else Ok self) = Ok self1
               /\ ListSelectionScreen.screen self1 = ListSelectionScreen.screen self).
    { destruct (key_is key Keys.DELETE); [|by exists self].
      unfold ListSelectionScreen.delete_selected_list.
      destruct Hinv as [Hok (v & Hv & Hrows)].
      assert (Hinv : list_screen_inv tm self) by (split; [exact Hok | by exists v]).
      rewrite (get_selected tm self v Hinv Hv). simpl.
      destruct (GerenciadorTarefas.listas tm !! _); [|by exists self].
      destruct (Z.of_nat (length (GerenciadorTarefas.listas tm)) <=? 1);
        by eexists. }
    destruct Hdel as (self1 & -> & Hscr). simpl.
    destruct (screen_input (ListSelectionScreen.screen self1) key)
      as (scr' & cbs & -> & Hk & _).
    { rewrite Hscr. apply Hinv. }
    simpl. eexists _, _, _. split; [reflexivity|].
    apply inv_keeps; [|exact Hk].
    destruct Hinv as [Hok (v & Hv & Hrows)]. split.
    + by rewrite Hscr.
    + exists v. split; [|exact Hrows].
      apply list_widget_lookup. rewrite Hscr. by apply list_widget_lookup.
Qed.

Lemma ListSelectionScreen_takes_every_key_witness :
  let tm := GerenciadorTarefas.mk
              [ListaDeTarefas.mk 1 "Casa"; ListaDeTarefas.mk 2 "Trabalho"] in
  exists self' tm' out,
    ListSelectionScreen.process_input Keys.DELETE tm
      (ListSelectionScreen.new 80 24 tm) = Ok (self', tm', out)
    /\ list_screen_inv tm' self'.
Proof.
  intros tm.
  destruct ListSelectionScreen_takes_every_key as [Hnew Hkey].
  apply Hkey. apply Hnew.
Defined.

End ListScreenInvariant.

Section ListScreenDeletion.
Import Stated.

Lemma selected_row_exists tm (self : ListSelectionScreen.t) v :
  list_screen_inv tm self ->
  ListSelectionScreen.list_widget self = Some v ->
  GerenciadorTarefas.listas tm <> [] ->
  is_Some (GerenciadorTarefas.listas tm !! Z.to_nat (VerticalList.focus_index v)).
Proof.
  intros Hinv Hv Hne. destruct (inv_index tm self v Hinv Hv) as [Hidx Hrows].
  assert (Hc : VerticalList.children v <> []).
  { intros Hc. apply Hne. rewrite <- Hrows. unfold rows_of. by rewrite Hc. }
  pose proof (focus_index_range v Hc Hidx) as Hrange.
  apply lookup_lt_is_Some. rewrite <- Hrows. unfold rows_of.
  rewrite length_map. unfold VerticalList.len in Hrange. lia.
Qed.

(** X16: with no dialog open, DELETE changes neither the task manager
    nor any widget and asks nothing of the application; it opens the
    alert when the manager holds one list, the confirmation dialog (its
    confirm button selected) when it holds more, and nothing when it
    holds none. *)
Theorem delete_key_only_opens_a_dialog (tm : GerenciadorTarefas.t)
        (self : ListSelectionScreen.t) :
  list_screen_inv tm self ->
  ListSelectionScreen.dialog self = None ->
  ListSelectionScreen.process_input Keys.DELETE tm self
  = Ok (match GerenciadorTarefas.listas tm with
        | [] => self
        | [_] =>
            ListSelectionScreen.set_dialog
              (Some (Alert (AlertDialog.mk _cancel_delete))) self
        | _ =>
            ListSelectionScreen.set_dialog
              (Some (Confirmation
                       (ConfirmationDialog.mk _perform_actual_delete _cancel_delete 0)))
              self
        end, tm, []).
Proof.
  intros Hinv Hd.
  destruct (Hinv) as [Hok (v & Hv & Hrows)].
  destruct (screen_input (ListSelectionScreen.screen self) Keys.DELETE Hok)
    as (scr' & cbs & Hscr & _ & Hsame).
  destruct (Hsame eq_refl) as [-> ->].
  unfold ListSelectionScreen.process_input. rewrite Hd.
  change (key_is Keys.DELETE REFRESH) with false.
  change (key_is Keys.DELETE Keys.DELETE) with true. cbv iota.
  unfold ListSelectionScreen.delete_selected_list.
  rewrite (get_selected tm self v Hinv Hv).
  destruct (GerenciadorTarefas.listas tm) as [|l1 ls] eqn:Hl.
  - simpl. rewrite Hscr. simpl. by destruct self.
  - destruct (selected_row_exists tm self v Hinv Hv) as [lista Hsel];
      [by rewrite Hl|].
    rewrite Hl in Hsel. rewrite Hsel. simpl bind.
    destruct ls as [|l2 ls].
    + change (Z.of_nat (length [l1]) <=? 1) with true. cbv iota.
      simpl. rewrite Hscr. simpl. by destruct self.
    + assert (Hlen : (Z.of_nat (length (l1 :: l2 :: ls)) <=? 1) = false)
        by (apply Z.leb_gt; simpl length; lia).
      change (Z.of_nat (S (length (l2 :: ls))))
        with (Z.of_nat (length (l1 :: l2 :: ls))).
      rewrite Hlen. simpl. rewrite Hscr. simpl. by destruct self.
Qed.

(** X17: ENTER on the confirmation dialog, with the confirm button
    selected, removes from the manager the list shown at the selected row
    and no other, closes the dialog, reloads the rows from the manager
    and keeps the stored selection index; with the cancel button
    selected it only closes the dialog. *)
Theorem confirmed_delete_removes_selected_list (tm : GerenciadorTarefas.t)
        (self : ListSelectionScreen.t) (v : VerticalList.t ListRow.t)
        (lista : ListaDeTarefas.t) (focus : Z) :
  list_screen_inv tm self ->
  ListSelectionScreen.dialog self
  = Some (Confirmation
            (ConfirmationDialog.mk _perform_actual_delete _cancel_delete focus)) ->
  ListSelectionScreen.list_widget self = Some v ->
  GerenciadorTarefas.listas tm !! Z.to_nat (VerticalList.focus_index v) = Some lista ->
  (focus = 0 ->
   exists self' v',
     ListSelectionScreen.process_input Keys.ENTER tm self
     = Ok (self',
           (GerenciadorTarefas.remover_lista_de_tarefas (ListaDeTarefas.id lista) tm).1,
           [])
     /\ ListSelectionScreen.dialog self' = None
     /\ ListSelectionScreen.list_widget self' = Some v'
     /\ rows_of v'
        = GerenciadorTarefas.listas
            (GerenciadorTarefas.remover_lista_de_tarefas (ListaDeTarefas.id lista) tm).1
     /\ VerticalList._focus_index v' = VerticalList._focus_index v)
  /\ (focus <> 0 ->
      ListSelectionScreen.process_input Keys.ENTER tm self
      = Ok (ListSelectionScreen.set_dialog None self, tm, [])).
Proof.
  intros Hinv Hd Hv Hsel. unfold ListSelectionScreen.process_input. rewrite Hd.
  unfold dialog_process_input, ConfirmationDialog.process_input.
  change (key_is Keys.ENTER Keys.LEFT || key_is Keys.ENTER Keys.RIGHT
          || key_is Keys.ENTER Keys.TAB) with false.
  change (key_is Keys.ENTER Keys.ENTER) with true. cbv iota.
  split.
  - intros ->. simpl.
    change (ListSelectionScreen.get_selected_list_obj
              (ListSelectionScreen.set_dialog
                 (Some (Confirmation
                          (ConfirmationDialog.mk _perform_actual_delete
                             _cancel_delete 0))) self))
      with (ListSelectionScreen.get_selected_list_obj self).
    rewrite (get_selected tm self v Hinv Hv), Hsel. simpl.
    destruct (GerenciadorTarefas.remover_lista_de_tarefas (ListaDeTarefas.id lista) tm)
      as [tm' b] eqn:Hrem.
    destruct (refresh_lists_shows tm'
                (ListSelectionScreen.set_dialog
                   (Some (Confirmation
                            (ConfirmationDialog.mk _perform_actual_delete
                               _cancel_delete 0))) self) v Hv)
      as (v' & Hv' & _ & Hrows' & Hidx').
    eexists _, v'. split; [reflexivity|]. simpl. repeat split; assumption.
  - intros Hf. apply Z.eqb_neq in Hf. simpl. rewrite Hf. simpl.
    by destruct self.
Qed.

Lemma delete_key_only_opens_a_dialog_witness :
  let tm := GerenciadorTarefas.mk
              [ListaDeTarefas.mk 1 "Casa"; ListaDeTarefas.mk 2 "Trabalho"] in
  ListSelectionScreen.dialog
    (ListSelectionScreen.set_dialog
       (Some (Confirmation
                (ConfirmationDialog.mk _perform_actual_delete _cancel_delete 0)))
       (ListSelectionScreen.new 80 24 tm))
  = Some (Confirmation
            (ConfirmationDialog.mk _perform_actual_delete _cancel_delete 0))
  /\ ListSelectionScreen.process_input Keys.DELETE tm
       (ListSelectionScreen.new 80 24 tm)
     = Ok (ListSelectionScreen.set_dialog
             (Some (Confirmation
                      (ConfirmationDialog.mk _perform_actual_delete _cancel_delete 0)))
             (ListSelectionScreen.new 80 24 tm), tm, []).
Proof.
  intros tm. split; [reflexivity|].
  apply (delete_key_only_opens_a_dialog tm (ListSelectionScreen.new 80 24 tm)).
  - apply new_inv.
  - reflexivity.
Defined.

Lemma confirmed_delete_removes_selected_list_witness :
  let tm := GerenciadorTarefas.mk
              [ListaDeTarefas.mk 1 "Casa"; ListaDeTarefas.mk 2 "Trabalho"] in
  let self :=
    ListSelectionScreen.set_dialog
      (Some (Confirmation
               (ConfirmationDialog.mk _perform_actual_delete _cancel_delete 0)))
      (ListSelectionScreen.new 80 24 tm) in
  exists self' v',
    ListSelectionScreen.process_input Keys.ENTER tm self
    = Ok (self', GerenciadorTarefas.mk [ListaDeTarefas.mk 2 "Trabalho"], [])
    /\ ListSelectionScreen.dialog self' = None
    /\ ListSelectionScreen.list_widget self' = Some v'
    /\ rows_of v' = [ListaDeTarefas.mk 2 "Trabalho"].
Proof.
  intros tm self.
  destruct (ListSelectionScreen.list_widget self) as [v|] eqn:Hv;
    [|vm_compute in Hv; discriminate].
  assert (Hsel : GerenciadorTarefas.listas tm !! Z.to_nat (VerticalList.focus_index v)
                 = Some (ListaDeTarefas.mk 1 "Casa")).
  { vm_compute in Hv. injection Hv as <-. vm_compute. reflexivity. }
  destruct (confirmed_delete_removes_selected_list tm self v
              (ListaDeTarefas.mk 1 "Casa") 0) as [H _].
  - apply inv_set_dialog, new_inv.
  - reflexivity.
  - exact Hv.
  - exact Hsel.
  - destruct (H eq_refl) as (self' & v' & Hp & Hd & Hv' & Hrows & _).
    exists self', v'. repeat split; assumption.
Defined.

End ListScreenDeletion.

(** ** libgerenciador.py: the ids the manager gives *)

Section ManagerLists.
Import LibGerenciador StatedManager.

Lemma submseteq_NoDup_l {A} (l k : list A) : l ⊆+ k -> NoDup k -> NoDup l.
Proof.
  intros Hsub Hnd. apply submseteq_sublist_l in Hsub as (l2 & Hsl & Hperm).
  apply (sublist_NoDup _ l2); [|exact Hsl]. by rewrite Hperm.
Qed.

Lemma submseteq_Forall_l {A} (P : A -> Prop) (l k : list A) :
  l ⊆+ k -> Forall P k -> Forall P l.
Proof.
  intros Hsub HP. rewrite Forall_forall in *. intros x Hx.
  apply HP. by eapply elem_of_submseteq.
Qed.

(** Ids that are taken from ids in use, with a counter that did not
    go down, are still distinct and below the counter. *)
Lemma fresh_below_sub (next next' : Z) (ids ids' : list Z) :
  fresh_below next ids -> ids' ⊆+ ids -> next <= next' -> fresh_below next' ids'.
Proof.
  intros [Hnd Hlt] Hsub Hle. split.
  - by eapply submseteq_NoDup_l.
  - eapply submseteq_Forall_l; [exact Hsub|].
    eapply Forall_impl; [exact Hlt|]. intros i Hi. simpl in Hi. lia.
Qed.

(** The id the counter gives is new. *)
Lemma fresh_below_new (next next' : Z) (ids ids' : list Z) :
  fresh_below next ids -> ids' ≡ₚ (ids ++ [next])%list -> next < next' ->
  fresh_below next' ids'.
Proof.
  intros [Hnd Hlt] Hperm Hle. split.
  - rewrite Hperm. apply NoDup_app. split; [exact Hnd|]. split.
    + intros x Hx Hin. apply list_elem_of_singleton in Hin. subst x.
      rewrite Forall_forall in Hlt. specialize (Hlt _ Hx). simpl in Hlt. lia.
    + apply NoDup_singleton.
  - rewrite Hperm. apply Forall_app. split.
    + eapply Forall_impl; [exact Hlt|]. intros i Hi. simpl in Hi. lia.
    + constructor; [lia | constructor].
Qed.

Lemma alter_middle {A} (f : A -> A) (l : list A) : forall i x,
  l !! i = Some x ->
  l = (take i l ++ x :: drop (S i) l)%list
  /\ alter f i l = (take i l ++ f x :: drop (S i) l)%list.
Proof.
  induction l as [|a l IH]; intros [|i] x Hx; try done.
  - simpl in Hx. injection Hx as ->. by split.
  - simpl in Hx. destruct (IH i x Hx) as [H1 H2]. split.
    + simpl. by rewrite <- H1.
    + change (alter f (S i) (a :: l)) with (a :: alter f i l).
      simpl. by rewrite H2.
Qed.

Lemma all_tasks_middle (before after : list ListaDeTarefas.t) (l : ListaDeTarefas.t) :
  GerenciadorTarefas.all_tasks (before ++ l :: after)
  = (GerenciadorTarefas.all_tasks before ++ ListaDeTarefas.tarefas l
     ++ GerenciadorTarefas.all_tasks after)%list.
Proof.
  unfold GerenciadorTarefas.all_tasks. rewrite map_app, concat_app. reflexivity.
Qed.

Lemma ids_middle (before after : list ListaDeTarefas.t) (l l' : ListaDeTarefas.t) :
  ListaDeTarefas.id l' = ListaDeTarefas.id l ->
  map ListaDeTarefas.id (before ++ l' :: after)
  = map ListaDeTarefas.id (before ++ l :: after).
Proof. intros H. rewrite !map_app. simpl. by rewrite H. Qed.

(** A change of the tasks of one list, seen on the ids. *)
Lemma alter_tarefas (g : list Tarefa.t -> list Tarefa.t) (i : nat)
      (listas : list ListaDeTarefas.t) (l : ListaDeTarefas.t) :
  listas !! i = Some l ->
  exists before after,
    listas = (before ++ l :: after)%list
    /\ alter (fun l => ListaDeTarefas.set_tarefas (g (ListaDeTarefas.tarefas l)) l) i listas
       = (before ++ ListaDeTarefas.set_tarefas (g (ListaDeTarefas.tarefas l)) l
          :: after)%list
    /\ map ListaDeTarefas.id
           (alter (fun l => ListaDeTarefas.set_tarefas (g (ListaDeTarefas.tarefas l)) l)
                  i listas)
       = map ListaDeTarefas.id listas
    /\ GerenciadorTarefas.all_tasks
         (alter (fun l => ListaDeTarefas.set_tarefas (g (ListaDeTarefas.tarefas l)) l)
                i listas)
       = (GerenciadorTarefas.all_tasks before ++ g (ListaDeTarefas.tarefas l)
          ++ GerenciadorTarefas.all_tasks after)%list
    /\ GerenciadorTarefas.all_tasks listas
       = (GerenciadorTarefas.all_tasks before ++ ListaDeTarefas.tarefas l
          ++ GerenciadorTarefas.all_tasks after)%list.
Proof.
  intros Hl.
  destruct (alter_middle
              (fun l => ListaDeTarefas.set_tarefas (g (ListaDeTarefas.tarefas l)) l)
              listas i l Hl) as [Hsplit Halter].
  exists (take i listas), (drop (S i) listas).
  split; [exact Hsplit|]. split; [exact Halter|]. split; [|split].
  - rewrite Halter. rewrite Hsplit at 3. by apply ids_middle.
  - rewrite Halter. by rewrite all_tasks_middle.
  - rewrite Hsplit at 1. by rewrite all_tasks_middle.
Qed.

Lemma find_lista_Some (lista_id : Z) (self : GerenciadorTarefas.t) i l :
  GerenciadorTarefas.find_lista lista_id self = Some (i, l) ->
  GerenciadorTarefas.listas self !! i = Some l /\ ListaDeTarefas.id l = lista_id.
Proof.
  unfold GerenciadorTarefas.find_lista. intros H.
  apply list_find_Some in H as (H1 & H2 & _). by split.
Qed.

End ManagerLists.

Section ManagerIds.
Import LibGerenciador StatedManager.
Variable lower : string -> string.

Lemma map_alter_same {A B} (h : A -> B) (f : A -> A) (l : list A) : forall i,
  (forall x, h (f x) = h x) -> map h (alter f i l) = map h l.
Proof.
  induction l as [|a l IH]; intros [|i] Hf; try reflexivity.
  - change (alter f 0%nat (a :: l)) with (f a :: l). simpl. by rewrite Hf.
  - change (alter f (S i) (a :: l)) with (a :: alter f i l). simpl. by rewrite IH.
Qed.

Lemma all_tasks_alter_same (f : ListaDeTarefas.t -> ListaDeTarefas.t)
      (listas : list ListaDeTarefas.t) (i : nat) :
  (forall l, ListaDeTarefas.tarefas (f l) = ListaDeTarefas.tarefas l) ->
  GerenciadorTarefas.all_tasks (alter f i listas) = GerenciadorTarefas.all_tasks listas.
Proof.
  intros Hf. unfold GerenciadorTarefas.all_tasks. f_equal.
  by apply map_alter_same.
Qed.

Lemma all_tasks_snoc (listas : list ListaDeTarefas.t) (l : ListaDeTarefas.t) :
  GerenciadorTarefas.all_tasks (listas ++ [l])
  = (GerenciadorTarefas.all_tasks listas ++ ListaDeTarefas.tarefas l)%list.
Proof.
  unfold GerenciadorTarefas.all_tasks. rewrite map_app, concat_app. simpl.
  by rewrite app_nil_r.
Qed.

Lemma all_tasks_filter (P : ListaDeTarefas.t -> Prop) `{forall l, Decision (P l)}
      (listas : list ListaDeTarefas.t) :
  GerenciadorTarefas.all_tasks (filter P listas)
  `sublist_of` GerenciadorTarefas.all_tasks listas.
Proof.
  induction listas as [|l ls IH]; [constructor|].
  rewrite filter_cons. unfold GerenciadorTarefas.all_tasks in *.
  destruct (decide (P l)); simpl.
  - by apply sublist_app.
  - by apply sublist_inserts_l.
Qed.

(** A change of the tasks of one list that only drops tasks. *)
Lemma ids_ok_drop (g : list Tarefa.t -> list Tarefa.t) (i : nat)
      (self : GerenciadorTarefas.t) :
  (forall ts, g ts `sublist_of` ts) ->
  ids_ok self ->
  ids_ok (GerenciadorTarefas.set_listas
            (alter (fun l => ListaDeTarefas.set_tarefas (g (ListaDeTarefas.tarefas l)) l)
                   i (GerenciadorTarefas.listas self))
            self).
Proof.
  intros Hg [Hl Ht].
  destruct (GerenciadorTarefas.listas self !! i) as [l|] eqn:Hi.
  - destruct (alter_tarefas g i _ l Hi) as (before & after & _ & _ & Hids & Hall & Hold).
    split; simpl.
    + by rewrite Hids.
    + eapply fresh_below_sub; [exact Ht| |reflexivity].
      apply sublist_submseteq. rewrite Hall, Hold.
      apply fmap_sublist. apply sublist_app; [reflexivity|].
      apply sublist_app; [apply Hg | reflexivity].
  - assert (Hsame : alter (fun l => ListaDeTarefas.set_tarefas
                                      (g (ListaDeTarefas.tarefas l)) l)
                          i (GerenciadorTarefas.listas self)
                    = GerenciadorTarefas.listas self).
    { apply list_eq. intros j. rewrite list_lookup_alter.
      case_decide as Hij; [|reflexivity]. subst j. rewrite Hi. reflexivity. }
    rewrite Hsame. by destruct self.
Qed.

(** A change of one task of one list that keeps the id of the task. *)
Lemma ids_assign (f : Tarefa.t -> Tarefa.t) (i k : nat)
      (listas : list ListaDeTarefas.t) :
  (forall t, Tarefa.id (f t) = Tarefa.id t) ->
  map ListaDeTarefas.id
      (alter (fun l => ListaDeTarefas.set_tarefas
                         (alter f k (ListaDeTarefas.tarefas l)) l) i listas)
  = map ListaDeTarefas.id listas
  /\ map Tarefa.id
         (GerenciadorTarefas.all_tasks
            (alter (fun l => ListaDeTarefas.set_tarefas
                               (alter f k (ListaDeTarefas.tarefas l)) l) i listas))
     = map Tarefa.id (GerenciadorTarefas.all_tasks listas).
Proof.
  intros Hf. split; [by apply map_alter_same|].
  unfold GerenciadorTarefas.all_tasks.
  revert i. induction listas as [|l ls IH]; intros [|i]; try reflexivity.
  - change (alter ?g 0%nat (l :: ls)) with (g l :: ls). simpl.
    rewrite !map_app. f_equal. by apply map_alter_same.
  - change (alter ?g (S i) (l :: ls)) with (l :: alter g i ls). simpl.
    rewrite !map_app. f_equal. apply IH.
Qed.

(** Appending to one list a task that carries the next id. *)
Lemma ids_ok_append (i : nat) (l : ListaDeTarefas.t) (tarefa : Tarefa.t)
      (listas : list ListaDeTarefas.t) (next_lista next next' : Z) :
  listas !! i = Some l ->
  Tarefa.id tarefa = next ->
  next < next' ->
  fresh_below next_lista (map ListaDeTarefas.id listas) ->
  fresh_below next (map Tarefa.id (GerenciadorTarefas.all_tasks listas)) ->
  ids_ok (GerenciadorTarefas.mk
            (alter (fun l => ListaDeTarefas.set_tarefas
                               (ListaDeTarefas.tarefas l ++ [tarefa]) l) i listas)
            next_lista next').
Proof.
  intros Hi Hid Hlt Hl Ht.
  destruct (alter_tarefas (fun ts => (ts ++ [tarefa])%list) i _ l Hi)
    as (before & after & _ & _ & Hids & Hall & Hold).
  split; simpl.
  - by rewrite Hids.
  - eapply fresh_below_new; [exact Ht| |exact Hlt].
    rewrite Hall, Hold, !map_app. simpl. rewrite Hid.
    rewrite <- !app_assoc. do 2 apply Permutation_app_head.
    apply (Permutation_cons_append _ next).
Qed.

Lemma criar_lista_ids_ok titulo (self : GerenciadorTarefas.t) :
  ids_ok self -> ids_ok (GerenciadorTarefas.criar_lista_de_tarefas lower titulo self).1.
Proof.
  intros [Hl Ht]. unfold GerenciadorTarefas.criar_lista_de_tarefas.
  destruct (existsb _ _); [by split|]. split; simpl.
  - eapply fresh_below_new; [exact Hl| |lia]. by rewrite map_app.
  - by rewrite all_tasks_snoc, app_nil_r.
Qed.

Lemma editar_lista_ids_ok lista_id novo_titulo (self : GerenciadorTarefas.t) :
  ids_ok self ->
  ids_ok (GerenciadorTarefas.editar_lista_de_tarefas lower lista_id novo_titulo self).1.
Proof.
  intros [Hl Ht]. unfold GerenciadorTarefas.editar_lista_de_tarefas.
  destruct (existsb _ _); [by split|].
  destruct (GerenciadorTarefas.find_lista lista_id self) as [[i l]|]; [|by split].
  split; simpl.
  - by rewrite map_alter_same.
  - by rewrite all_tasks_alter_same.
Qed.

Lemma remover_lista_ids_ok lista_id (self : GerenciadorTarefas.t) :
  ids_ok self -> ids_ok (GerenciadorTarefas.remover_lista_de_tarefas lista_id self).1.
Proof.
  intros [Hl Ht]. unfold GerenciadorTarefas.remover_lista_de_tarefas.
  destruct (_ <=? 1); [by split|]. split; simpl.
  - eapply fresh_below_sub; [exact Hl| |reflexivity].
    apply sublist_submseteq, fmap_sublist, sublist_filter.
  - eapply fresh_below_sub; [exact Ht| |reflexivity].
    apply sublist_submseteq, fmap_sublist, all_tasks_filter.
Qed.

(** A counter that moved up alone leaves the ids distinct. *)
Lemma ids_ok_counter (self : GerenciadorTarefas.t) :
  ids_ok self ->
  ids_ok (GerenciadorTarefas.set__proximo_id_tarefa
            (GerenciadorTarefas._proximo_id_tarefa self + 1) self).
Proof.
  intros [Hl Ht]. split; [exact Hl|]. simpl.
  eapply fresh_below_sub; [exact Ht | reflexivity | lia].
Qed.

Lemma criar_tarefa_ids_ok fromisoformat lista_id kwargs (self : GerenciadorTarefas.t) :
  ids_ok self ->
  ids_ok (GerenciadorTarefas.criar_tarefa fromisoformat lista_id kwargs self).1.
Proof.
  intros Hok. pose proof Hok as [Hl Ht]. unfold GerenciadorTarefas.criar_tarefa.
  destruct (GerenciadorTarefas.find_lista lista_id self) as [[i l]|] eqn:Hfind;
    [|by split].
  apply find_lista_Some in Hfind as [Hi _]. cbv zeta.
  destruct (kw_outros kwargs); [|by apply ids_ok_counter].
  assert (Happend : forall data,
             ids_ok
               (GerenciadorTarefas.set_listas
                  (alter
                     (fun l =>
                        ListaDeTarefas.set_tarefas
                          (ListaDeTarefas.tarefas l
                           ++ [Tarefa.mk (GerenciadorTarefas._proximo_id_tarefa self)
                                 (default EmptyString (kw_titulo kwargs))
                                 (default EmptyString (kw_nota kwargs))
                                 data
                                 (default [] (kw_tags kwargs))
                                 (default SEM_PRIORIDADE (kw_prioridade kwargs))
                                 (default NENHUMA (kw_repeticao kwargs))
                                 (default false (kw_concluida kwargs))]) l)
                     i
                     (GerenciadorTarefas.listas
                        (GerenciadorTarefas.set__proximo_id_tarefa
                           (GerenciadorTarefas._proximo_id_tarefa self + 1) self)))
                  (GerenciadorTarefas.set__proximo_id_tarefa
                     (GerenciadorTarefas._proximo_id_tarefa self + 1) self))).
  { intros data.
    apply (ids_ok_append i l _ _ _ (GerenciadorTarefas._proximo_id_tarefa self));
      [exact Hi | reflexivity | simpl; lia | exact Hl | exact Ht]. }
  destruct (default (DataDate date_1970) (kw_data kwargs)) as [d|s0].
  - apply Happend.
  - destruct (fromisoformat s0) as [d|]; [apply Happend | by apply ids_ok_counter].
Qed.

Lemma py_remove_perm (t : Tarefa.t) (ts : list Tarefa.t) :
  t ∈ ts -> (py_remove t ts ++ [t])%list ≡ₚ ts.
Proof.
  induction ts as [|a ts IH]; intros Hin; [by apply elem_of_nil in Hin|].
  simpl. destruct (decide (a = t)) as [->|Hne].
  - symmetry. apply Permutation_cons_append.
  - apply elem_of_cons in Hin as [->|Hin]; [done|].
    simpl. by rewrite IH.
Qed.

Lemma mover_tarefa_tasks tarefa_id origem destino (self : GerenciadorTarefas.t) :
  map ListaDeTarefas.id
      (GerenciadorTarefas.listas
         (GerenciadorTarefas.mover_tarefa tarefa_id origem destino self).1)
  = map ListaDeTarefas.id (GerenciadorTarefas.listas self)
  /\ GerenciadorTarefas.all_tasks
       (GerenciadorTarefas.listas
          (GerenciadorTarefas.mover_tarefa tarefa_id origem destino self).1)
     ≡ₚ GerenciadorTarefas.all_tasks (GerenciadorTarefas.listas self)
  /\ GerenciadorTarefas._proximo_id_lista
       (GerenciadorTarefas.mover_tarefa tarefa_id origem destino self).1
     = GerenciadorTarefas._proximo_id_lista self
  /\ GerenciadorTarefas._proximo_id_tarefa
       (GerenciadorTarefas.mover_tarefa tarefa_id origem destino self).1
     = GerenciadorTarefas._proximo_id_tarefa self.
Proof.
  unfold GerenciadorTarefas.mover_tarefa.
  destruct (origem =? destino); [done|].
  destruct (GerenciadorTarefas.find_lista origem self) as [[i lo]|] eqn:Ho; [|done].
  destruct (GerenciadorTarefas.find_lista destino self) as [[j ld]|] eqn:Hd; [|done].
  destruct (GerenciadorTarefas.find_tarefa tarefa_id lo) as [[k t]|] eqn:Ht; [|done].
  cbv zeta. simpl.
  apply find_lista_Some in Ho as [Hi _]. apply find_lista_Some in Hd as [Hj _].
  unfold GerenciadorTarefas.find_tarefa in Ht.
  apply list_find_Some in Ht as (Hk & _ & _).
  assert (Hin : t ∈ ListaDeTarefas.tarefas lo) by (by eapply list_elem_of_lookup_2).
  destruct (alter_tarefas (py_remove t) i _ lo Hi)
    as (before & after & _ & _ & Hids1 & Hall1 & Hold1).
  set (listas1 := alter _ i (GerenciadorTarefas.listas self)) in *.
  assert (Hj1 : is_Some (listas1 !! j)).
  { apply lookup_lt_is_Some. unfold listas1. rewrite length_alter.
    apply lookup_lt_is_Some. eauto. }
  destruct Hj1 as [ld1 Hj1].
  destruct (alter_tarefas (fun ts => (ts ++ [t])%list) j _ ld1 Hj1)
    as (before2 & after2 & _ & _ & Hids2 & Hall2 & Hold2).
  split; [by rewrite Hids2, Hids1|]. split; [|done].
  rewrite Hall2.
  transitivity (GerenciadorTarefas.all_tasks listas1 ++ [t])%list.
  { rewrite Hold2. rewrite <- !app_assoc. do 2 apply Permutation_app_head.
    apply (Permutation_cons_append _ t). }
  rewrite Hall1, Hold1. rewrite <- !app_assoc. apply Permutation_app_head.
  rewrite (Permutation_app_comm (GerenciadorTarefas.all_tasks after) [t]).
  rewrite app_assoc. apply Permutation_app_tail. by apply py_remove_perm.
Qed.

Lemma mover_tarefa_ids_ok tarefa_id origem destino (self : GerenciadorTarefas.t) :
  ids_ok self ->
  ids_ok (GerenciadorTarefas.mover_tarefa tarefa_id origem destino self).1.
Proof.
  intros [Hl Ht].
  destruct (mover_tarefa_tasks tarefa_id origem destino self)
    as (Hids & Hperm & Hnl & Hnt).
  split.
  - rewrite Hids, Hnl. exact Hl.
  - rewrite Hnt. eapply fresh_below_sub; [exact Ht| |reflexivity].
    apply Permutation_submseteq. by rewrite Hperm.
Qed.

Lemma remover_tarefa_ids_ok lista_id tarefa_id (self : GerenciadorTarefas.t) :
  ids_ok self -> ids_ok (GerenciadorTarefas.remover_tarefa lista_id tarefa_id self).
Proof.
  intros Hok. unfold GerenciadorTarefas.remover_tarefa.
  destruct (GerenciadorTarefas.find_lista lista_id self) as [[i l]|]; [|exact Hok].
  apply (ids_ok_drop (filter (fun t => Tarefa.id t <> tarefa_id))); [|exact Hok].
  intros ts. apply sublist_filter.
Qed.

Lemma all_tasks_concluidas (listas : list ListaDeTarefas.t) :
  GerenciadorTarefas.all_tasks
    (map (fun lista =>
            ListaDeTarefas.set_tarefas
              (filter (fun t => Tarefa.concluida t = false) (ListaDeTarefas.tarefas lista))
              lista) listas)
  = filter (fun t => Tarefa.concluida t = false) (GerenciadorTarefas.all_tasks listas).
Proof.
  unfold GerenciadorTarefas.all_tasks.
  induction listas as [|l ls IH]; [reflexivity|].
  simpl. rewrite filter_app. by rewrite IH.
Qed.

Lemma remover_tarefas_concluidas_ids_ok (self : GerenciadorTarefas.t) :
  ids_ok self -> ids_ok (GerenciadorTarefas.remover_tarefas_concluidas self).
Proof.
  intros [Hl Ht]. unfold GerenciadorTarefas.remover_tarefas_concluidas.
  split; simpl.
  - rewrite map_map. simpl. exact Hl.
  - rewrite all_tasks_concluidas.
    eapply fresh_below_sub; [exact Ht| |reflexivity].
    apply sublist_submseteq, fmap_sublist, sublist_filter.
Qed.

End ManagerIds.

Section ManagerToggle.
Import LibGerenciador StatedManager.

Lemma fresh_below_assign (f : Tarefa.t -> Tarefa.t) (i k : nat)
      (listas : list ListaDeTarefas.t) (next_lista next : Z) :
  (forall t, Tarefa.id (f t) = Tarefa.id t) ->
  fresh_below next_lista (map ListaDeTarefas.id listas)
  /\ fresh_below next (map Tarefa.id (GerenciadorTarefas.all_tasks listas)) ->
  fresh_below next_lista
    (map ListaDeTarefas.id
         (alter (fun l => ListaDeTarefas.set_tarefas
                            (alter f k (ListaDeTarefas.tarefas l)) l) i listas))
  /\ fresh_below next
       (map Tarefa.id
            (GerenciadorTarefas.all_tasks
               (alter (fun l => ListaDeTarefas.set_tarefas
                                  (alter f k (ListaDeTarefas.tarefas l)) l) i listas))).
Proof.
  intros Hf [Hl Ht]. destruct (ids_assign f i k listas Hf) as [-> ->]. by split.
Qed.

Lemma toggle_ids_ok hoje lista_id tarefa_id (self : GerenciadorTarefas.t) :
  ids_ok self ->
  ids_ok (GerenciadorTarefas.toggle_tarefa_concluida hoje lista_id tarefa_id self).1.
Proof.
  intros Hok. unfold GerenciadorTarefas.toggle_tarefa_concluida.
  destruct (GerenciadorTarefas.find_lista lista_id self) as [[i l]|] eqn:Hfind;
    [|exact Hok].
  destruct (GerenciadorTarefas.find_tarefa tarefa_id l) as [[k ta]|]; [|exact Hok].
  apply find_lista_Some in Hfind as [Hi _].
  cbv beta zeta.
  destruct (Tarefa.concluida ta); simpl negb; cbv iota.
  { apply (fresh_below_assign (Tarefa.set_concluida false) i k); [done | exact Hok]. }
  pose proof (fresh_below_assign (Tarefa.set_concluida true) i k _ _ _
                (fun _ => eq_refl) Hok) as Hok1.
  destruct (bool_decide _); simpl negb; cbv iota; [exact Hok1|].
  destruct (GerenciadorTarefas.proxima_data _ _ _) as [data|e].
  - simpl.
    pose proof (fresh_below_assign (Tarefa.set_repeticao NENHUMA) i k _ _ _
                  (fun _ => eq_refl) Hok1) as [Hl2 Ht2].
    eapply (ids_ok_append i); [| |
      | exact Hl2 | exact Ht2].
    + rewrite !list_lookup_alter_eq, Hi. reflexivity.
    + reflexivity.
    + simpl. lia.
  - destruct Hok1 as [Hl1 Ht1]. split; simpl; [exact Hl1|].
    eapply fresh_below_sub; [exact Ht1 | reflexivity | lia].
Qed.

End ManagerToggle.

Section ManagerInvariant.
Import LibGerenciador StatedManager.
Variable lower : string -> string.
Variable fromisoformat : string -> option Date.

Lemma py_max_bound (rest : list Z) : forall first x,
  x = first \/ x ∈ rest -> x <= py_max first rest.
Proof.
  unfold py_max. induction rest as [|r rest IH]; intros first x Hx; simpl.
  - destruct Hx as [->|Hx]; [lia | by apply elem_of_nil in Hx].
  - destruct Hx as [->|Hx].
    + etransitivity; [|apply IH; by left]. lia.
    + apply elem_of_cons in Hx as [->|Hx].
      * etransitivity; [|apply IH; by left]. lia.
      * apply IH. by right.
Qed.

(** X18: the ids of the manager stay distinct.  When the lists have
    distinct ids, the tasks of all the lists have distinct ids and both
    counters are above every id in use, the same holds after creating,
    renaming or removing a list, after creating, moving, removing or
    toggling a task (also when the date of the next occurrence cannot be
    computed, and when creating the task raises) and after removing the
    completed tasks.  Creating a task in a list that exists with a date
    string that is no date raises ValueError, with the task counter
    moved by one and the lists as they were. *)
Theorem manager_ids_stay_distinct (self : GerenciadorTarefas.t) :
  ids_ok self ->
  (forall titulo,
      ids_ok (GerenciadorTarefas.criar_lista_de_tarefas lower titulo self).1)
  /\ (forall lista_id novo_titulo,
         ids_ok (GerenciadorTarefas.editar_lista_de_tarefas lower lista_id novo_titulo
                                                            self).1)
  /\ (forall lista_id,
         ids_ok (GerenciadorTarefas.remover_lista_de_tarefas lista_id self).1)
  /\ (forall lista_id kwargs,
         ids_ok (GerenciadorTarefas.criar_tarefa fromisoformat lista_id kwargs self).1)
  /\ (forall tarefa_id lista_origem_id lista_destino_id,
         ids_ok (GerenciadorTarefas.mover_tarefa tarefa_id lista_origem_id
                                                 lista_destino_id self).1)
  /\ (forall lista_id tarefa_id,
         ids_ok (GerenciadorTarefas.remover_tarefa lista_id tarefa_id self))
  /\ ids_ok (GerenciadorTarefas.remover_tarefas_concluidas self)
  /\ (forall hoje lista_id tarefa_id,
         ids_ok (GerenciadorTarefas.toggle_tarefa_concluida hoje lista_id tarefa_id
                                                            self).1)
  /\ (forall lista_id kwargs s,
         lista_id ∈ map ListaDeTarefas.id (GerenciadorTarefas.listas self) ->
         kw_outros kwargs = [] ->
         kw_data kwargs = Some (DataStr s) ->
         fromisoformat s = None ->
         GerenciadorTarefas.criar_tarefa fromisoformat lista_id kwargs self
         = (GerenciadorTarefas.mk
              (GerenciadorTarefas.listas self)
              (GerenciadorTarefas._proximo_id_lista self)
              (GerenciadorTarefas._proximo_id_tarefa self + 1),
            Raises ValueError)).
Proof.
  intros Hok.
  split; [intros; by apply criar_lista_ids_ok|].
  split; [intros; by apply editar_lista_ids_ok|].
  split; [intros; by apply remover_lista_ids_ok|].
  split; [intros; by apply criar_tarefa_ids_ok|].
  split; [intros; by apply mover_tarefa_ids_ok|].
  split; [intros; by apply remover_tarefa_ids_ok|].
  split; [by apply remover_tarefas_concluidas_ids_ok|].
  split; [intros; by apply toggle_ids_ok|].
  intros lista_id kwargs s Hin Houtros Hdata Hnone.
  unfold GerenciadorTarefas.criar_tarefa.
  apply list_elem_of_fmap in Hin as (l & Hid & Hl).
  destruct (list_find_elem_of (fun l => ListaDeTarefas.id l = lista_id)
                              (GerenciadorTarefas.listas self) l Hl (eq_sym Hid))
    as [[i l'] Hfind].
  unfold GerenciadorTarefas.find_lista. rewrite Hfind. cbv zeta.
  rewrite Houtros, Hdata. simpl. by rewrite Hnone.
Qed.

End ManagerInvariant.

Lemma manager_ids_stay_distinct_witness :
  let self :=
    LibGerenciador.GerenciadorTarefas.mk
      [LibGerenciador.ListaDeTarefas.mk 1 "Casa"
         [LibGerenciador.Tarefa.mk 1 "Varrer" EmptyString LibGerenciador.date_1970 []
            LibGerenciador.SEM_PRIORIDADE LibGerenciador.SEMANAL false];
       LibGerenciador.ListaDeTarefas.mk 2 "Trabalho" []] 3 2 in
  let kwargs :=
    LibGerenciador.mkKwargs (Some "Pagar") None
      (Some (LibGerenciador.DataStr "2023-02-29")) None None None None [] in
  StatedManager.ids_ok
    (LibGerenciador.GerenciadorTarefas.criar_tarefa
       StatedManager.fromisoformat_ymd 2 kwargs self).1.
Proof.
  intros self kwargs.
  apply (manager_ids_stay_distinct StatedManager.ascii_lower
           StatedManager.fromisoformat_ymd self).
  split; split; simpl.
  - apply (bool_decide_unpack _). vm_compute. exact I.
  - repeat constructor.
  - apply (bool_decide_unpack _). vm_compute. exact I.
  - repeat constructor.
Defined.

Section ManagerLoad.
Import LibGerenciador StatedManager.

(** X19: what [load_database] leaves.  When opening the file raises
    FileNotFoundError or parsing it raises JSONDecodeError, the manager
    holds the one default list, with id 1, and its ids are distinct.
    Any other exception of opening, parsing or building the lists is
    not caught: it leaves [load_database] and no manager is built.
    From a file whose lists have distinct ids and whose tasks have
    distinct ids the manager holds those lists, and the ids it will
    give are above every id of the file, so the ids stay distinct. *)
Theorem load_database_ids_are_fresh :
  (forall class_name : string,
      class_name = "FileNotFoundError" \/ class_name = "JSONDecodeError" ->
      GerenciadorTarefas.load_database (GerenciadorTarefas.Failed class_name)
      = GerenciadorTarefas.Built
          (GerenciadorTarefas.mk
             [ListaDeTarefas.mk 1 "Minha lista de tarefas" []] 2 1))
  /\ ids_ok (GerenciadorTarefas.mk
               [ListaDeTarefas.mk 1 "Minha lista de tarefas" []] 2 1)
  /\ (forall class_name : string,
         class_name <> "FileNotFoundError" ->
         class_name <> "JSONDecodeError" ->
         GerenciadorTarefas.load_database (GerenciadorTarefas.Failed class_name)
         = GerenciadorTarefas.InitRaises class_name)
  /\ forall listas : list ListaDeTarefas.t,
      NoDup (map ListaDeTarefas.id listas) ->
      NoDup (map Tarefa.id (GerenciadorTarefas.all_tasks listas)) ->
      exists self : GerenciadorTarefas.t,
        GerenciadorTarefas.load_database (GerenciadorTarefas.Parsed listas)
        = GerenciadorTarefas.Built self
        /\ GerenciadorTarefas.listas self = listas
        /\ ids_ok self.
Proof.
  split; [by intros class_name [-> | ->]|]. split.
  { split; split; simpl; repeat constructor; by intros ?%elem_of_nil. }
  split.
  { intros class_name H1 H2. unfold GerenciadorTarefas.load_database,
      GerenciadorTarefas.caught.
    destruct (String.eqb_spec class_name "FileNotFoundError"); [done|].
    destruct (String.eqb_spec class_name "JSONDecodeError"); done. }
  intros listas Hl Ht. unfold GerenciadorTarefas.load_database.
  destruct listas as [|first rest].
  { eexists. split; [reflexivity|]. split; [reflexivity|]. by split; split. }
  cbv zeta. eexists. split; [reflexivity|]. split; [reflexivity|].
  split; split; simpl.
  - exact Hl.
  - apply Forall_forall. intros x Hx.
    assert (x <= py_max (ListaDeTarefas.id first) (map ListaDeTarefas.id rest)); [|lia].
    apply py_max_bound. apply elem_of_cons in Hx as [->|Hx]; [by left | by right].
  - exact Ht.
  - destruct (GerenciadorTarefas.all_tasks (first :: rest)) as [|t ts];
      [constructor|].
    apply Forall_forall. intros x Hx.
    assert (x <= py_max (Tarefa.id t) (map Tarefa.id ts)); [|lia].
    apply py_max_bound. apply elem_of_cons in Hx as [->|Hx]; [by left | by right].
Qed.

End ManagerLoad.

Lemma load_database_ids_are_fresh_witness :
  let listas :=
    [LibGerenciador.ListaDeTarefas.mk 7 "Casa"
       [LibGerenciador.Tarefa.mk 4 "Varrer" EmptyString LibGerenciador.date_1970 []
          LibGerenciador.SEM_PRIORIDADE LibGerenciador.NENHUMA false];
     LibGerenciador.ListaDeTarefas.mk 3 "Trabalho" []] in
  exists self : LibGerenciador.GerenciadorTarefas.t,
    LibGerenciador.GerenciadorTarefas.load_database
      (LibGerenciador.GerenciadorTarefas.Parsed listas)
    = LibGerenciador.GerenciadorTarefas.Built self
    /\ LibGerenciador.GerenciadorTarefas.listas self = listas
    /\ StatedManager.ids_ok self.
Proof.
  intros listas.
  destruct load_database_ids_are_fresh as (_ & _ & _ & H).
  apply H; apply (bool_decide_unpack _); vm_compute; exact I.
Defined.

(** ** libgerenciador.py: moving and removing tasks *)

Section ManagerTasks.
Import LibGerenciador StatedManager.

(** [remove] takes out the task that was found: no task before it is
    equal to it, since none before it has its id. *)
Lemma py_remove_found (tarefa_id : Z) (ts : list Tarefa.t) : forall k ta,
  list_find (fun t => Tarefa.id t = tarefa_id) ts = Some (k, ta) ->
  py_remove ta ts = delete k ts.
Proof.
  induction ts as [|a ts IH]; intros k ta Hfind; [done|].
  apply list_find_Some in Hfind as (Hk & Hid & Hbefore).
  destruct k as [|k]; simpl in Hk.
  - injection Hk as ->. simpl. by rewrite decide_True.
  - assert (Ha : a <> ta).
    { intros ->. apply (Hbefore 0%nat ta); [reflexivity | lia | exact Hid]. }
    simpl. rewrite decide_False by exact Ha.
    change (delete (S k) (a :: ts)) with (a :: delete k ts). f_equal.
    apply IH. apply list_find_Some. split; [exact Hk|]. split; [exact Hid|].
    intros j y Hj Hlt. apply (Hbefore (S j) y); [exact Hj | lia].
Qed.

(** X20: moving a task.  With the same id for origin and destination
    the manager is left as it is and the answer is True, whether or not
    such a list or task exists.  Otherwise, when both lists and the task
    are found, the task leaves the origin list, is appended to the
    destination list, no other list changes and no task is lost or
    duplicated; when one of them is not found the manager is left as it
    is and the answer is False. *)
Theorem mover_tarefa_moves_one_task (tarefa_id origem destino : Z)
        (self : GerenciadorTarefas.t) :
  (origem = destino ->
   GerenciadorTarefas.mover_tarefa tarefa_id origem destino self = (self, true))
  /\ (origem <> destino ->
      forall i lo j ld k ta,
        GerenciadorTarefas.find_lista origem self = Some (i, lo) ->
        GerenciadorTarefas.find_lista destino self = Some (j, ld) ->
        GerenciadorTarefas.find_tarefa tarefa_id lo = Some (k, ta) ->
        exists self',
          GerenciadorTarefas.mover_tarefa tarefa_id origem destino self = (self', true)
          /\ GerenciadorTarefas.listas self' !! i
             = Some (ListaDeTarefas.set_tarefas (delete k (ListaDeTarefas.tarefas lo)) lo)
          /\ GerenciadorTarefas.listas self' !! j
             = Some (ListaDeTarefas.set_tarefas (ListaDeTarefas.tarefas ld ++ [ta]) ld)
          /\ (forall p, p <> i -> p <> j ->
                GerenciadorTarefas.listas self' !! p
                = GerenciadorTarefas.listas self !! p)
          /\ GerenciadorTarefas.all_tasks (GerenciadorTarefas.listas self')
             ≡ₚ GerenciadorTarefas.all_tasks (GerenciadorTarefas.listas self))
  /\ (origem <> destino ->
      (GerenciadorTarefas.find_lista origem self = None
       \/ GerenciadorTarefas.find_lista destino self = None
       \/ exists i lo, GerenciadorTarefas.find_lista origem self = Some (i, lo)
                       /\ GerenciadorTarefas.find_tarefa tarefa_id lo = None) ->
      GerenciadorTarefas.mover_tarefa tarefa_id origem destino self = (self, false)).
Proof.
  split; [|split].
  - intros ->. unfold GerenciadorTarefas.mover_tarefa. by rewrite Z.eqb_refl.
  - intros Hne i lo j ld k ta Ho Hd Ht.
    pose proof (mover_tarefa_tasks tarefa_id origem destino self) as (_ & Hperm & _).
    revert Hperm. unfold GerenciadorTarefas.mover_tarefa.
    apply Z.eqb_neq in Hne as Hneb. rewrite Hneb, Ho, Hd, Ht. cbv zeta.
    intros Hperm. eexists. split; [reflexivity|].
    apply find_lista_Some in Ho as [Hi Hio]. apply find_lista_Some in Hd as [Hj Hjd].
    assert (Hij : i <> j).
    { intros ->. rewrite Hi in Hj. injection Hj as ->. congruence. }
    simpl. split; [|split; [|split]].
    + rewrite list_lookup_alter_ne by auto.
      rewrite list_lookup_alter_eq, Hi. simpl.
      by rewrite (py_remove_found tarefa_id _ k ta Ht).
    + rewrite list_lookup_alter_eq.
      rewrite list_lookup_alter_ne by auto. by rewrite Hj.
    + intros p Hpi Hpj. by rewrite !list_lookup_alter_ne by auto.
    + exact Hperm.
  - intros Hne Hnone. unfold GerenciadorTarefas.mover_tarefa.
    apply Z.eqb_neq in Hne as ->.
    destruct Hnone as [->|[Hd|(i & lo & -> & Ht)]]; [reflexivity| |].
    + rewrite Hd. by destruct (GerenciadorTarefas.find_lista origem self) as [[]|].
    + destruct (GerenciadorTarefas.find_lista destino self) as [[]|]; [|reflexivity].
      by rewrite Ht.
Qed.

(** X21: removing the completed tasks leaves in every list its
    uncompleted tasks, in their order, and nothing else: no completed
    task is left anywhere, the lists themselves and the two id counters
    are as before, and doing it again changes nothing. *)
Theorem remover_tarefas_concluidas_keeps_the_rest (self : GerenciadorTarefas.t) :
  (forall p, GerenciadorTarefas.listas (GerenciadorTarefas.remover_tarefas_concluidas self)
               !! p
             = (fun l => ListaDeTarefas.set_tarefas
                           (filter (fun t => Tarefa.concluida t = false)
                                   (ListaDeTarefas.tarefas l)) l)
                 <$> GerenciadorTarefas.listas self !! p)
  /\ GerenciadorTarefas.all_tasks
       (GerenciadorTarefas.listas (GerenciadorTarefas.remover_tarefas_concluidas self))
     = filter (fun t => Tarefa.concluida t = false)
              (GerenciadorTarefas.all_tasks (GerenciadorTarefas.listas self))
  /\ Forall (fun t => Tarefa.concluida t = false)
            (GerenciadorTarefas.all_tasks
               (GerenciadorTarefas.listas
                  (GerenciadorTarefas.remover_tarefas_concluidas self)))
  /\ listas_vistas (GerenciadorTarefas.remover_tarefas_concluidas self)
     = listas_vistas self
  /\ GerenciadorTarefas._proximo_id_lista
       (GerenciadorTarefas.remover_tarefas_concluidas self)
     = GerenciadorTarefas._proximo_id_lista self
  /\ GerenciadorTarefas._proximo_id_tarefa
       (GerenciadorTarefas.remover_tarefas_concluidas self)
     = GerenciadorTarefas._proximo_id_tarefa self
  /\ GerenciadorTarefas.remover_tarefas_concluidas
       (GerenciadorTarefas.remover_tarefas_concluidas self)
     = GerenciadorTarefas.remover_tarefas_concluidas self.
Proof.
  unfold GerenciadorTarefas.remover_tarefas_concluidas. simpl.
  split; [intros p; apply list_lookup_fmap|].
  split; [apply all_tasks_concluidas|].
  split.
  { rewrite all_tasks_concluidas. apply Forall_forall. intros t Ht.
    by apply list_elem_of_filter in Ht as [? _]. }
  split; [unfold listas_vistas; simpl; by rewrite map_map|].
  split; [reflexivity|]. split; [reflexivity|].
  unfold GerenciadorTarefas.set_listas. simpl. f_equal.
  rewrite map_map. apply map_ext. intros l. simpl.
  unfold ListaDeTarefas.set_tarefas. simpl. f_equal.
  rewrite list_filter_filter. apply list_filter_iff. intros t. tauto.
Qed.

End ManagerTasks.

Lemma mover_tarefa_moves_one_task_witness :
  let tarefa :=
    LibGerenciador.Tarefa.mk 1 "Varrer" EmptyString LibGerenciador.date_1970 []
      LibGerenciador.SEM_PRIORIDADE LibGerenciador.NENHUMA false in
  LibGerenciador.GerenciadorTarefas.mover_tarefa 1 1 2
    (LibGerenciador.GerenciadorTarefas.mk
       [LibGerenciador.ListaDeTarefas.mk 1 "Casa" [tarefa];
        LibGerenciador.ListaDeTarefas.mk 2 "Trabalho" []] 3 2)
  = (LibGerenciador.GerenciadorTarefas.mk
       [LibGerenciador.ListaDeTarefas.mk 1 "Casa" [];
        LibGerenciador.ListaDeTarefas.mk 2 "Trabalho" [tarefa]] 3 2, true).
Proof.
  intros tarefa.
  destruct (mover_tarefa_moves_one_task 1 1 2
              (LibGerenciador.GerenciadorTarefas.mk
                 [LibGerenciador.ListaDeTarefas.mk 1 "Casa" [tarefa];
                  LibGerenciador.ListaDeTarefas.mk 2 "Trabalho" []] 3 2))
    as (_ & Hmove & _).
  destruct (Hmove ltac:(lia) 0%nat (LibGerenciador.ListaDeTarefas.mk 1 "Casa" [tarefa])
              1%nat (LibGerenciador.ListaDeTarefas.mk 2 "Trabalho" [])
              0%nat tarefa eq_refl eq_refl eq_refl)
    as (self' & Hres & _).
  rewrite Hres. vm_compute in Hres. injection Hres as <-. reflexivity.
Defined.

(** ** libgerenciador.py: the titles of the lists *)

Section ManagerTitles.
Import LibGerenciador StatedManager.
Variable lower : string -> string.

Lemma titulo_taken (titulo : string) (listas : list ListaDeTarefas.t) :
  existsb (fun lista => String.eqb (lower (ListaDeTarefas.titulo lista)) (lower titulo))
          listas = true
  <-> exists l, l ∈ listas /\ lower (ListaDeTarefas.titulo l) = lower titulo.
Proof.
  rewrite existsb_exists. split.
  - intros (l & Hin & Heq). exists l. split; [by apply list_elem_of_In|].
    by apply String.eqb_eq.
  - intros (l & Hin & Heq). exists l. split; [by apply list_elem_of_In|].
    by apply String.eqb_eq.
Qed.

Lemma titulo_taken_by_other (lista_id : Z) (titulo : string)
      (listas : list ListaDeTarefas.t) :
  existsb (fun l => negb (ListaDeTarefas.id l =? lista_id)
                    && String.eqb (lower (ListaDeTarefas.titulo l)) (lower titulo))
          listas = true
  <-> exists l, l ∈ listas /\ ListaDeTarefas.id l <> lista_id
                /\ lower (ListaDeTarefas.titulo l) = lower titulo.
Proof.
  rewrite existsb_exists. split.
  - intros (l & Hin & Heq). apply andb_true_iff in Heq as [Hid Heq].
    exists l. split; [by apply list_elem_of_In|]. split.
    + apply negb_true_iff in Hid. by apply Z.eqb_neq.
    + by apply String.eqb_eq.
  - intros (l & Hin & Hid & Heq). exists l. split; [by apply list_elem_of_In|].
    apply andb_true_iff. split.
    + apply negb_true_iff. by apply Z.eqb_neq.
    + by apply String.eqb_eq.
Qed.

(** X22: no two lists get the same title.  When the lists have distinct
    ids and titles that differ even when case is ignored, the titles
    still differ after creating, renaming or removing a list; creating
    is refused (None, the manager as before) exactly when a list has
    that title up to case, and renaming is refused (False, the manager
    as before) when another list has it or no list has the id. *)
Theorem list_titles_stay_distinct (self : GerenciadorTarefas.t) :
  NoDup (map ListaDeTarefas.id (GerenciadorTarefas.listas self)) ->
  titulos_ok lower self ->
  (forall titulo,
      titulos_ok lower (GerenciadorTarefas.criar_lista_de_tarefas lower titulo self).1
      /\ ((GerenciadorTarefas.criar_lista_de_tarefas lower titulo self).2 = None
          <-> exists l, l ∈ GerenciadorTarefas.listas self
                        /\ lower (ListaDeTarefas.titulo l) = lower titulo)
      /\ ((GerenciadorTarefas.criar_lista_de_tarefas lower titulo self).2 = None ->
          (GerenciadorTarefas.criar_lista_de_tarefas lower titulo self).1 = self))
  /\ (forall lista_id novo_titulo,
         titulos_ok lower
           (GerenciadorTarefas.editar_lista_de_tarefas lower lista_id novo_titulo self).1
         /\ ((GerenciadorTarefas.editar_lista_de_tarefas lower lista_id novo_titulo
                                                          self).2 = true
             <-> (exists i l, GerenciadorTarefas.find_lista lista_id self = Some (i, l))
                 /\ ~ exists l, l ∈ GerenciadorTarefas.listas self
                                /\ ListaDeTarefas.id l <> lista_id
                                /\ lower (ListaDeTarefas.titulo l) = lower novo_titulo)
         /\ ((GerenciadorTarefas.editar_lista_de_tarefas lower lista_id novo_titulo
                                                          self).2 = false ->
             (GerenciadorTarefas.editar_lista_de_tarefas lower lista_id novo_titulo
                                                         self).1 = self))
  /\ (forall lista_id,
         titulos_ok lower (GerenciadorTarefas.remover_lista_de_tarefas lista_id self).1).
Proof.
  intros Hids Htit. split; [|split].
  - intros titulo. unfold GerenciadorTarefas.criar_lista_de_tarefas.
    pose proof (titulo_taken titulo (GerenciadorTarefas.listas self)) as Htaken.
    destruct (existsb _ _) eqn:Hex; simpl.
    + split; [exact Htit|]. split; [|done]. split; [intros _; by apply Htaken | done].
    + split; [|split; [|done]].
      * unfold titulos_ok. simpl. rewrite map_app. simpl.
        apply NoDup_app. split; [exact Htit|]. split; [|apply NoDup_singleton].
        intros x Hx Hin. apply list_elem_of_singleton in Hin. subst x.
        apply list_elem_of_fmap in Hx as (l & Heq & Hl).
        assert (false = true); [|done]. apply Htaken. exists l. by split.
      * split; [done|]. intros H. apply Htaken in H. done.
  - intros lista_id novo_titulo.
    unfold GerenciadorTarefas.editar_lista_de_tarefas.
    pose proof (titulo_taken_by_other lista_id novo_titulo
                  (GerenciadorTarefas.listas self)) as Htaken.
    destruct (existsb _ _) eqn:Hex; simpl.
    { split; [exact Htit|]. split; [|done]. split; [done|].
      intros [_ Hno]. exfalso. apply Hno. by apply Htaken. }
    destruct (GerenciadorTarefas.find_lista lista_id self) as [[i l]|] eqn:Hfind;
      simpl.
    2:{ split; [exact Htit|]. split; [|done]. split; [done|].
        intros [(i & l & H) _]. done. }
    split; [|split; [|done]].
    + apply find_lista_Some in Hfind as [Hi Hid].
      destruct (alter_middle (ListaDeTarefas.set_titulo novo_titulo) _ i l Hi)
        as [Hsplit Halter].
      unfold titulos_ok in *. simpl. rewrite Halter.
      rewrite Hsplit in Htit, Hids.
      rewrite map_app in *. simpl in *.
      apply NoDup_app in Htit as (Hb & Hba & Ha).
      apply NoDup_cons in Ha as [_ Ha].
      apply NoDup_app in Hids as (_ & Hidb & Hida).
      apply NoDup_cons in Hida as [Hida _].
      assert (Hother : forall l', l' ∈ GerenciadorTarefas.listas self ->
                                  ListaDeTarefas.id l' <> lista_id ->
                                  lower (ListaDeTarefas.titulo l') <> lower novo_titulo).
      { intros l' Hin Hne Heq. assert (false = true); [|done].
        apply Htaken. exists l'. by repeat split. }
      apply NoDup_app. split; [exact Hb|]. split.
      * intros x Hx Hin. apply elem_of_cons in Hin as [->|Hin].
        -- apply list_elem_of_fmap in Hx as (l' & Heq & Hl').
           apply (Hother l').
           ++ rewrite Hsplit. apply elem_of_app. by left.
           ++ intros Hsame. apply (Hidb (ListaDeTarefas.id l')).
              ** apply list_elem_of_fmap. by exists l'.
              ** rewrite Hsame, <- Hid. apply list_elem_of_here.
           ++ by symmetry.
        -- apply (Hba x Hx). by apply list_elem_of_further.
      * apply NoDup_cons. split; [|exact Ha].
        intros Hin. apply list_elem_of_fmap in Hin as (l' & Heq & Hl').
        apply (Hother l').
        -- rewrite Hsplit. apply elem_of_app. right.
           by apply list_elem_of_further.
        -- intros Hsame. apply Hida. apply list_elem_of_fmap. exists l'.
           split; [congruence | exact Hl'].
        -- by symmetry.
    + split; [intros _|done]. split; [by eexists _, _|].
      intros H. apply Htaken in H. done.
  - intros lista_id. unfold GerenciadorTarefas.remover_lista_de_tarefas.
    destruct (_ <=? 1); [exact Htit|]. unfold titulos_ok. simpl.
    eapply sublist_NoDup; [exact Htit|].
    apply fmap_sublist, sublist_filter.
Qed.

End ManagerTitles.

Lemma list_titles_stay_distinct_witness :
  let self :=
    LibGerenciador.GerenciadorTarefas.mk
      [LibGerenciador.ListaDeTarefas.mk 1 "Minha lista de tarefas" []] 2 1 in
  (LibGerenciador.GerenciadorTarefas.criar_lista_de_tarefas StatedManager.ascii_lower
     "MINHA LISTA DE TAREFAS" self).2 = None.
Proof.
  intros self.
  destruct (list_titles_stay_distinct StatedManager.ascii_lower self) as (Hcriar & _).
  - apply (bool_decide_unpack _). vm_compute. exact I.
  - apply (bool_decide_unpack _). vm_compute. exact I.
  - destruct (Hcriar "MINHA LISTA DE TAREFAS") as (_ & Hnone & _).
    apply Hnone.
    exists (LibGerenciador.ListaDeTarefas.mk 1 "Minha lista de tarefas" []).
    split; [apply list_elem_of_here | reflexivity].
Defined.

(** ** libgerenciador.py: the date of the next occurrence *)

Section ManagerDates.
Import LibGerenciador StatedManager.

Lemma monthrange_days_bounds (y m : Z) : 28 <= monthrange_days y m <= 31.
Proof.
  unfold monthrange_days.
  destruct (m =? 2); [destruct (isleap y); lia|].
  destruct ((m =? 4) || (m =? 6) || (m =? 9) || (m =? 11)); lia.
Qed.

Lemma monthrange_days_other_year (y y' m : Z) :
  m <> 2 -> monthrange_days y' m = monthrange_days y m.
Proof.
  intros Hm. unfold monthrange_days. apply Z.eqb_neq in Hm. by rewrite Hm.
Qed.

(** [datetime.date(y, m, d)] returns exactly for the dates of the
    calendar. *)
Lemma new_date_spec (y m d : Z) :
  (valid_date (mkDate y m d) /\ new_date y m d = Returns (mkDate y m d))
  \/ (~ valid_date (mkDate y m d) /\ new_date y m d = Raises ValueError).
Proof.
  unfold new_date, valid_date. simpl.
  destruct (Z.leb_spec MINYEAR y); simpl; [|right; split; [lia|done]].
  destruct (Z.leb_spec y MAXYEAR); simpl; [|right; split; [lia|done]].
  destruct (Z.leb_spec 1 m); simpl; [|right; split; [lia|done]].
  destruct (Z.leb_spec m 12); simpl; [|right; split; [lia|done]].
  destruct (Z.leb_spec 1 d); simpl; [|right; split; [lia|done]].
  destruct (Z.leb_spec d (monthrange_days y m)); simpl;
    [left; split; [lia|done] | right; split; [lia|done]].
Qed.

Lemma next_day_valid (d : Date) :
  valid_date d ->
  match next_day d with
  | Returns d' =>
      valid_date d'
      /\ ((year d' = year d /\ month d' = month d /\ day d' = day d + 1)
          \/ (day d' = 1 /\ day d = monthrange_days (year d) (month d)
              /\ ((year d' = year d /\ month d' = month d + 1)
                  \/ (year d' = year d + 1 /\ month d' = 1 /\ month d = 12))))
  | Raises e =>
      e = OverflowError /\ year d = MAXYEAR /\ month d = 12 /\ day d = 31
  end.
Proof.
  intros (Hy & Hm & Hd). unfold next_day.
  destruct (Z.ltb_spec (day d) (monthrange_days (year d) (month d))).
  { split; [|left; by simpl]. unfold valid_date. simpl. lia. }
  destruct (Z.ltb_spec (month d) 12).
  { split; [|right; simpl; split; [done|split; [lia|by left]]].
    unfold valid_date. simpl.
    pose proof (monthrange_days_bounds (year d) (month d + 1)). lia. }
  assert (Hdec : month d = 12) by lia.
  assert (Hmr : monthrange_days (year d) (month d) = 31) by (by rewrite Hdec).
  destruct (Z.ltb_spec (year d) MAXYEAR).
  { split; [|right; simpl; split; [done|split; [lia|right; lia]]].
    unfold valid_date, MINYEAR, MAXYEAR in *. simpl.
    change (monthrange_days (year d + 1) 1) with 31. lia. }
  repeat split; lia.
Qed.

(** Adding up to four weeks to a date of the calendar gives a date of
    the calendar, or fails past the last day of the last year. *)
Lemma add_days_valid (n : nat) : forall d : Date,
  (n <= 28)%nat ->
  valid_date d ->
  match add_days n d with
  | Returns d' => valid_date d'
  | Raises e =>
      e = OverflowError /\ year d = MAXYEAR /\ month d = 12
      /\ 31 < day d + Z.of_nat n
  end.
Proof.
  induction n as [|n IH]; intros d Hn Hd; [exact Hd|].
  simpl. pose proof (next_day_valid d Hd) as Hnext.
  destruct (next_day d) as [d1|e].
  - destruct Hnext as [Hd1 Hshape].
    specialize (IH d1 ltac:(lia) Hd1).
    destruct (add_days n d1) as [d2|e]; [exact IH|].
    destruct IH as (-> & Hy & Hm & Hday).
    pose proof (monthrange_days_bounds (year d) (month d)).
    destruct Hshape as [(Hy1 & Hm1 & Hd1')|(Hd1' & Hlast & [[Hy1 Hm1]|(Hy1 & Hm1 & _)])];
      repeat split; lia.
  - destruct Hnext as (-> & Hy & Hm & Hday). repeat split; lia.
Qed.

Lemma leap_then_not_leap (y : Z) : isleap y = true -> isleap (y + 1) = false.
Proof.
  unfold isleap. intros H. apply andb_true_iff in H as [H4 _].
  apply Z.eqb_eq in H4.
  assert ((y + 1) mod 4 <> 0) as Hne.
  { pose proof (Z.div_mod y 4 ltac:(lia)) as H1.
    pose proof (Z.div_mod (y + 1) 4 ltac:(lia)) as H2.
    pose proof (Z.mod_pos_bound (y + 1) 4 ltac:(lia)). lia. }
  apply Z.eqb_neq in Hne. by rewrite Hne.
Qed.

(** X23: the date of the next occurrence of a recurring task.  From a
    date of the calendar every frequency gives a date of the calendar,
    and can fail only in the last year of the calendar.  The monthly
    frequency gives the same day of the next month, or the last day of
    that month when it is shorter; the yearly frequency gives the same
    day and month of the next year, and 28 February for 29 February. *)
Theorem proxima_data_is_a_date (data_base data : Date) :
  valid_date data_base ->
  valid_date data ->
  (forall repeticao,
      match GerenciadorTarefas.proxima_data repeticao data_base data with
      | Returns d => valid_date d
      | Raises e => year data_base = MAXYEAR
      end)
  /\ (year data_base < MAXYEAR \/ month data_base < 12 ->
      exists d,
        GerenciadorTarefas.proxima_data MENSAL data_base data = Returns d
        /\ (if month data_base <? 12
            then year d = year data_base /\ month d = month data_base + 1
            else year d = year data_base + 1 /\ month d = 1)
        /\ day d = Z.min (day data_base) (monthrange_days (year d) (month d)))
  /\ (year data_base < MAXYEAR ->
      GerenciadorTarefas.proxima_data ANUAL data_base data
      = Returns (mkDate (year data_base + 1) (month data_base)
                        (if (month data_base =? 2) && (day data_base =? 29)
                         then 28 else day data_base))).
Proof.
  intros Hbase Hdata.
  pose proof (monthrange_days_bounds (year data_base) (month data_base)) as Hmr.
  assert (Hmensal :
            match GerenciadorTarefas.proxima_data MENSAL data_base data with
            | Returns d =>
                valid_date d
                /\ (if month data_base <? 12
                    then year d = year data_base /\ month d = month data_base + 1
                    else year d = year data_base + 1 /\ month d = 1)
                /\ day d = Z.min (day data_base) (monthrange_days (year d) (month d))
            | Raises e => year data_base = MAXYEAR /\ month data_base = 12
            end).
  { destruct Hbase as (Hy & Hm & Hd).
    unfold GerenciadorTarefas.proxima_data.
    destruct (Z.ltb_spec (month data_base) 12) as [Hlt|Hge].
    - pose proof (monthrange_days_bounds (year data_base) (month data_base + 1)).
      destruct (new_date_spec (year data_base) (month data_base + 1)
                  (Z.min (day data_base)
                         (monthrange_days (year data_base) (month data_base + 1))))
        as [[Hv ->]|[Hv _]].
      + split; [exact Hv|]. by simpl.
      + exfalso. apply Hv. unfold valid_date. simpl. lia.
    - pose proof (monthrange_days_bounds (year data_base + 1) 1).
      destruct (new_date_spec (year data_base + 1) 1
                  (Z.min (day data_base) (monthrange_days (year data_base + 1) 1)))
        as [[Hv ->]|[Hv ->]].
      + split; [exact Hv|]. by simpl.
      + split; [|lia].
        destruct (Z.eq_dec (year data_base) MAXYEAR) as [|Hne]; [done|].
        exfalso. apply Hv. unfold valid_date, MINYEAR, MAXYEAR in *. simpl. lia. }
  assert (Hanual :
            match GerenciadorTarefas.proxima_data ANUAL data_base data with
            | Returns d =>
                valid_date d
                /\ d = mkDate (year data_base + 1) (month data_base)
                              (if (month data_base =? 2) && (day data_base =? 29)
                               then 28 else day data_base)
            | Raises e => year data_base = MAXYEAR
            end).
  { destruct Hbase as (Hy & Hm & Hd).
    unfold GerenciadorTarefas.proxima_data.
    destruct (Z.eq_dec (year data_base) MAXYEAR) as [Hmax|Hnotmax].
    { destruct (new_date_spec (year data_base + 1) (month data_base) (day data_base))
        as [[Hv _]|[_ ->]].
      - exfalso. destruct Hv as ([_ Hv] & _). simpl in Hv. lia.
      - destruct (new_date_spec (year data_base + 1) (month data_base) 28)
          as [[Hv _]|[_ ->]]; [|exact Hmax].
        exfalso. destruct Hv as ([_ Hv] & _). simpl in Hv. lia. }
    destruct (Z.eqb_spec (month data_base) 2) as [Hfeb|Hnotfeb]; simpl andb.
    - destruct (Z.eqb_spec (day data_base) 29) as [H29|Hnot29].
      + assert (Hleap : isleap (year data_base) = true).
        { unfold monthrange_days in Hd. rewrite Hfeb in Hd. simpl in Hd.
          destruct (isleap (year data_base)); [done | lia]. }
        apply leap_then_not_leap in Hleap.
        assert (Hshort : monthrange_days (year data_base + 1) (month data_base) = 28).
        { unfold monthrange_days. by rewrite Hfeb, Hleap. }
        destruct (new_date_spec (year data_base + 1) (month data_base) (day data_base))
          as [[Hv _]|[_ ->]].
        { exfalso. destruct Hv as (_ & _ & Hv). simpl in Hv. lia. }
        destruct (new_date_spec (year data_base + 1) (month data_base) 28)
          as [[Hv ->]|[Hv _]]; [by split|].
        exfalso. apply Hv. unfold valid_date, MINYEAR, MAXYEAR in *. simpl. lia.
      + assert (Hday : day data_base <= 28).
        { unfold monthrange_days in Hd. rewrite Hfeb in Hd. simpl in Hd.
          destruct (isleap (year data_base)); lia. }
        pose proof (monthrange_days_bounds (year data_base + 1) (month data_base)).
        destruct (new_date_spec (year data_base + 1) (month data_base) (day data_base))
          as [[Hv ->]|[Hv _]]; [by split|].
        exfalso. apply Hv. unfold valid_date, MINYEAR, MAXYEAR in *. simpl. lia.
    - pose proof (monthrange_days_other_year (year data_base) (year data_base + 1)
                    (month data_base) Hnotfeb) as Hsame.
      destruct (new_date_spec (year data_base + 1) (month data_base) (day data_base))
        as [[Hv ->]|[Hv _]]; [by split|].
      exfalso. apply Hv. unfold valid_date, MINYEAR, MAXYEAR in *. simpl. lia. }
  split; [|split].
  - intros [| | | |].
    + exact Hdata.
    + pose proof (add_days_valid 1 data_base ltac:(lia) Hbase) as H.
      unfold GerenciadorTarefas.proxima_data.
      destruct (add_days 1 data_base); [exact H | by destruct H as (_ & ? & _)].
    + pose proof (add_days_valid 7 data_base ltac:(lia) Hbase) as H.
      unfold GerenciadorTarefas.proxima_data.
      destruct (add_days 7 data_base); [exact H | by destruct H as (_ & ? & _)].
    + destruct (GerenciadorTarefas.proxima_data MENSAL data_base data);
        [by destruct Hmensal | by destruct Hmensal].
    + destruct (GerenciadorTarefas.proxima_data ANUAL data_base data);
        [by destruct Hanual | exact Hanual].
  - intros Hnotlast.
    destruct (GerenciadorTarefas.proxima_data MENSAL data_base data) as [d|e].
    + exists d. split; [reflexivity|]. by destruct Hmensal as (_ & ? & ?).
    + exfalso. lia.
  - intros Hnotlast.
    destruct (GerenciadorTarefas.proxima_data ANUAL data_base data) as [d|e].
    + by destruct Hanual as [_ ->].
    + exfalso. lia.
Qed.

End ManagerDates.

Lemma proxima_data_is_a_date_witness :
  LibGerenciador.GerenciadorTarefas.proxima_data LibGerenciador.MENSAL
    (LibGerenciador.mkDate 2024 1 31) (LibGerenciador.mkDate 2024 1 31)
  = LibGerenciador.Returns (LibGerenciador.mkDate 2024 2 29)
  /\ LibGerenciador.GerenciadorTarefas.proxima_data LibGerenciador.ANUAL
       (LibGerenciador.mkDate 2024 2 29) (LibGerenciador.mkDate 2024 2 29)
     = LibGerenciador.Returns (LibGerenciador.mkDate 2025 2 28).
Proof.
  split.
  - destruct (proxima_data_is_a_date (LibGerenciador.mkDate 2024 1 31)
                (LibGerenciador.mkDate 2024 1 31)) as (_ & Hm & _).
    + unfold StatedManager.valid_date. vm_compute. intuition discriminate.
    + unfold StatedManager.valid_date. vm_compute. intuition discriminate.
    + destruct Hm as (d & -> & Hym & Hday); [left; reflexivity|].
      destruct d as [y m d]. simpl in *. destruct Hym as [-> ->].
      rewrite Hday. reflexivity.
  - destruct (proxima_data_is_a_date (LibGerenciador.mkDate 2024 2 29)
                (LibGerenciador.mkDate 2024 2 29)) as (_ & _ & Ha).
    + unfold StatedManager.valid_date. vm_compute. intuition discriminate.
    + unfold StatedManager.valid_date. vm_compute. intuition discriminate.
    + apply Ha. reflexivity.
Defined.

(** ** libgerenciador.py: completing a task *)

Section ManagerComplete.
Import LibGerenciador StatedManager.

Lemma list_find_alter {A} (P : A -> Prop) `{forall x, Decision (P x)}
      (f : A -> A) (l : list A) (i j : nat) (x : A) :
  (forall y, P (f y) <-> P y) ->
  list_find P l = Some (j, x) ->
  list_find P (alter f i l) = Some (j, if decide (i = j) then f x else x).
Proof.
  intros Hf Hfind. apply list_find_Some in Hfind as (Hj & HP & Hbefore).
  apply list_find_Some. split; [|split].
  - destruct (decide (i = j)) as [->|Hne].
    + by rewrite list_lookup_alter_eq, Hj.
    + by rewrite list_lookup_alter_ne.
  - destruct (decide (i = j)); [by apply Hf | exact HP].
  - intros j' y Hj' Hlt.
    destruct (decide (i = j')) as [->|Hne].
    + rewrite list_lookup_alter_eq in Hj'.
      destruct (l !! j') as [y0|] eqn:Hy0; [|done]. simpl in Hj'.
      injection Hj' as <-. rewrite Hf. by eapply Hbefore.
    + rewrite list_lookup_alter_ne in Hj' by exact Hne. by eapply Hbefore.
Qed.

Lemma alter_undo {A} (f g : A -> A) (l : list A) (i : nat) (x : A) :
  l !! i = Some x -> g (f x) = x -> alter g i (alter f i l) = l.
Proof.
  intros Hi Hgf. apply list_eq. intros j.
  destruct (decide (i = j)) as [<-|Hne].
  - rewrite !list_lookup_alter_eq, Hi. simpl. by rewrite Hgf.
  - by rewrite !list_lookup_alter_ne.
Qed.

Lemma alter_alter_insert {A} (f g : A -> A) (l : list A) (i : nat) (x : A) :
  l !! i = Some x -> alter g i (alter f i l) = <[i := g (f x)]> l.
Proof.
  intros Hi. apply list_eq. intros j.
  destruct (decide (i = j)) as [<-|Hne].
  - rewrite !list_lookup_alter_eq, Hi. simpl.
    rewrite list_lookup_insert. rewrite decide_True; [done|].
    split; [done|]. apply lookup_lt_is_Some. eauto.
  - rewrite !list_lookup_alter_ne by exact Hne.
    by rewrite list_lookup_insert_ne.
Qed.

(** X24: completing and reopening a task.  A completed task becomes
    uncompleted and nothing else changes.  An uncompleted task that does
    not recur becomes completed, and toggling it again gives back the
    manager as it was.  An uncompleted task that recurs becomes
    completed and stops recurring, and one task is appended to its list:
    a copy that is uncompleted, carries the recurrence, the date of the
    next occurrence and the next task id; when that date cannot be
    computed the exception leaves the task completed, still recurring,
    no copy added and the id counter advanced. *)
Theorem toggle_tarefa_concluida_spec (hoje : Date) (lista_id tarefa_id : Z)
        (self : GerenciadorTarefas.t) (i k : nat) (l : ListaDeTarefas.t)
        (ta : Tarefa.t) :
  GerenciadorTarefas.find_lista lista_id self = Some (i, l) ->
  GerenciadorTarefas.find_tarefa tarefa_id l = Some (k, ta) ->
  (Tarefa.concluida ta = true ->
   GerenciadorTarefas.toggle_tarefa_concluida hoje lista_id tarefa_id self
   = (altera_tarefa (Tarefa.set_concluida false) i k self, Returns None))
  /\ (Tarefa.concluida ta = false ->
      Tarefa.repeticao ta = NENHUMA ->
      GerenciadorTarefas.toggle_tarefa_concluida hoje lista_id tarefa_id self
      = (altera_tarefa (Tarefa.set_concluida true) i k self, Returns None)
      /\ GerenciadorTarefas.toggle_tarefa_concluida hoje lista_id tarefa_id
           (altera_tarefa (Tarefa.set_concluida true) i k self)
         = (self, Returns None))
  /\ (Tarefa.concluida ta = false ->
      Tarefa.repeticao ta <> NENHUMA ->
      match GerenciadorTarefas.proxima_data (Tarefa.repeticao ta)
              (if negb (date_eqb (Tarefa.data ta) date_1970)
               then Tarefa.data ta else hoje)
              (Tarefa.data ta) with
      | Returns data =>
          let nova_tarefa :=
            Tarefa.mk (GerenciadorTarefas._proximo_id_tarefa self) (Tarefa.titulo ta)
                      (Tarefa.nota ta) data (Tarefa.tags ta) (Tarefa.prioridade ta)
                      (Tarefa.repeticao ta) false in
          exists self',
            GerenciadorTarefas.toggle_tarefa_concluida hoje lista_id tarefa_id self
            = (self', Returns (Some nova_tarefa))
            /\ GerenciadorTarefas._proximo_id_tarefa self'
               = GerenciadorTarefas._proximo_id_tarefa self + 1
            /\ GerenciadorTarefas._proximo_id_lista self'
               = GerenciadorTarefas._proximo_id_lista self
            /\ GerenciadorTarefas.listas self' !! i
               = Some (ListaDeTarefas.set_tarefas
                         (<[k := Tarefa.set_repeticao NENHUMA
                                   (Tarefa.set_concluida true ta)]>
                            (ListaDeTarefas.tarefas l) ++ [nova_tarefa])
                         l)
            /\ forall p, p <> i ->
                 GerenciadorTarefas.listas self' !! p
                 = GerenciadorTarefas.listas self !! p
      | Raises e =>
          GerenciadorTarefas.toggle_tarefa_concluida hoje lista_id tarefa_id self
          = (GerenciadorTarefas.set__proximo_id_tarefa
               (GerenciadorTarefas._proximo_id_tarefa self + 1)
               (altera_tarefa (Tarefa.set_concluida true) i k self),
             Raises e)
      end).
Proof.
  intros Hfind Hta.
  pose proof Hfind as Hfind0. apply find_lista_Some in Hfind0 as [Hi Hid].
  pose proof Hta as Hta0. unfold GerenciadorTarefas.find_tarefa in Hta0.
  apply list_find_Some in Hta0 as (Hk & Htid & _).
  split; [|split].
  - intros Hc. unfold GerenciadorTarefas.toggle_tarefa_concluida.
    rewrite Hfind, Hta. cbv beta zeta. rewrite Hc. reflexivity.
  - intros Hc Hrep. split.
    + unfold GerenciadorTarefas.toggle_tarefa_concluida.
      rewrite Hfind, Hta. cbv beta zeta. rewrite Hc. simpl negb. cbv iota.
      simpl Tarefa.repeticao. rewrite Hrep.
      rewrite bool_decide_eq_true_2 by reflexivity. reflexivity.
    + assert (Hfind1 :
                GerenciadorTarefas.find_lista lista_id
                  (altera_tarefa (Tarefa.set_concluida true) i k self)
                = Some (i, ListaDeTarefas.set_tarefas
                             (alter (Tarefa.set_concluida true) k
                                    (ListaDeTarefas.tarefas l)) l)).
      { unfold GerenciadorTarefas.find_lista, altera_tarefa. simpl.
        rewrite (list_find_alter _ _ _ i i l); [|done|exact Hfind].
        by rewrite decide_True. }
      assert (Hta1 :
                GerenciadorTarefas.find_tarefa tarefa_id
                  (ListaDeTarefas.set_tarefas
                     (alter (Tarefa.set_concluida true) k (ListaDeTarefas.tarefas l)) l)
                = Some (k, Tarefa.set_concluida true ta)).
      { unfold GerenciadorTarefas.find_tarefa. simpl.
        rewrite (list_find_alter _ _ _ k k ta); [|done|exact Hta].
        by rewrite decide_True. }
      unfold GerenciadorTarefas.toggle_tarefa_concluida.
      rewrite Hfind1, Hta1. cbv beta zeta. simpl Tarefa.concluida.
      simpl negb. cbv iota. f_equal.
      unfold altera_tarefa. simpl.
      rewrite list_alter_alter_eq.
      assert (Hlistas :
                alter ((fun l0 => ListaDeTarefas.set_tarefas
                                    (alter (Tarefa.set_concluida false) k
                                           (ListaDeTarefas.tarefas l0)) l0)
                       ∘ (fun l0 => ListaDeTarefas.set_tarefas
                                      (alter (Tarefa.set_concluida true) k
                                             (ListaDeTarefas.tarefas l0)) l0))
                      i (GerenciadorTarefas.listas self)
                = GerenciadorTarefas.listas self).
      { apply list_eq. intros j.
        destruct (decide (i = j)) as [<-|Hne];
          [|by rewrite list_lookup_alter_ne].
        rewrite list_lookup_alter_eq, Hi. simpl. f_equal. unfold ListaDeTarefas.set_tarefas. simpl.
        rewrite (alter_undo _ _ _ k ta Hk).
        - by destruct l.
        - destruct ta. simpl in Hc. by rewrite Hc. }
      rewrite Hlistas. by destruct self.
  - intros Hc Hrep.
    unfold GerenciadorTarefas.toggle_tarefa_concluida.
    rewrite Hfind, Hta. cbv beta zeta. rewrite Hc. simpl negb. cbv iota.
    simpl Tarefa.repeticao. simpl Tarefa.data.
    rewrite bool_decide_eq_false_2 by exact Hrep. simpl negb. cbv iota.
    destruct (GerenciadorTarefas.proxima_data _ _ _) as [data|e]; [|reflexivity].
    cbv zeta. eexists. split; [reflexivity|]. simpl.
    split; [reflexivity|]. split; [reflexivity|]. split.
    + rewrite !list_lookup_alter_eq, Hi. simpl. f_equal.
      unfold ListaDeTarefas.set_tarefas. simpl. f_equal. f_equal.
      by apply alter_alter_insert.
    + intros p Hp. by rewrite !list_lookup_alter_ne by auto.
Qed.

End ManagerComplete.

Lemma toggle_tarefa_concluida_spec_witness :
  let tarefa :=
    LibGerenciador.Tarefa.mk 1 "Varrer" EmptyString (LibGerenciador.mkDate 2024 2 26) []
      LibGerenciador.SEM_PRIORIDADE LibGerenciador.SEMANAL false in
  let self :=
    LibGerenciador.GerenciadorTarefas.mk
      [LibGerenciador.ListaDeTarefas.mk 1 "Casa" [tarefa]] 2 2 in
  (LibGerenciador.GerenciadorTarefas.toggle_tarefa_concluida
     (LibGerenciador.mkDate 2024 1 1) 1 1 self).2
  = LibGerenciador.Returns
      (Some (LibGerenciador.Tarefa.mk 2 "Varrer" EmptyString
               (LibGerenciador.mkDate 2024 3 4) []
               LibGerenciador.SEM_PRIORIDADE LibGerenciador.SEMANAL false)).
Proof.
  intros tarefa self.
  destruct (toggle_tarefa_concluida_spec (LibGerenciador.mkDate 2024 1 1) 1 1 self
              0%nat 0%nat (LibGerenciador.ListaDeTarefas.mk 1 "Casa" [tarefa]) tarefa
              eq_refl eq_refl) as (_ & _ & H).
  specialize (H eq_refl ltac:(discriminate)).
  change (LibGerenciador.GerenciadorTarefas.proxima_data _ _ _)
    with (LibGerenciador.Returns (LibGerenciador.mkDate 2024 3 4)) in H.
  cbv beta iota zeta in H. destruct H as (self' & -> & _). reflexivity.
Defined.

(** ** libtui.py: Selector *)

Section SelectorFacts.
Import StatedWidgets.

Lemma py_get_in_range {A} (l : list A) (i : Z) :
  0 <= i < Z.of_nat (length l) ->
  exists a, py_get l i = Ok a /\ l !! Z.to_nat i = Some a.
Proof.
  intros Hi. unfold py_get. rewrite (py_pos_in_range l i Hi). simpl.
  destruct (l !! Z.to_nat i) as [a|] eqn:Ha; [by exists a|].
  apply lookup_ge_None in Ha. lia.
Qed.

Lemma selector_value (self : Selector.t) :
  selector_ok self ->
  exists v, Selector.get_selected_value self = Selector.Returns v
            /\ v ∈ Selector.options self.
Proof.
  intros Hok. unfold Selector.get_selected_value.
  destruct (py_get_in_range (Selector.options self) (Selector.selected_index self) Hok)
    as (v & -> & Hv).
  exists v. split; [reflexivity|]. by eapply list_elem_of_lookup_2.
Qed.

Lemma selector_update_text (self : Selector.t) :
  selector_ok self ->
  exists text, Selector.update_text self = Selector.Returns (Selector.set_text text self).
Proof.
  intros Hok. unfold Selector.update_text, Selector._format_text.
  destruct (selector_value self Hok) as (v & -> & _). by eexists.
Qed.

Lemma selector_step (delta : Z) (self : Selector.t) :
  selector_ok self ->
  exists text,
    Selector.step delta self
    = Selector.Returns
        (Selector.set_text text
           (Selector.set_selected_index
              ((Selector.selected_index self + delta) mod Selector.len self) self),
         true).
Proof.
  intros Hok. unfold Selector.step.
  assert (Hlen : 0 < Selector.len self) by (unfold selector_ok in Hok; lia).
  destruct (Z.eqb_spec (Selector.len self) 0) as [H0|_]; [lia|].
  cbv zeta.
  destruct (selector_update_text
              (Selector.set_selected_index
                 ((Selector.selected_index self + delta) mod Selector.len self) self))
    as (text & ->).
  { unfold selector_ok. simpl. apply Z.mod_pos_bound. exact Hlen. }
  by exists text.
Qed.

(** X25: the selection of a Selector always names one of its options.
    The constructor gives a valid selection whatever index it is asked
    for, and falls back to its three default options when it is given
    none.  No key raises; every key keeps the selection valid, the
    options and the focus flag; while the widget is focused and being
    edited it handles every key.  In Edit mode Up wraps from the first
    option to the last, and Up followed by Down gives back the
    selection. *)
Theorem Selector_selection_stays_valid :
  (forall options selected_index x y label,
      exists self,
        Selector.new options selected_index x y label = Selector.Returns self
        /\ selector_ok self
        /\ Selector.options self
           = match options with
             | Some (o :: os) => o :: os
             | _ => ["Option 1"; "Option 2"; "Option 3"]
             end
        /\ Selector.is_focused self = false
        /\ Selector._being_edited self = false)
  /\ (forall self key,
         selector_ok self ->
         exists self' handled,
           Selector.process_input self key = Selector.Returns (self', handled)
           /\ selector_ok self'
           /\ Selector.options self' = Selector.options self
           /\ Selector.is_focused self' = Selector.is_focused self
           /\ (Selector.is_focused self = true -> Selector._being_edited self = true ->
               handled = true)
           /\ exists v, Selector.get_selected_value self' = Selector.Returns v
                        /\ v ∈ Selector.options self')
  /\ (forall self,
         selector_ok self ->
         Selector.is_focused self = true ->
         Selector._being_edited self = true ->
         exists up down,
           Selector.process_input self Keys.UP = Selector.Returns (up, true)
           /\ Selector.process_input up Keys.DOWN = Selector.Returns (down, true)
           /\ Selector.selected_index up
              = (if Selector.selected_index self =? 0 then Selector.len self - 1
                 else Selector.selected_index self - 1)
           /\ Selector.selected_index down = Selector.selected_index self).
Proof.
  split; [|split].
  - intros options selected_index x y label. unfold Selector.new. cbv zeta.
    set (opts := match options with
                 | Some (o :: os) => o :: os
                 | _ => ["Option 1"; "Option 2"; "Option 3"]
                 end).
    assert (Hne : (0 < length opts)%nat).
    { unfold opts. destruct options as [[|o os]|]; simpl; lia. }
    destruct (selector_update_text
                (Selector.mk opts
                   (Z.max 0 (Z.min selected_index (Z.of_nat (length opts) - 1)))
                   label EmptyString x y false true false)) as (text & ->).
    { unfold selector_ok, Selector.len. simpl. lia. }
    eexists. split; [reflexivity|]. unfold selector_ok, Selector.len. simpl.
    repeat split; lia.
  - intros self key Hok.
    assert (Hstep : forall delta,
               exists self',
                 Selector.step delta self = Selector.Returns (self', true)
                 /\ selector_ok self'
                 /\ Selector.options self' = Selector.options self
                 /\ Selector.is_focused self' = Selector.is_focused self).
    { intros delta. destruct (selector_step delta self Hok) as (text & ->).
      eexists. split; [reflexivity|]. unfold selector_ok, Selector.len in *. simpl.
      repeat split; try apply Z.mod_pos_bound; lia. }
    assert (Hpack : forall self' handled,
               selector_ok self' ->
               Selector.options self' = Selector.options self ->
               Selector.is_focused self' = Selector.is_focused self ->
               (Selector.is_focused self = true -> Selector._being_edited self = true ->
                handled = true) ->
               selector_ok self'
               /\ Selector.options self' = Selector.options self
               /\ Selector.is_focused self' = Selector.is_focused self
               /\ (Selector.is_focused self = true ->
                   Selector._being_edited self = true -> handled = true)
               /\ exists v, Selector.get_selected_value self' = Selector.Returns v
                            /\ v ∈ Selector.options self').
    { intros self' handled H1 H2 H3 H4. repeat (split; [assumption|]).
      by apply selector_value. }
    unfold Selector.process_input.
    destruct (Selector.is_focused self) eqn:Hf; simpl.
    2:{ exists self, false. split; [reflexivity|]. apply Hpack; try done. }
    destruct (Selector._being_edited self) eqn:He.
    + destruct (key_is key Keys.UP).
      { destruct (Hstep (-1)) as (self' & -> & Hok' & Hopts & Hf').
        exists self', true. split; [reflexivity|].
        apply Hpack; try done; try congruence. }
      destruct (key_is key Keys.DOWN).
      { destruct (Hstep 1) as (self' & -> & Hok' & Hopts & Hf').
        exists self', true. split; [reflexivity|].
        apply Hpack; try done; try congruence. }
      destruct (key_is key Keys.ENTER || key_is key Keys.ESC).
      * eexists _, true. split; [reflexivity|]. apply Hpack; try done.
      * exists self, true. split; [reflexivity|]. apply Hpack; try done.
    + destruct (key_is key Keys.ENTER).
      * eexists _, true. split; [reflexivity|]. apply Hpack; try done.
      * exists self, false. split; [reflexivity|]. apply Hpack; try done.
  - intros self Hok Hf He.
    destruct (selector_step (-1) self Hok) as (text1 & Hup).
    set (up := Selector.set_text text1
                 (Selector.set_selected_index
                    ((Selector.selected_index self + -1) mod Selector.len self) self))
      in *.
    assert (Hlen : 0 < Selector.len self) by (unfold selector_ok in Hok; lia).
    assert (Hokup : selector_ok up).
    { unfold selector_ok, up, Selector.len. simpl. apply Z.mod_pos_bound. exact Hlen. }
    destruct (selector_step 1 up Hokup) as (text2 & Hdown).
    eexists up, _. split; [|split; [|split]].
    + unfold Selector.process_input. rewrite Hf, He. simpl. exact Hup.
    + unfold Selector.process_input.
      change (Selector.is_focused up) with (Selector.is_focused self).
      change (Selector._being_edited up) with (Selector._being_edited self).
      rewrite Hf, He. simpl. exact Hdown.
    + unfold up. simpl. unfold selector_ok in Hok.
      destruct (Z.eqb_spec (Selector.selected_index self) 0) as [H0|H0].
      * rewrite H0.
        replace (0 + -1) with (Selector.len self - 1 + (-1) * Selector.len self) by lia.
        rewrite Z_mod_plus_full. apply Z.mod_small. lia.
      * replace (Selector.selected_index self + -1)
          with (Selector.selected_index self - 1) by lia.
        apply Z.mod_small. lia.
    + simpl. change (Selector.len up) with (Selector.len self).
      rewrite Zplus_mod_idemp_l.
      replace (Selector.selected_index self + -1 + 1)
        with (Selector.selected_index self) by lia.
      apply Z.mod_small. exact Hok.
Qed.

End SelectorFacts.

Lemma Selector_selection_stays_valid_witness :
  exists self up,
    Selector.new (Some ["Nenhuma"; "Diaria"; "Semanal"; "Mensal"; "Anual"]) 0 4 15
                 "Frequencia:"
    = Selector.Returns self
    /\ Selector.process_input
         (Selector.set__being_edited true (Selector.set_is_focused true self)) Keys.UP
       = Selector.Returns (up, true)
    /\ Selector.selected_index up = 4.
Proof.
  destruct Selector_selection_stays_valid as (Hnew & _ & Hround).
  destruct (Hnew (Some ["Nenhuma"; "Diaria"; "Semanal"; "Mensal"; "Anual"]) 0 4 15
                 "Frequencia:") as (self & Hself & Hok & _).
  destruct (Hround (Selector.set__being_edited true (Selector.set_is_focused true self)))
    as (up & down & Hup & _ & Hidx & _); [exact Hok | reflexivity | reflexivity |].
  exists self, up. split; [exact Hself|]. split; [exact Hup|].
  rewrite Hidx. vm_compute in Hself. injection Hself as <-. reflexivity.
Defined.

(** ** libtui.py: TextInput *)

Section TextInputFacts.
Import TextInput.
Variable isprintable : string -> bool.

Lemma len_append (s k : string) : len (s +:+ k) = len s + len k.
Proof.
  unfold len. induction s as [|c s IH].
  - change (EmptyString +:+ k) with k. simpl String.length. lia.
  - rewrite append_cons. simpl String.length. lia.
Qed.

Lemma len_drop_last (s : string) : len (drop_last s) <= len s.
Proof.
  unfold len. induction s as [|c s IH]; [simpl; lia|].
  destruct s as [|c' s]; [simpl; lia|].
  change (drop_last (String c (String c' s))) with (String c (drop_last (String c' s))).
  simpl String.length in *. lia.
Qed.

Lemma drop_last_append (s : string) (c : ascii) :
  drop_last (s +:+ String c EmptyString) = s.
Proof.
  induction s as [|a s IH]; [reflexivity|].
  rewrite append_cons.
  destruct (s +:+ String c EmptyString) as [|c' rest] eqn:Hrest.
  - destruct s; discriminate.
  - change (drop_last (String a (String c' rest)))
      with (String a (drop_last (String c' rest))).
    by rewrite IH.
Qed.

Lemma len_one (key : string) : len key = 1 -> exists c, key = String c EmptyString.
Proof.
  unfold len. destruct key as [|c [|c' rest]]; simpl; try lia. by exists c.
Qed.

Lemma process_input_backspace (self : t) :
  process_input isprintable self Keys.BACKSPACE
  = (if is_focused self then set_text (drop_last (text self)) self else self, false).
Proof.
  unfold process_input. destruct (is_focused self); [|reflexivity].
  change (key_is Keys.BACKSPACE EmptyString) with false.
  change (key_is Keys.BACKSPACE Keys.BACKSPACE) with true.
  change (1 <? len Keys.BACKSPACE) with true.
  reflexivity.
Qed.

Lemma process_input_types (self : t) (key : string) :
  is_focused self = true -> len key = 1 -> isprintable key = true ->
  len (text self) < width self - 2 ->
  process_input isprintable self key = (set_text (text self +:+ key) self, false).
Proof.
  intros Hf Hone Hp Hroom. destruct (len_one key Hone) as (c & ->).
  unfold process_input. rewrite Hf.
  change (key_is (String c EmptyString) EmptyString) with false.
  assert (Hnb : key_is (String c EmptyString) Keys.BACKSPACE = false).
  { apply key_is_false. discriminate. }
  rewrite Hnb. change (1 <? len (String c EmptyString)) with false.
  simpl negb. simpl orb. cbv iota zeta. rewrite Hp.
  apply Z.ltb_lt in Hroom. rewrite Hroom. reflexivity.
Qed.

(** Every other outcome: the widget as it was, or its text without the
    last character, or its text with the key appended within the width. *)
Lemma process_input_shape (self : t) (key : string) :
  process_input isprintable self key = (self, false)
  \/ (is_focused self = true /\ key = Keys.BACKSPACE
      /\ process_input isprintable self key
         = (set_text (drop_last (text self)) self, false))
  \/ (is_focused self = true /\ len key = 1
      /\ len (text self) < width self - 2
      /\ process_input isprintable self key
         = (set_text (text self +:+ key) self, false)).
Proof.
  destruct (is_focused self) eqn:Hf.
  2:{ left. unfold process_input. by rewrite Hf. }
  destruct (key_is key EmptyString) eqn:Hempty.
  { left. unfold process_input. rewrite Hf, Hempty. reflexivity. }
  destruct (key_is key Keys.BACKSPACE) eqn:Hback.
  { right. left. apply key_is_true in Hback. subst key.
    repeat split. by rewrite process_input_backspace, Hf. }
  destruct (1 <? len key) eqn:Hlong.
  { left. unfold process_input. rewrite Hf, Hempty, Hback. simpl. by rewrite Hlong. }
  destruct (isprintable key) eqn:Hp.
  2:{ left. unfold process_input. rewrite Hf, Hempty, Hback. simpl.
      by rewrite Hlong, Hp. }
  destruct (len (text self) <? width self - 2) eqn:Hroom.
  2:{ left. unfold process_input. rewrite Hf, Hempty, Hback. simpl.
      by rewrite Hlong, Hp, Hroom. }
  right. right. apply Z.ltb_lt in Hroom. apply Z.ltb_ge in Hlong.
  assert (Hone : len key = 1).
  { apply key_is_false in Hempty. unfold len in *.
    destruct key as [|c [|c' rest]]; simpl in *; try lia. done. }
  repeat split; try assumption. by apply process_input_types.
Qed.

(** X26: a TextInput changes nothing but its text and never handles a
    key, so the screen always goes on to its own handling (TAB, arrows,
    ESC).  The text never grows past width - 2 characters; a key of more
    than one character other than BACKSPACE (a named key, or an escape
    sequence the terminal did not know) leaves the text as it is; and a
    printable character typed where there is room is appended, and
    BACKSPACE then gives back the text. *)
Theorem TextInput_only_edits_text (self : t) (key : string) :
  (process_input isprintable self key).2 = false
  /\ x (process_input isprintable self key).1 = x self
  /\ y (process_input isprintable self key).1 = y self
  /\ width (process_input isprintable self key).1 = width self
  /\ is_focused (process_input isprintable self key).1 = is_focused self
  /\ is_focusable (process_input isprintable self key).1 = is_focusable self
  /\ len (text (process_input isprintable self key).1)
     <= Z.max (len (text self)) (width self - 2)
  /\ (1 < len key -> key <> Keys.BACKSPACE ->
      (process_input isprintable self key).1 = self)
  /\ (is_focused self = false -> (process_input isprintable self key).1 = self)
  /\ (is_focused self = true -> len key = 1 -> isprintable key = true ->
      len (text self) < width self - 2 ->
      text (process_input isprintable self key).1 = text self +:+ key
      /\ (process_input isprintable (process_input isprintable self key).1
                        Keys.BACKSPACE).1 = self).
Proof.
  assert (Htype : is_focused self = true -> len key = 1 -> isprintable key = true ->
                  len (text self) < width self - 2 ->
                  text (process_input isprintable self key).1 = text self +:+ key
                  /\ (process_input isprintable (process_input isprintable self key).1
                                    Keys.BACKSPACE).1 = self).
  { intros Hf Hone Hp Hroom.
    rewrite (process_input_types self key Hf Hone Hp Hroom). simpl.
    split; [reflexivity|]. rewrite process_input_backspace. simpl. rewrite Hf.
    destruct (len_one key Hone) as (c & ->).
    unfold set_text. simpl. rewrite drop_last_append. by destruct self. }
  destruct (process_input_shape self key)
    as [Heq|[(Hf & Hkey & Heq)|(Hf & Hone & Hroom & Heq)]].
  - do 6 (split; [by rewrite Heq|]).
    split; [rewrite Heq; simpl; lia|].
    split; [intros; by rewrite Heq|]. split; [intros; by rewrite Heq|].
    exact Htype.
  - do 6 (split; [by rewrite Heq|]).
    pose proof (len_drop_last (text self)).
    split; [rewrite Heq; simpl; lia|].
    split; [intros; done|]. split; [intros; congruence|].
    exact Htype.
  - do 6 (split; [by rewrite Heq|]).
    split; [rewrite Heq; simpl; rewrite len_append; lia|].
    split; [intros; lia|]. split; [intros; congruence|].
    exact Htype.
Qed.

End TextInputFacts.

Lemma TextInput_only_edits_text_witness :
  let self := TextInput.mk "Casa" 4 4 20 "Titulo" true false in
  TextInput.text
    (TextInput.process_input StatedWidgets.ascii_isprintable self "s").1 = "Casas"
  /\ (TextInput.process_input StatedWidgets.ascii_isprintable
        (TextInput.process_input StatedWidgets.ascii_isprintable self "s").1
        Keys.BACKSPACE).1 = self.
Proof.
  intros self.
  destruct (TextInput_only_edits_text StatedWidgets.ascii_isprintable self "s")
    as (_ & _ & _ & _ & _ & _ & _ & _ & _ & H).
  destruct H as [Htext Hback]; [reflexivity | reflexivity | reflexivity | reflexivity |].
  split; [exact Htext | exact Hback].
Defined.

(** ** edittaskscreen.py: leaving the edit screen by saving *)

Section SaveChanges.
Import TodoApp.
Variable faults : Step -> Fault.

(** X27: the two pops that end [save_changes] close three screens.  The
    edit screen is opened from a task-detail screen; the first pop
    removes the edit screen and, with it, the task-detail screen under
    it, and the second pop removes the screen the detail was opened
    from.  The screen below that one ends as the current screen, after
    one REFRESH to each screen that was exposed; when no screen is below,
    the stack ends empty and the shutdown runs. *)
Theorem save_changes_closes_three_screens (app : t) (v d e : Screen) :
  kind d = TASK_DETAIL ->
  kind v <> TASK_DETAIL ->
  (forall (base : list Screen) (s : Screen),
      screen_stack app = (base ++ [s; v; d; e])%list ->
      kind s <> TASK_DETAIL ->
      EditTaskScreen.save_changes_pops faults app
      = (mk (base ++ [s]) (Some s) (raw_mode app)
            (log app ++ [Refreshed d; Refreshed v; Refreshed s]),
         Ok tt))
  /\ (screen_stack app = [v; d; e] ->
      EditTaskScreen.save_changes_pops faults app
      = quit_app faults
          (mk [] (Some v) (raw_mode app) (log app ++ [Refreshed d; Refreshed v]))).
Proof.
  intros Hd Hv.
  assert (Hfirst : forall below : list Screen,
             screen_stack app = (below ++ [v; d; e])%list ->
             pop_screen_stack faults app
             = (mk (below ++ [v]) (Some v) (raw_mode app)
                   (log app ++ [Refreshed d; Refreshed v]),
                Ok tt)).
  { intros below Hstack. unfold pop_screen_stack. rewrite Hstack.
    assert (Hr : rev (below ++ [v; d; e]) = e :: ([d] ++ v :: rev below)%list).
    { rewrite rev_app_distr. reflexivity. }
    rewrite Hr.
    rewrite (pop_from_details faults [d] app e v (rev below)
               ltac:(by repeat constructor) Hv).
    by rewrite rev_involutive. }
  split.
  - intros base s Hstack Hs.
    unfold EditTaskScreen.save_changes_pops, and_then.
    rewrite (Hfirst (base ++ [s])%list) by (by rewrite Hstack, <- app_assoc).
    unfold pop_screen_stack. simpl screen_stack.
    assert (Hr : rev ((base ++ [s]) ++ [v]) = v :: ([] ++ s :: rev base)%list).
    { rewrite !rev_app_distr. reflexivity. }
    rewrite Hr.
    rewrite (pop_from_details faults [] _ v s (rev base) ltac:(constructor) Hs).
    simpl. rewrite rev_involutive. by rewrite <- !app_assoc.
  - intros Hstack.
    unfold EditTaskScreen.save_changes_pops, and_then.
    rewrite (Hfirst []) by exact Hstack.
    reflexivity.
Qed.

End SaveChanges.

Lemma save_changes_closes_three_screens_witness :
  EditTaskScreen.save_changes_pops (fun _ => TodoApp.NoFault)
    (TodoApp.mk
       [TodoApp.mkScreen TodoApp.LIST_SELECTION 0;
        TodoApp.mkScreen TodoApp.FILTER_OPTIONS 1;
        TodoApp.mkScreen TodoApp.TASK_VIEW 2;
        TodoApp.mkScreen TodoApp.TASK_DETAIL 3;
        TodoApp.mkScreen TodoApp.EDIT_TASK 4]
       (Some (TodoApp.mkScreen TodoApp.EDIT_TASK 4)) true [])
  = (TodoApp.mk
       [TodoApp.mkScreen TodoApp.LIST_SELECTION 0;
        TodoApp.mkScreen TodoApp.FILTER_OPTIONS 1]
       (Some (TodoApp.mkScreen TodoApp.FILTER_OPTIONS 1)) true
       [TodoApp.Refreshed (TodoApp.mkScreen TodoApp.TASK_DETAIL 3);
        TodoApp.Refreshed (TodoApp.mkScreen TodoApp.TASK_VIEW 2);
        TodoApp.Refreshed (TodoApp.mkScreen TodoApp.FILTER_OPTIONS 1)],
     Ok tt).
Proof.
  destruct (save_changes_closes_three_screens (fun _ => TodoApp.NoFault)
              (TodoApp.mk
                 [TodoApp.mkScreen TodoApp.LIST_SELECTION 0;
                  TodoApp.mkScreen TodoApp.FILTER_OPTIONS 1;
                  TodoApp.mkScreen TodoApp.TASK_VIEW 2;
                  TodoApp.mkScreen TodoApp.TASK_DETAIL 3;
                  TodoApp.mkScreen TodoApp.EDIT_TASK 4]
                 (Some (TodoApp.mkScreen TodoApp.EDIT_TASK 4)) true [])
              (TodoApp.mkScreen TodoApp.TASK_VIEW 2)
              (TodoApp.mkScreen TodoApp.TASK_DETAIL 3)
              (TodoApp.mkScreen TodoApp.EDIT_TASK 4)) as [H _];
    [reflexivity | discriminate |].
  apply (H [TodoApp.mkScreen TodoApp.LIST_SELECTION 0]
           (TodoApp.mkScreen TodoApp.FILTER_OPTIONS 1));
    [reflexivity | discriminate].
Defined.

(** ** createtaskscreen.py: the priority check boxes *)

Section CreateTaskFacts.
Context {O : Type} {WO : Widget O}.
Import StatedWidgets.

Implicit Types (self : CreateTaskScreen.t (O := O)).

Lemma keeps_box_refl (w : FormWidget O) : keeps_box w w.
Proof. by destruct w. Qed.

Lemma keeps_box_trans (a b c : FormWidget O) :
  keeps_box a b -> keeps_box b c -> keeps_box a c.
Proof. destruct a, b, c; simpl; try done. congruence. Qed.

Lemma keeps_box_flag (flag : bool) (w : FormWidget O) :
  keeps_box w (w_set_is_focused flag w).
Proof. by destruct w. Qed.

Lemma box_at_keeps self self' :
  Forall2 keeps_box (TUIScreen.children self) (TUIScreen.children self') ->
  forall p, box_at self' p = box_at self p.
Proof.
  intros Hk p. unfold box_at.
  destruct (TUIScreen.children self !! p) as [w|] eqn:Hw.
  - destruct (Forall2_lookup_l _ _ _ _ _ Hk Hw) as (w' & -> & HR).
    destruct w, w'; simpl in HR; try done. by rewrite HR.
  - assert (Hnone : TUIScreen.children self' !! p = None).
    { apply lookup_ge_None. apply lookup_ge_None in Hw.
      by rewrite <- (Forall2_length _ _ _ Hk). }
    by rewrite Hnone.
Qed.

Lemma box_at_set (b : bool) (q p : nat) self :
  box_at (TUIScreen.set_children
            (alter (CreateTaskScreen.set_checked b) q (TUIScreen.children self)) self) p
  = if decide (p = q) then (fun _ => b) <$> box_at self p else box_at self p.
Proof.
  unfold box_at. simpl. destruct (decide (p = q)) as [->|Hne].
  - rewrite list_lookup_alter_eq.
    destruct (TUIScreen.children self !! q) as [[c|o]|]; reflexivity.
  - rewrite list_lookup_alter_ne by auto. reflexivity.
Qed.

Lemma assign_checked_boxes (selected : nat) (ps : list nat) : forall self (p : nat),
  NoDup ps ->
  box_at (foldl (fun self priority_widget =>
                   TUIScreen.set_children
                     (alter (CreateTaskScreen.set_checked
                               (bool_decide (priority_widget = selected)))
                            priority_widget (TUIScreen.children self))
                     self)
                self ps) p
  = if decide (p ∈ ps) then (fun _ => bool_decide (p = selected)) <$> box_at self p
    else box_at self p.
Proof.
  induction ps as [|q ps IH]; intros self p Hnd.
  - change (foldl ?f self []) with self.
    destruct (decide (p ∈ [])) as [H|_]; [by apply elem_of_nil in H | reflexivity].
  - apply NoDup_cons in Hnd as [Hq Hnd].
    change (foldl ?f self (q :: ps)) with (foldl f (f self q) ps).
    rewrite IH by exact Hnd. cbv beta. rewrite box_at_set.
    destruct (decide (p ∈ ps)) as [Hin|Hnin];
      destruct (decide (p = q)) as [->|Hne];
      destruct (decide (_ ∈ q :: ps)) as [Hin'|Hnin'];
      try done.
    + exfalso. apply Hnin'. by apply list_elem_of_further.
    + exfalso. apply Hnin'. apply list_elem_of_here.
    + exfalso. apply elem_of_cons in Hin' as [?|?]; done.
Qed.

Lemma priorities_NoDup : NoDup CreateTaskScreen.priorities.
Proof. apply (bool_decide_unpack _). vm_compute. exact I. Qed.

Lemma update_priority_selection_boxes (selected : nat) self (p : nat) :
  p ∈ CreateTaskScreen.priorities ->
  box_at (CreateTaskScreen.update_priority_selection selected self) p
  = (fun _ => bool_decide (p = selected)) <$> box_at self p.
Proof.
  intros Hp.
  pose proof (assign_checked_boxes selected CreateTaskScreen.priorities self p
                priorities_NoDup) as H.
  destruct (decide (p ∈ CreateTaskScreen.priorities)); [exact H | done].
Qed.

Lemma checked_box_at self (p : nat) (b : bool) :
  box_at self p = Some b -> CreateTaskScreen.checked self p = b.
Proof.
  unfold box_at, CreateTaskScreen.checked.
  destruct (TUIScreen.children self !! p) as [[c|o]|]; try done. by intros [= <-].
Qed.

Lemma only_checked_priority self (selected : nat) :
  only_checked self selected ->
  CreateTaskScreen.get_task_priority self = priority_of selected.
Proof.
  intros [Hsel Hboxes]. unfold CreateTaskScreen.get_task_priority.
  assert (Hmem : forall p, bool_decide (p ∈ CreateTaskScreen.priorities) = true ->
                           CreateTaskScreen.checked self p = bool_decide (p = selected)).
  { intros p Hp. apply checked_box_at, Hboxes. by apply bool_decide_eq_true in Hp. }
  rewrite (Hmem CreateTaskScreen.priority_none eq_refl).
  rewrite (Hmem CreateTaskScreen.priority_low eq_refl).
  rewrite (Hmem CreateTaskScreen.priority_medium eq_refl).
  rewrite (Hmem CreateTaskScreen.priority_high eq_refl).
  unfold CreateTaskScreen.priorities in Hsel.
  repeat (apply elem_of_cons in Hsel as [->|Hsel]);
    [| | | |by apply elem_of_nil in Hsel]; reflexivity.
Qed.

(** What the screen does with a key it does not treat specially keeps
    every priority check box as it is. *)
Lemma inherited_keeps_boxes (key : string) self self' (cbs : list Callback) :
  (forall fw, TUIScreen.get_focused_widget self = Some fw ->
              fw ∈ CreateTaskScreen.priorities ->
              key_is key Keys.ENTER || key_is key Keys.SPACE = false) ->
  TUIScreen.process_input key self = Ok (self', cbs) ->
  forall p, p ∈ CreateTaskScreen.priorities -> box_at self' p = box_at self p.
Proof.
  intros Hkey Hin p Hp. unfold TUIScreen.process_input in Hin.
  assert (Hoffer : forall self1 handled cbs1,
             TUIScreen.offer_to_focused key self = Ok (self1, handled, cbs1) ->
             box_at self1 p = box_at self p).
  { intros self1 handled cbs1. unfold TUIScreen.offer_to_focused.
    destruct (TUIScreen.get_focused_widget self) as [fw|] eqn:Hfw;
      [|by intros [= <- _ _]].
    destruct (TUIScreen.children self !! fw) as [w|] eqn:Hw;
      [|by intros [= <- _ _]].
    destruct (w_process_input w key) as [[[w' r] cbs']|e] eqn:Hwin;
      [|discriminate].
    simpl. intros [= <- _ _]. unfold box_at. simpl.
    destruct (decide (fw = p)) as [->|Hne].
    - rewrite list_lookup_insert, decide_True
        by (split; [done | apply lookup_lt_is_Some; eauto]).
      rewrite Hw. specialize (Hkey p eq_refl Hp).
      destruct w as [c|o].
      + simpl in Hwin. unfold Checkbox.process_input in Hwin.
        destruct (negb (Checkbox.is_focused c) || key_is key EmptyString);
          [by injection Hwin as <- _ _|].
        rewrite Hkey in Hwin. by injection Hwin as <- _ _.
      + simpl in Hwin. destruct (w_process_input o key) as [[[o' r'] cbs'']|e];
          [|discriminate]. simpl in Hwin. by injection Hwin as <- _ _.
    - by rewrite list_lookup_insert_ne. }
  destruct (TUIScreen.offer_to_focused key self) as [[[self1 handled] cbs1]|e]
    eqn:Hoff; [|discriminate].
  simpl in Hin. specialize (Hoffer self1 handled cbs1 eq_refl).
  destruct handled.
  { injection Hin as <- _. exact Hoffer. }
  destruct (TUIScreen.navigation_step key (TUIScreen.arrow_step key self1))
    as [self2 cbs2] eqn:Hnav.
  injection Hin as <- _. rewrite <- Hoffer.
  apply box_at_keeps.
  eapply (Forall2_chain keeps_box keeps_box_trans).
  - apply (arrow_step_only_flags keeps_box keeps_box_refl keeps_box_trans
             keeps_box_flag key self1).
  - pose proof (navigation_step_only_flags keeps_box keeps_box_refl keeps_box_trans
                  keeps_box_flag key (TUIScreen.arrow_step key self1)) as Hn.
    by rewrite Hnav in Hn.
Qed.

(** X28: the priority check boxes behave as a radio group.  A new
    screen has exactly the box for no priority checked.  Whatever key
    the screen is given, exactly one of the four boxes stays checked
    afterwards, and [get_task_priority] is the priority of that box;
    ENTER or SPACE on a focused priority box leaves that box the checked
    one, also when it was checked already. *)
Theorem priority_boxes_are_a_radio_group :
  (forall the_frame the_title_input the_notes_input the_tags_input
          the_priority_label the_dateinput the_frequence_selector
          the_save_button the_cancel_button : O,
      only_checked
        (CreateTaskScreen.new the_frame the_title_input the_notes_input
           the_tags_input the_priority_label the_dateinput the_frequence_selector
           the_save_button the_cancel_button)
        CreateTaskScreen.priority_none)
  /\ (forall (key : string) self self' (cbs : list Callback) (selected : nat),
         only_checked self selected ->
         CreateTaskScreen.process_input key self = Ok (self', cbs) ->
         exists selected',
           only_checked self' selected'
           /\ CreateTaskScreen.get_task_priority self' = priority_of selected'
           /\ (forall fw,
                 TUIScreen.get_focused_widget self = Some fw ->
                 fw ∈ CreateTaskScreen.priorities ->
                 key = Keys.ENTER \/ key = Keys.SPACE ->
                 selected' = fw)
           /\ ((forall fw, TUIScreen.get_focused_widget self = Some fw ->
                           fw ∉ CreateTaskScreen.priorities)
               \/ (key <> Keys.ENTER /\ key <> Keys.SPACE) ->
               selected' = selected)).
Proof.
  split.
  - intros. split; [repeat constructor|]. intros p Hp.
    unfold CreateTaskScreen.new. cbv zeta.
    rewrite (box_at_keeps _ _
               (set_focus_by_index_only_flags keeps_box keeps_box_refl keeps_box_trans
                  keeps_box_flag 0 _) p).
    unfold CreateTaskScreen.priorities in Hp.
    repeat (apply elem_of_cons in Hp as [->|Hp]);
      [| | | |by apply elem_of_nil in Hp]; reflexivity.
  - intros key self self' cbs selected Hsel Hin.
    unfold CreateTaskScreen.process_input in Hin.
    destruct (TUIScreen.get_focused_widget self) as [fw|] eqn:Hfw.
    + destruct (bool_decide (fw ∈ CreateTaskScreen.priorities)) eqn:Hmem.
      * apply bool_decide_eq_true in Hmem.
        destruct (key_is key Keys.ENTER || key_is key Keys.SPACE) eqn:Hkey;
          simpl andb in Hin; cbv iota in Hin.
        -- destruct (TUIScreen.children self !! fw) as [w|] eqn:Hw.
           2:{ exfalso. destruct Hsel as [_ Hboxes]. specialize (Hboxes fw Hmem).
               unfold box_at in Hboxes. by rewrite Hw in Hboxes. }
           destruct (w_process_input w key) as [[[w' r] cbs']|e] eqn:Hwin;
             [|discriminate].
           simpl in Hin. injection Hin as <- _.
           assert (Hbox : forall p, p ∈ CreateTaskScreen.priorities ->
                     is_Some (box_at (TUIScreen.set_children
                                        (<[fw := w']> (TUIScreen.children self)) self)
                                     p)).
           { intros p Hp. unfold box_at. simpl.
             destruct (decide (fw = p)) as [->|Hne].
             - rewrite list_lookup_insert, decide_True
                 by (split; [done | apply lookup_lt_is_Some; eauto]).
               destruct Hsel as [_ Hboxes]. specialize (Hboxes p Hp).
               unfold box_at in Hboxes. rewrite Hw in Hboxes.
               destruct w as [c|o]; [|discriminate].
               simpl in Hwin. destruct (Checkbox.process_input c key) as [c' r'].
               simpl in Hwin. injection Hwin as <- _ _. by eexists.
             - rewrite list_lookup_insert_ne by exact Hne.
               destruct Hsel as [_ Hboxes]. specialize (Hboxes p Hp).
               unfold box_at in Hboxes.
               destruct (TUIScreen.children self !! p) as [[c|o]|]; try discriminate.
               by eexists. }
           exists fw. split; [|split; [|split]].
           ++ split; [exact Hmem|]. intros p Hp.
              rewrite update_priority_selection_boxes by exact Hp.
              destruct (Hbox p Hp) as [b ->]. reflexivity.
           ++ apply only_checked_priority. split; [exact Hmem|]. intros p Hp.
              rewrite update_priority_selection_boxes by exact Hp.
              destruct (Hbox p Hp) as [b ->]. reflexivity.
           ++ intros fw' [= <-] _ _. reflexivity.
           ++ intros [Hnot|[Hk1 Hk2]]; [exfalso; by apply (Hnot fw)|].
              exfalso. apply orb_true_iff in Hkey as [Hk|Hk];
                apply key_is_true in Hk; done.
        -- assert (Hsame : forall p, p ∈ CreateTaskScreen.priorities ->
                     box_at self' p = box_at self p).
           { apply (inherited_keeps_boxes key self self' cbs); [|exact Hin].
             intros fw' _ _. exact Hkey. }
           exists selected. split; [|split; [|split]].
           ++ destruct Hsel as [Hs Hboxes]. split; [exact Hs|].
              intros p Hp. rewrite Hsame by exact Hp. by apply Hboxes.
           ++ apply only_checked_priority.
              destruct Hsel as [Hs Hboxes]. split; [exact Hs|].
              intros p Hp. rewrite Hsame by exact Hp. by apply Hboxes.
           ++ intros fw' _ _ [-> | ->]; vm_compute in Hkey; discriminate.
           ++ reflexivity.
      * apply bool_decide_eq_false in Hmem. simpl andb in Hin. cbv iota in Hin.
        assert (Hsame : forall p, p ∈ CreateTaskScreen.priorities ->
                  box_at self' p = box_at self p).
        { apply (inherited_keeps_boxes key self self' cbs); [|exact Hin].
          intros fw' Hfw' Hp. rewrite Hfw in Hfw'. injection Hfw' as <-. done. }
        exists selected. split; [|split; [|split]].
        -- destruct Hsel as [Hs Hboxes]. split; [exact Hs|].
           intros p Hp. rewrite Hsame by exact Hp. by apply Hboxes.
        -- apply only_checked_priority.
           destruct Hsel as [Hs Hboxes]. split; [exact Hs|].
           intros p Hp. rewrite Hsame by exact Hp. by apply Hboxes.
        -- intros fw' [= <-] Hp _. done.
        -- reflexivity.
    + assert (Hsame : forall p, p ∈ CreateTaskScreen.priorities ->
                box_at self' p = box_at self p).
      { apply (inherited_keeps_boxes key self self' cbs); [|exact Hin].
        intros fw' Hcontra. rewrite Hfw in Hcontra. discriminate. }
      exists selected. split; [|split; [|split]].
      * destruct Hsel as [Hs Hboxes]. split; [exact Hs|].
        intros p Hp. rewrite Hsame by exact Hp. by apply Hboxes.
      * apply only_checked_priority.
        destruct Hsel as [Hs Hboxes]. split; [exact Hs|].
        intros p Hp. rewrite Hsame by exact Hp. by apply Hboxes.
      * intros fw' Hcontra. discriminate.
      * reflexivity.
Qed.

End CreateTaskFacts.

Lemma priority_boxes_are_a_radio_group_witness :
  let self :=
    TUIScreen.set_focus_by_index 4
      (CreateTaskScreen.new
         (AFrame (Frame.new 1 1 80 24))
         (AButton (Button.new "Titulo" 4 4 None))
         (AButton (Button.new "Notas" 4 6 None))
         (AButton (Button.new "Tags" 4 8 None))
         (AButton (Button.new "Prioridade:" 4 10 None))
         (AButton (Button.new "Data:" 4 13 None))
         (AButton (Button.new "Frequencia:" 4 15 None))
         (AButton (Button.new "Salvar" 4 18 None))
         (AButton (Button.new "Cancelar" 15 18 None))) in
  exists self' cbs,
    CreateTaskScreen.process_input Keys.SPACE self = Ok (self', cbs)
    /\ CreateTaskScreen.get_task_priority self' = LibGerenciador.BAIXA.
Proof.
  intros self.
  destruct (CreateTaskScreen.process_input Keys.SPACE self) as [[self' cbs]|e] eqn:Hin;
    [|vm_compute in Hin; discriminate].
  exists self', cbs. split; [reflexivity|].
  destruct (@priority_boxes_are_a_radio_group ScreenWidget _) as [_ Hkeys].
  destruct (Hkeys Keys.SPACE self self' cbs CreateTaskScreen.priority_none)
    as (selected' & _ & Hprio & Hfocused & _).
  - split; [apply (bool_decide_unpack _); vm_compute; exact I|].
    intros p Hp. unfold CreateTaskScreen.priorities in Hp.
    repeat (apply elem_of_cons in Hp as [->|Hp]);
      [| | | |by apply elem_of_nil in Hp]; vm_compute; reflexivity.
  - exact Hin.
  - rewrite Hprio.
    rewrite (Hfocused CreateTaskScreen.priority_low);
      [reflexivity | vm_compute; reflexivity
       | apply (bool_decide_unpack _); vm_compute; exact I | by right].
Defined.
